(** * rto-intel: the change detector and its event taxonomy

    A shallow embedding of [src/detection/differ.py], [src/detection/events.py]
    and the [TriggerEvent] dataclass of [src/storage/models.py], followed by
    the properties of the detector.

    Modelling conventions.
    - A Python [str] is a [string]: a sequence of characters with code points
      below 256.
    - A JSON payload is a [json] tree.  Python has one [None]; both a missing
      payload and a JSON [null] are [JNull].  Numbers are integers.
    - A Python [dict] holding a payload object is an association list in
      insertion order (the order [json.dumps] walks); [wf_json] states that
      keys are unique.  The two [Dict[str, Optional[Dict]]] arguments of the
      detector are [gmap string json].
    - Python code runs in [Py]: it reads and writes a [World] (the logging
      configuration and the records emitted so far) and either returns a value
      or raises.
    - [DeepDiff] is a third-party library.  The detector is parameterised over
      an implementation of the one call it makes, [DeepDiff(t1, t2,
      ignore_order=True)] (class [Differ]); [reference_differ] is a direct
      order-insensitive comparison that implements the interface. *)

From stdpp Require Import gmap strings list pretty.
From Stdlib Require Import ZArith Ascii String.
From Stdlib Require OrdersEx.
From stdpp Require sorting.

Open Scope string_scope.

(** ** Python runtime *)

Inductive exn : Type :=
| NameError (name : string).

Inductive outcome (A : Type) : Type :=
| Ok (a : A)
| Raise (e : exn).
Arguments Ok {A} a.
Arguments Raise {A} e.

(** The part of the interpreter state the detector can touch: whether the
    module logger is enabled for INFO, and the records it has emitted. *)
Record World : Type := mkWorld {
  info_enabled : bool;
  log_records : list string
}.

Definition Py (A : Type) : Type := World -> outcome A * World.

Definition ret {A} (a : A) : Py A := fun w => (Ok a, w).

Definition raise {A} (e : exn) : Py A := fun w => (Raise e, w).

Definition bind {A B} (m : Py A) (f : A -> Py B) : Py B :=
  fun w =>
    match m w with
    | (Ok a, w') => f a w'
    | (Raise e, w') => (Raise e, w')
    end.

Notation "'let*' x ':=' m 'in' k" := (bind m (fun x => k))
  (at level 10, x pattern, m at level 100, k at level 200).
Notation "m ';;' k" := (bind m (fun _ => k))
  (at level 100, k at level 200, right associativity).

(** What the caller observes of a run: the value returned or the exception. *)
Definition result_of {A} (m : Py A) (w : World) : outcome A := fst (m w).

(** [for x in xs: acc = body(acc, x)], an exception leaving the loop. *)
Fixpoint for_each {A B} (xs : list A) (acc : B) (body : B -> A -> Py B) : Py B :=
  match xs with
  | [] => ret acc
  | x :: xs' => let* acc' := body acc x in for_each xs' acc' body
  end.

(** [logger.info(msg)] *)
Definition logger_info (msg : string) : Py unit :=
  fun w =>
    (Ok tt,
     if info_enabled w
     then {| info_enabled := info_enabled w; log_records := log_records w ++ [msg] |}
     else w).

(** ** Strings *)

(** [sub in s] *)
Fixpoint str_in (sub s : string) : bool :=
  String.prefix sub s ||
  match s with
  | EmptyString => false
  | String _ s' => str_in sub s'
  end.

(** [str.lower] on one character: A-Z, and the upper-case letters of the
    Latin-1 block (0xC0-0xDE except the multiplication sign 0xD7). *)
Definition lower_char (c : ascii) : ascii :=
  let n := nat_of_ascii c in
  if (((65 <=? n) && (n <=? 90)) || ((192 <=? n) && (n <=? 222) && negb (n =? 215)))%nat
  then ascii_of_nat (n + 32)
  else c.

Fixpoint lower (s : string) : string :=
  match s with
  | EmptyString => EmptyString
  | String c s' => String (lower_char c) (lower s')
  end.

(** [sep.join(parts)] *)
Fixpoint join (sep : string) (parts : list string) : string :=
  match parts with
  | [] => ""
  | [p] => p
  | p :: ps => p ++ sep ++ join sep ps
  end.

(** ** JSON payloads and [json.dumps] *)

#[warnings="-register-all"] Inductive json : Type :=
| JNull
| JBool (b : bool)
| JInt (n : Z)
| JStr (s : string)
| JArr (items : list json)
| JObj (fields : list (string * json)).

(** Induction over payload trees, with the hypothesis available for every
    element of an array and every value of an object. *)
Lemma json_tree_ind (P : json -> Prop) :
  P JNull ->
  (forall b, P (JBool b)) ->
  (forall n, P (JInt n)) ->
  (forall s, P (JStr s)) ->
  (forall items, Forall P items -> P (JArr items)) ->
  (forall fields, Forall (fun kv => P (snd kv)) fields -> P (JObj fields)) ->
  forall t, P t.
Proof.
  intros Hnull Hbool Hint Hstr Harr Hobj.
  fix IH 1. intros [ | b | n | s | items | fields ].
  - exact Hnull.
  - apply Hbool.
  - apply Hint.
  - apply Hstr.
  - apply Harr. induction items as [ | x xs IHxs ]; constructor; [ apply IH | exact IHxs ].
  - apply Hobj. induction fields as [ | [k v] kvs IHkvs ]; constructor;
      [ apply IH | exact IHkvs ].
Qed.

(** [x is None] *)
Definition is_None (x : json) : bool :=
  match x with
  | JNull => true
  | _ => false
  end.

(** [d.get(key)] on a [Dict[str, Optional[Dict]]]: [None] when the key is
    missing. *)
Definition dict_get (d : gmap string json) (key : string) : json :=
  default JNull (d !! key).

(** First binding of [key] in a payload object. *)
Fixpoint assoc (key : string) (fields : list (string * json)) : option json :=
  match fields with
  | [] => None
  | (k, v) :: rest => if String.eqb key k then Some v else assoc key rest
  end.

(** Keys of a dict are unique, at every level. *)
Fixpoint keys_unique (ks : list string) : bool :=
  match ks with
  | [] => true
  | k :: ks' => negb (existsb (String.eqb k) ks') && keys_unique ks'
  end.

Fixpoint wf_json (t : json) : bool :=
  match t with
  | JArr items => forallb wf_json items
  | JObj fields => keys_unique (map fst fields) && forallb (fun kv => wf_json (snd kv)) fields
  | _ => true
  end.

Definition hex_digit (n : nat) : ascii :=
  match n with
  | O => "0" | 1 => "1" | 2 => "2" | 3 => "3" | 4 => "4" | 5 => "5" | 6 => "6"
  | 7 => "7" | 8 => "8" | 9 => "9" | 10 => "a" | 11 => "b" | 12 => "c"
  | 13 => "d" | 14 => "e" | _ => "f"
  end%char.

(** One character under [ensure_ascii=True]: the short escapes, printable
    ASCII as it is, everything else as [\u00xx]. *)
Definition escape_char (c : ascii) : string :=
  let n := nat_of_ascii c in
  if (n =? 34)%nat then "\" ++ String c ""
  else if (n =? 92)%nat then "\\"
  else if (n =? 8)%nat then "\b"
  else if (n =? 12)%nat then "\f"
  else if (n =? 10)%nat then "\n"
  else if (n =? 13)%nat then "\r"
  else if (n =? 9)%nat then "\t"
  else if ((32 <=? n) && (n <=? 126))%nat then String c ""
  else "\u00" ++ String (hex_digit (n / 16)) (String (hex_digit (n mod 16)) "").

Fixpoint escape_string (s : string) : string :=
  match s with
  | EmptyString => ""
  | String c s' => escape_char c ++ escape_string s'
  end.

Definition dumps_str (s : string) : string :=
  String (ascii_of_nat 34) (escape_string s) ++ String (ascii_of_nat 34) "".

(** [json.dumps(t)] with the default separators and no [sort_keys]: objects
    are written in insertion order. *)
Fixpoint json_dumps (t : json) : string :=
  match t with
  | JNull => "null"
  | JBool true => "true"
  | JBool false => "false"
  | JInt n => pretty n
  | JStr s => dumps_str s
  | JArr items => "[" ++ join ", " (map json_dumps items) ++ "]"
  | JObj fields =>
      "{" ++ join ", " (map (fun kv => dumps_str (fst kv) ++ ": " ++ json_dumps (snd kv)) fields)
          ++ "}"
  end.

(** ** [json.loads]

    The decoder of the standard library ([json/decoder.py], [json/scanner.py]),
    on a text whose characters have code points below 256.  [None] stands for
    a [JSONDecodeError] and for a value outside the payload type: a number
    with a fraction or an exponent, [NaN], [Infinity], a string with a code
    point above 255.  A number is read up to the end of its integer part, and
    the fraction or exponent that follows is refused by the caller, which
    expects a delimiter there.  The recursion is bounded by the length of the
    text; the limits of the interpreter (recursion depth, digits of an [int])
    are not modelled. *)

Module json_decoder.

(** [WHITESPACE]: space, tab, line feed, carriage return. *)
Definition is_whitespace (c : ascii) : bool :=
  let n := nat_of_ascii c in
  (n =? 32)%nat || (n =? 9)%nat || (n =? 10)%nat || (n =? 13)%nat.

Fixpoint skip_whitespace (s : string) : string :=
  match s with
  | String c s' => if is_whitespace c then skip_whitespace s' else s
  | EmptyString => EmptyString
  end.

Definition is_digit (c : ascii) : bool :=
  let n := nat_of_ascii c in (48 <=? n)%nat && (n <=? 57)%nat.

(** The value of a hexadecimal digit, in either case. *)
Definition hex_value (c : ascii) : option nat :=
  let n := nat_of_ascii c in
  if ((48 <=? n) && (n <=? 57))%nat then Some (n - 48)%nat
  else if ((97 <=? n) && (n <=? 102))%nat then Some (n - 87)%nat
  else if ((65 <=? n) && (n <=? 70))%nat then Some (n - 55)%nat
  else None.

(** [_decode_uXXXX]: the code point four hexadecimal digits give. *)
Definition decode_uXXXX (h1 h2 h3 h4 : ascii) : option nat :=
  match hex_value h1, hex_value h2, hex_value h3, hex_value h4 with
  | Some a, Some b, Some c, Some d => Some (((a * 16 + b) * 16 + c) * 16 + d)%nat
  | _, _, _, _ => None
  end.

(** The character a backslash and [esc] stand for ([BACKSLASH]). *)
Definition backslash (esc : ascii) : option ascii :=
  let n := nat_of_ascii esc in
  if (n =? 34)%nat then Some (ascii_of_nat 34)
  else if (n =? 92)%nat then Some (ascii_of_nat 92)
  else if (n =? 47)%nat then Some (ascii_of_nat 47)
  else if (n =? 98)%nat then Some (ascii_of_nat 8)
  else if (n =? 102)%nat then Some (ascii_of_nat 12)
  else if (n =? 110)%nat then Some (ascii_of_nat 10)
  else if (n =? 114)%nat then Some (ascii_of_nat 13)
  else if (n =? 116)%nat then Some (ascii_of_nat 9)
  else None.

Definition cons_char (c : ascii) (r : option (string * string)) : option (string * string) :=
  match r with
  | Some (chars, rest) => Some (String c chars, rest)
  | None => None
  end.

(** [scanstring(s, end, strict=True)]: [s] starts after the opening quote;
    the result is the string and the text after the closing quote. *)
Fixpoint scanstring (s : string) : option (string * string) :=
  match s with
  | EmptyString => None
  | String c s' =>
      let n := nat_of_ascii c in
      if (n =? 34)%nat then Some (EmptyString, s')
      else if (n =? 92)%nat then
        match s' with
        | EmptyString => None
        | String esc s'' =>
            if (nat_of_ascii esc =? 117)%nat then
              match s'' with
              | String h1 (String h2 (String h3 (String h4 s''''))) =>
                  match decode_uXXXX h1 h2 h3 h4 with
                  | Some uni =>
                      if (uni <? 256)%nat then cons_char (ascii_of_nat uni) (scanstring s'''')
                      else None
                  | None => None
                  end
              | _ => None
              end
            else
              match backslash esc with
              | Some char => cons_char char (scanstring s'')
              | None => None
              end
        end
      else if (n <? 32)%nat then None
      else cons_char c (scanstring s')
  end.

(** The digits at the start of a text, read as [int] does. *)
Fixpoint read_digits (acc : N) (s : string) : N * string :=
  match s with
  | String c s' =>
      if is_digit c then read_digits (acc * 10 + N.of_nat (nat_of_ascii c - 48)) s'
      else (acc, s)
  | EmptyString => (acc, EmptyString)
  end.

(** The integer group of [NUMBER_RE] (an optional minus sign, then a zero or
    a digit that is not zero and the digits after it), and [int] of it. *)
Definition match_number (s : string) : option (Z * string) :=
  let '(sign, s1) :=
    match s with
    | String c s' => if (nat_of_ascii c =? 45)%nat then ((-1)%Z, s') else (1%Z, s)
    | EmptyString => (1%Z, s)
    end in
  match s1 with
  | String c s2 =>
      if (nat_of_ascii c =? 48)%nat then Some (0%Z, s2)
      else if is_digit c then
        let '(n, rest) := read_digits 0 s1 in Some ((sign * Z.of_N n)%Z, rest)
      else None
  | EmptyString => None
  end.

(** [d[key] = value]: a key that is there keeps its place. *)
Fixpoint dict_set (key : string) (value : json) (d : list (string * json))
    : list (string * json) :=
  match d with
  | [] => [(key, value)]
  | (k, v) :: d' =>
      if (key =? k)%string then (k, value) :: d' else (k, v) :: dict_set key value d'
  end.

(** [dict(pairs)] *)
Definition dict (pairs : list (string * json)) : list (string * json) :=
  fold_left (fun d kv => dict_set (fst kv) (snd kv) d) pairs [].

(** [text.startswith(word)], and the text after the word. *)
Fixpoint after (word text : string) : option string :=
  match word, text with
  | EmptyString, _ => Some text
  | String a word', String b text' => if Ascii.eqb a b then after word' text' else None
  | String _ _, EmptyString => None
  end.

(** [scan_once], with the loop of [JSONArray] over the values of an array
    that is not empty ([s] starts at a value) and the loop of [JSONObject]
    over the pairs of an object that is not empty ([s] starts after the
    opening quote of a key). *)
Fixpoint scan_once (fuel : nat) (s : string) : option (json * string) :=
  match fuel with
  | O => None
  | S fuel' =>
      match s with
      | EmptyString => None
      | String nextchar s' =>
          let n := nat_of_ascii nextchar in
          if (n =? 34)%nat then
            match scanstring s' with
            | Some (chars, rest) => Some (JStr chars, rest)
            | None => None
            end
          else if (n =? 123)%nat then
            match skip_whitespace s' with
            | String c rest =>
                if (nat_of_ascii c =? 125)%nat then Some (JObj [], rest)
                else if (nat_of_ascii c =? 34)%nat then
                  match JSONObject fuel' rest with
                  | Some (pairs, rest') => Some (JObj (dict pairs), rest')
                  | None => None
                  end
                else None
            | EmptyString => None
            end
          else if (n =? 91)%nat then
            match skip_whitespace s' with
            | String c rest =>
                if (nat_of_ascii c =? 93)%nat then Some (JArr [], rest)
                else
                  match JSONArray fuel' (String c rest) with
                  | Some (values, rest') => Some (JArr values, rest')
                  | None => None
                  end
            | EmptyString => None
            end
          else
            match after "null" s, after "true" s, after "false" s with
            | Some rest, _, _ => Some (JNull, rest)
            | _, Some rest, _ => Some (JBool true, rest)
            | _, _, Some rest => Some (JBool false, rest)
            | None, None, None =>
                match match_number s with
                | Some (integer, rest) => Some (JInt integer, rest)
                | None => None
                end
            end
      end
  end
with JSONArray (fuel : nat) (s : string) : option (list json * string) :=
  match fuel with
  | O => None
  | S fuel' =>
      match scan_once fuel' s with
      | Some (value, rest) =>
          match skip_whitespace rest with
          | String c rest' =>
              if (nat_of_ascii c =? 93)%nat then Some ([value], rest')
              else if (nat_of_ascii c =? 44)%nat then
                match JSONArray fuel' (skip_whitespace rest') with
                | Some (values, rest'') => Some (value :: values, rest'')
                | None => None
                end
              else None
          | EmptyString => None
          end
      | None => None
      end
  end
with JSONObject (fuel : nat) (s : string) : option (list (string * json) * string) :=
  match fuel with
  | O => None
  | S fuel' =>
      match scanstring s with
      | Some (key, rest) =>
          match skip_whitespace rest with
          | String colon rest' =>
              if (nat_of_ascii colon =? 58)%nat then
                match scan_once fuel' (skip_whitespace rest') with
                | Some (value, rest'') =>
                    match skip_whitespace rest'' with
                    | String c rest3 =>
                        if (nat_of_ascii c =? 125)%nat then Some ([(key, value)], rest3)
                        else if (nat_of_ascii c =? 44)%nat then
                          match skip_whitespace rest3 with
                          | String quote rest4 =>
                              if (nat_of_ascii quote =? 34)%nat then
                                match JSONObject fuel' rest4 with
                                | Some (pairs, rest5) => Some ((key, value) :: pairs, rest5)
                                | None => None
                                end
                              else None
                          | EmptyString => None
                          end
                        else None
                    | EmptyString => None
                    end
                | None => None
                end
              else None
          | EmptyString => None
          end
      | None => None
      end
  end.

(** [json.loads(s)]: one value, with whitespace before and after it and
    nothing else. *)
Definition loads (s : string) : option json :=
  match scan_once (String.length s) (skip_whitespace s) with
  | Some (obj, rest) =>
      match skip_whitespace rest with
      | EmptyString => Some obj
      | String _ _ => None
      end
  | None => None
  end.

End json_decoder.

(** The fuel [scan_once] uses on the text of a payload. *)
Fixpoint json_size (t : json) : nat :=
  match t with
  | JArr items => S (list_sum (map (fun x => S (json_size x)) items))
  | JObj fields => S (list_sum (map (fun kv => S (json_size (snd kv))) fields))
  | _ => 1
  end.

(** What follows the first item of an array, or the first pair of an object,
    in its text: the other parts, each after a comma and a space, and the
    closing bracket. *)
Fixpoint tail_text (close : string) (parts : list string) (rest : string) : string :=
  match parts with
  | [] => close ++ rest
  | p :: ps => ", " ++ p ++ tail_text close ps rest
  end.

(** The text of one pair of an object. *)
Definition pair_text (kv : string * json) : string :=
  dumps_str (fst kv) ++ ": " ++ json_dumps (snd kv).

(** A text that does not go on with a digit. *)
Definition ends_number (rest : string) : Prop :=
  match rest with
  | String c _ => json_decoder.is_digit c = false
  | EmptyString => True
  end.

(** [scan_once] reads the text of [t] and stops after it, given the fuel
    [json_size t]. *)
Definition scans (t : json) : Prop :=
  forall fuel rest,
    (json_size t <= fuel)%nat -> wf_json t = true -> ends_number rest ->
    json_decoder.scan_once fuel (json_dumps t ++ rest) = Some (t, rest).

(** ** [src/detection/events.py] *)

Module events.

Inductive EventCategory : Type :=
| SCOPE | REGULATORY | REGISTRATION | CONTACT | RESTRICTION | TRAINING | NEWS.

Inductive EventType : Type :=
| SCOPE_ADDED | SCOPE_REMOVED | SCOPE_CHANGED
| REGULATORY_NEW | REGULATORY_UPDATED
| REGISTRATION_STATUS_CHANGED | REGISTRATION_EXPIRY_CHANGED | REGISTRATION_MANAGER_CHANGED
| CONTACT_ADDED | CONTACT_REMOVED | CONTACT_CHANGED
| RESTRICTION_ADDED | RESTRICTION_REMOVED
| TRAINING_PACKAGE_SUPERSEDED | TRAINING_PACKAGE_UPDATED
| INDUSTRY_NEWS.

(** The members of each enum, in declaration order. *)
Definition EventCategory_members : list EventCategory :=
  [SCOPE; REGULATORY; REGISTRATION; CONTACT; RESTRICTION; TRAINING; NEWS].

Definition EventType_members : list EventType :=
  [SCOPE_ADDED; SCOPE_REMOVED; SCOPE_CHANGED; REGULATORY_NEW; REGULATORY_UPDATED;
   REGISTRATION_STATUS_CHANGED; REGISTRATION_EXPIRY_CHANGED; REGISTRATION_MANAGER_CHANGED;
   CONTACT_ADDED; CONTACT_REMOVED; CONTACT_CHANGED; RESTRICTION_ADDED; RESTRICTION_REMOVED;
   TRAINING_PACKAGE_SUPERSEDED; TRAINING_PACKAGE_UPDATED; INDUSTRY_NEWS].

(** [member.value] *)
Definition EventCategory_value (c : EventCategory) : string :=
  match c with
  | SCOPE => "Scope"
  | REGULATORY => "Regulatory"
  | REGISTRATION => "Registration"
  | CONTACT => "Contact"
  | RESTRICTION => "Restriction"
  | TRAINING => "Training"
  | NEWS => "News"
  end.

Definition EventType_value (t : EventType) : string :=
  match t with
  | SCOPE_ADDED => "scope_added"
  | SCOPE_REMOVED => "scope_removed"
  | SCOPE_CHANGED => "scope_changed"
  | REGULATORY_NEW => "regulatory_new"
  | REGULATORY_UPDATED => "regulatory_updated"
  | REGISTRATION_STATUS_CHANGED => "registration_status_changed"
  | REGISTRATION_EXPIRY_CHANGED => "registration_expiry_changed"
  | REGISTRATION_MANAGER_CHANGED => "registration_manager_changed"
  | CONTACT_ADDED => "contact_added"
  | CONTACT_REMOVED => "contact_removed"
  | CONTACT_CHANGED => "contact_changed"
  | RESTRICTION_ADDED => "restriction_added"
  | RESTRICTION_REMOVED => "restriction_removed"
  | TRAINING_PACKAGE_SUPERSEDED => "training_package_superseded"
  | TRAINING_PACKAGE_UPDATED => "training_package_updated"
  | INDUSTRY_NEWS => "industry_news"
  end.

#[global] Instance EventCategory_eq_dec : EqDecision EventCategory.
Proof. solve_decision. Defined.

#[global] Instance EventType_eq_dec : EqDecision EventType.
Proof. solve_decision. Defined.

(** What a caller can hand to [get_event_category]: the annotation asks for
    an [EventType], the lookup accepts any hashable object.  An enum member
    is equal only to itself; in particular it differs from the string that
    is its value. *)
Inductive key : Type :=
| Member (t : EventType)
| Str (s : string).

#[global] Instance key_eq_dec : EqDecision key.
Proof. solve_decision. Defined.

(** The dict literal, entry by entry. *)
Definition EVENT_CATEGORY_MAP : list (key * EventCategory) :=
  [ (Member SCOPE_ADDED, SCOPE);
    (Member SCOPE_REMOVED, SCOPE);
    (Member SCOPE_CHANGED, SCOPE);
    (Member REGULATORY_NEW, REGULATORY);
    (Member REGULATORY_UPDATED, REGULATORY);
    (Member REGISTRATION_STATUS_CHANGED, REGISTRATION);
    (Member REGISTRATION_EXPIRY_CHANGED, REGISTRATION);
    (Member REGISTRATION_MANAGER_CHANGED, REGISTRATION);
    (Member CONTACT_ADDED, CONTACT);
    (Member CONTACT_REMOVED, CONTACT);
    (Member CONTACT_CHANGED, CONTACT);
    (Member RESTRICTION_ADDED, RESTRICTION);
    (Member RESTRICTION_REMOVED, RESTRICTION);
    (Member TRAINING_PACKAGE_SUPERSEDED, TRAINING);
    (Member TRAINING_PACKAGE_UPDATED, TRAINING);
    (Member INDUSTRY_NEWS, NEWS) ].

(** [d.get(k)] on the table: the last entry written for [k] wins, which for
    a literal without repeated keys is the only one. *)
Fixpoint table_lookup (k : key) (d : list (key * EventCategory)) : option EventCategory :=
  match d with
  | [] => None
  | (k', c) :: d' =>
      match table_lookup k d' with
      | Some c' => Some c'
      | None => if decide (k = k') then Some c else None
      end
  end.

Definition get_event_category (event_type : key) : EventCategory :=
  default SCOPE (table_lookup event_type EVENT_CATEGORY_MAP).

Definition make_source_url (rto_code endpoint : string) : string :=
  let base := "https://training.gov.au/organisation/details/" ++ rto_code in
  let endpoint_map : gmap string string :=
    {[ "scope" := base ++ "#scope";
       "regulatory" := base ++ "#regulatory";
       "registration" := base ++ "#registration";
       "contacts" := base ++ "#contacts";
       "restrictions" := base ++ "#restrictions" ]} in
  default base (endpoint_map !! endpoint).

End events.

(** ** [src/storage/models.py] *)

Module models.

Definition datetime : Type := Z.

Record TriggerEvent : Type := mkTriggerEvent {
  rto_code : string;
  rto_name : string;
  event_type : string;
  event_category : string;
  new_value : option string;
  old_value : option string;
  detected_at : option datetime;
  outreach_score : option string;
  suggested_opening : option string;
  business_implication : option string;
  source_url : option string;
  delivery_status : string;
  outreach_status : string;
  id : option Z
}.

(** The generated [__init__] as the detector calls it: seven keyword
    arguments, every other field left to the default of its declaration. *)
Definition new (rto_code rto_name event_type event_category : string)
    (old_value new_value : option string) (source_url : string) : TriggerEvent :=
  {| rto_code := rto_code;
     rto_name := rto_name;
     event_type := event_type;
     event_category := event_category;
     new_value := new_value;
     old_value := old_value;
     detected_at := None;
     outreach_score := None;
     suggested_opening := None;
     business_implication := None;
     source_url := Some source_url;
     delivery_status := "pending";
     outreach_status := "New";
     id := None |}.

End models.

(** ** The [deepdiff] library, as far as the detector uses it *)

Module deepdiff.

(** The value stored under a path of [values_changed] or [type_changes]:
    a dict with the keys [old_value] and [new_value]. *)
Record Change : Type := mkChange {
  old_value : json;
  new_value : json
}.

(** A [DeepDiff] result over JSON data: a dict from report kind to a dict
    from path to value.  A report kind is a key of the result exactly when
    its list is not empty. *)
Record DeepDiffResult : Type := mkDiff {
  iterable_item_added : list (string * json);
  iterable_item_removed : list (string * json);
  values_changed : list (string * Change);
  type_changes : list (string * Change);
  dictionary_item_added : list string;
  dictionary_item_removed : list string
}.

Definition no_diff : DeepDiffResult := mkDiff [] [] [] [] [] [].

(** [kind in diff] *)
Definition has_report {A} (report : list A) : bool :=
  match report with
  | [] => false
  | _ :: _ => true
  end.

(** [not diff] *)
Definition is_empty (diff : DeepDiffResult) : bool :=
  negb (has_report (iterable_item_added diff)
        || has_report (iterable_item_removed diff)
        || has_report (values_changed diff)
        || has_report (type_changes diff)
        || has_report (dictionary_item_added diff)
        || has_report (dictionary_item_removed diff)).

(** [DeepDiff(t1, t2, ignore_order=True)] *)
Class Differ : Type := DeepDiff : json -> json -> DeepDiffResult.

End deepdiff.

(** ** [src/detection/differ.py] *)

Module differ.

Import deepdiff.

(** The names bound at module level: the imports, [logger] and the class.
    A global name outside this list (and outside the builtins, which hold
    none of the names below) does not resolve. *)
Definition module_globals : list string :=
  ["json"; "logging"; "Any"; "Dict"; "List"; "Optional"; "DeepDiff";
   "EventType"; "get_event_category"; "make_source_url"; "TriggerEvent";
   "logger"; "ChangeDetector"].

Definition load_global (name : string) : Py unit :=
  if existsb (String.eqb name) module_globals
  then ret tt
  else raise (NameError name).

(** [EventType.X] and [EventCategory.X] as expressions of this module. *)
Definition EventType (member : events.EventType) : Py events.EventType :=
  load_global "EventType" ;; ret member.

Definition EventCategory (member : events.EventCategory) : Py events.EventCategory :=
  load_global "EventCategory" ;; ret member.

Definition ENDPOINTS : list string :=
  ["scope"; "regulatory"; "registration"; "contacts"; "restrictions"].

Section ChangeDetector.

Context `{Differ}.

Definition _handle_new_data (rto_code rto_name endpoint : string) (data : json)
    : Py (list models.TriggerEvent) :=
  logger_info ("RTO " ++ rto_code ++ ": New " ++ endpoint ++ " data appeared") ;;
  let* event_type := EventType events.SCOPE_ADDED in
  let* event_type :=
    if (endpoint =? "regulatory")%string then EventType events.REGULATORY_NEW
    else if (endpoint =? "restrictions")%string then EventType events.RESTRICTION_ADDED
    else ret event_type in
  ret [ models.new rto_code rto_name
          (events.EventType_value event_type)
          (events.EventCategory_value (events.get_event_category (events.Member event_type)))
          None
          (Some (json_dumps data))
          (events.make_source_url rto_code endpoint) ].

Definition _handle_removed_data (rto_code rto_name endpoint : string) (data : json)
    : Py (list models.TriggerEvent) :=
  logger_info ("RTO " ++ rto_code ++ ": " ++ endpoint ++ " data was removed") ;;
  let* event_type := EventType events.SCOPE_REMOVED in
  let* event_type :=
    if (endpoint =? "regulatory")%string then EventType events.REGULATORY_UPDATED
    else if (endpoint =? "restrictions")%string then EventType events.RESTRICTION_REMOVED
    else ret event_type in
  ret [ models.new rto_code rto_name
          (events.EventType_value event_type)
          (events.EventCategory_value (events.get_event_category (events.Member event_type)))
          (Some (json_dumps data))
          None
          (events.make_source_url rto_code endpoint) ].

Definition _detect_scope_changes (rto_code rto_name : string) (current baseline : json)
    (diff : DeepDiffResult) : Py (list models.TriggerEvent) :=
  let events : list models.TriggerEvent := [] in
  let* events :=
    if has_report (iterable_item_added diff) then
      for_each (iterable_item_added diff) events (fun events '(path, value) =>
        let* event_type := EventType events.SCOPE_ADDED in
        let* event_category := EventCategory events.SCOPE in
        ret (events ++ [ models.new rto_code rto_name
                           (events.EventType_value event_type)
                           (events.EventCategory_value event_category)
                           None
                           (Some (json_dumps value))
                           (events.make_source_url rto_code "scope") ])%list)
    else ret events in
  let* events :=
    if has_report (iterable_item_removed diff) then
      for_each (iterable_item_removed diff) events (fun events '(path, value) =>
        let* event_type := EventType events.SCOPE_REMOVED in
        let* event_category := EventCategory events.SCOPE in
        ret (events ++ [ models.new rto_code rto_name
                           (events.EventType_value event_type)
                           (events.EventCategory_value event_category)
                           (Some (json_dumps value))
                           None
                           (events.make_source_url rto_code "scope") ])%list)
    else ret events in
  let* events :=
    if has_report (values_changed diff) then
      for_each (values_changed diff) events (fun events '(path, change) =>
        let* event_type := EventType events.SCOPE_CHANGED in
        let* event_category := EventCategory events.SCOPE in
        ret (events ++ [ models.new rto_code rto_name
                           (events.EventType_value event_type)
                           (events.EventCategory_value event_category)
                           (Some (json_dumps (old_value change)))
                           (Some (json_dumps (new_value change)))
                           (events.make_source_url rto_code "scope") ])%list)
    else ret events in
  ret events.

Definition _detect_regulatory_changes (rto_code rto_name : string) (current baseline : json)
    (diff : DeepDiffResult) : Py (list models.TriggerEvent) :=
  let* event_type := EventType events.REGULATORY_NEW in
  let* event_category := EventCategory events.REGULATORY in
  ret [ models.new rto_code rto_name
          (events.EventType_value event_type)
          (events.EventCategory_value event_category)
          (Some (json_dumps baseline))
          (Some (json_dumps current))
          (events.make_source_url rto_code "regulatory") ].

Definition _detect_registration_changes (rto_code rto_name : string)
    (current baseline : json) (diff : DeepDiffResult) : Py (list models.TriggerEvent) :=
  let events : list models.TriggerEvent := [] in
  let* events :=
    if has_report (values_changed diff) then
      for_each (values_changed diff) events (fun events '(path, change) =>
        let* event_type :=
          if str_in "status" (lower path) then
            EventType events.REGISTRATION_STATUS_CHANGED
          else if str_in "expiry" (lower path) || str_in "end" (lower path) then
            EventType events.REGISTRATION_EXPIRY_CHANGED
          else
            EventType events.REGISTRATION_STATUS_CHANGED in
        let* event_category := EventCategory events.REGISTRATION in
        ret (events ++ [ models.new rto_code rto_name
                           (events.EventType_value event_type)
                           (events.EventCategory_value event_category)
                           (Some (json_dumps (old_value change)))
                           (Some (json_dumps (new_value change)))
                           (events.make_source_url rto_code "registration") ])%list)
    else ret events in
  ret events.

Definition _compare_data (rto_code rto_name endpoint : string) (current baseline : json)
    : Py (list models.TriggerEvent) :=
  let diff := DeepDiff baseline current in
  if is_empty diff then ret []
  else
    logger_info ("RTO " ++ rto_code ++ ": Changes detected in " ++ endpoint) ;;
    if (endpoint =? "scope")%string then
      _detect_scope_changes rto_code rto_name current baseline diff
    else if (endpoint =? "regulatory")%string then
      _detect_regulatory_changes rto_code rto_name current baseline diff
    else if (endpoint =? "registration")%string then
      _detect_registration_changes rto_code rto_name current baseline diff
    else
      let* event_type := EventType events.SCOPE_CHANGED in
      let* event_type' := EventType events.SCOPE_CHANGED in
      ret [ models.new rto_code rto_name
              (events.EventType_value event_type)
              (events.EventCategory_value
                 (events.get_event_category (events.Member event_type')))
              (Some (json_dumps baseline))
              (Some (json_dumps current))
              (events.make_source_url rto_code endpoint) ].

Definition _detect_endpoint_changes (rto_code rto_name endpoint : string)
    (current baseline : json) : Py (list models.TriggerEvent) :=
  if is_None baseline && negb (is_None current) then
    _handle_new_data rto_code rto_name endpoint current
  else if negb (is_None baseline) && is_None current then
    _handle_removed_data rto_code rto_name endpoint baseline
  else if negb (is_None baseline) && negb (is_None current) then
    _compare_data rto_code rto_name endpoint current baseline
  else ret [].

(** The body of the loop of [detect_all_changes], for one endpoint. *)
Definition detect_all_changes_body (rto_code rto_name : string)
    (current_data baseline_data : gmap string json)
    (events : list models.TriggerEvent) (endpoint : string)
    : Py (list models.TriggerEvent) :=
  let current := dict_get current_data endpoint in
  let baseline := dict_get baseline_data endpoint in
  if is_None current && is_None baseline then ret events
  else
    let* endpoint_events :=
      _detect_endpoint_changes rto_code rto_name endpoint current baseline in
    ret (events ++ endpoint_events)%list.

Definition detect_all_changes (rto_code rto_name : string)
    (current_data baseline_data : gmap string json) : Py (list models.TriggerEvent) :=
  for_each ENDPOINTS [] (detect_all_changes_body rto_code rto_name current_data baseline_data).

End ChangeDetector.

End differ.

(** ** A reference implementation of the [Differ] interface

    A direct order-insensitive comparison.  Objects are compared key by key;
    arrays are compared as collections: an item of one side with no
    counterpart on the other is reported as added or removed, whatever its
    position. *)

Module reference.

Import deepdiff.

(** Equality that ignores the order of array items and of object keys. *)
Fixpoint same_unordered (a b : json) {struct a} : bool :=
  match a, b with
  | JNull, JNull => true
  | JBool x, JBool y => Bool.eqb x y
  | JInt x, JInt y => (x =? y)%Z
  | JStr x, JStr y => (x =? y)%string
  | JArr xs, JArr ys =>
      forallb (fun x => existsb (fun y => same_unordered x y) ys) xs
      && forallb (fun y => existsb (fun x => same_unordered x y) xs) ys
  | JObj fs, JObj gs =>
      forallb (fun kv =>
                 match assoc (fst kv) gs with
                 | Some v' => same_unordered (snd kv) v'
                 | None => false
                 end) fs
      && forallb (fun kv => bool_decide (is_Some (assoc (fst kv) fs))) gs
  | _, _ => false
  end.

Definition merge (d1 d2 : DeepDiffResult) : DeepDiffResult :=
  {| iterable_item_added := iterable_item_added d1 ++ iterable_item_added d2;
     iterable_item_removed := iterable_item_removed d1 ++ iterable_item_removed d2;
     values_changed := values_changed d1 ++ values_changed d2;
     type_changes := type_changes d1 ++ type_changes d2;
     dictionary_item_added := dictionary_item_added d1 ++ dictionary_item_added d2;
     dictionary_item_removed := dictionary_item_removed d1 ++ dictionary_item_removed d2 |}%list.

Definition key_path (path key : string) : string := path ++ "['" ++ key ++ "']".

Definition index_path (path : string) (i : nat) : string := path ++ "[" ++ pretty i ++ "]".

(** The items, from index [i] on, that have no counterpart on the other
    side, each under its path. *)
Fixpoint unmatched (path : string) (i : nat) (has_counterpart : json -> bool)
    (items : list json) : list (string * json) :=
  match items with
  | [] => []
  | x :: items' =>
      if has_counterpart x
      then unmatched path (S i) has_counterpart items'
      else (index_path path i, x) :: unmatched path (S i) has_counterpart items'
  end.

(** The keys of [fs] that [gs] does not have, each under its path. *)
Definition missing_keys (path : string) (fs gs : list (string * json)) : list string :=
  map (fun kv => key_path path (fst kv))
      (filter (fun kv => assoc (fst kv) gs = None) fs).

Definition value_changed (path : string) (t1 t2 : json) : DeepDiffResult :=
  mkDiff [] [] [(path, mkChange t1 t2)] [] [] [].

Definition type_changed (path : string) (t1 t2 : json) : DeepDiffResult :=
  mkDiff [] [] [] [(path, mkChange t1 t2)] [] [].

Fixpoint diff_at (path : string) (t1 t2 : json) {struct t1} : DeepDiffResult :=
  match t1, t2 with
  | JNull, JNull => no_diff
  | JBool x, JBool y => if Bool.eqb x y then no_diff else value_changed path t1 t2
  | JInt x, JInt y => if (x =? y)%Z then no_diff else value_changed path t1 t2
  | JStr x, JStr y => if (x =? y)%string then no_diff else value_changed path t1 t2
  | JArr xs, JArr ys =>
      mkDiff
        (unmatched path 0 (fun y => existsb (fun x => same_unordered x y) xs) ys)
        (unmatched path 0 (fun x => existsb (fun y => same_unordered x y) ys) xs)
        [] [] [] []
  | JObj fs, JObj gs =>
      merge
        (mkDiff [] [] [] [] (missing_keys path gs fs) (missing_keys path fs gs))
        ((fix walk (entries : list (string * json)) : DeepDiffResult :=
            match entries with
            | [] => no_diff
            | (k, v) :: entries' =>
                merge
                  match assoc k gs with
                  | Some v' => diff_at (key_path path k) v v'
                  | None => no_diff
                  end
                  (walk entries')
            end) fs)
  | _, _ => type_changed path t1 t2
  end.

#[global] Instance reference_differ : Differ := diff_at "root".

End reference.

(** ** Relations between payloads *)

(** Structural equality up to the order of array items: scalars are equal,
    arrays hold the same items in some order, objects hold the same keys with
    related values (a dict has no order of its own). *)
#[warnings="-register-all"] Inductive json_equiv : json -> json -> Prop :=
| equiv_null : json_equiv JNull JNull
| equiv_bool b : json_equiv (JBool b) (JBool b)
| equiv_int n : json_equiv (JInt n) (JInt n)
| equiv_str s : json_equiv (JStr s) (JStr s)
| equiv_arr xs xs' ys :
    xs ≡ₚ xs' ->
    Forall2 json_equiv xs' ys ->
    json_equiv (JArr xs) (JArr ys)
| equiv_obj fs gs :
    (forall k v, assoc k fs = Some v -> exists v', assoc k gs = Some v' /\ json_equiv v v') ->
    (forall k, assoc k fs = None -> assoc k gs = None) ->
    json_equiv (JObj fs) (JObj gs).

(** Equality as mappings: the same key-value pairs whatever the insertion
    order of the keys, arrays item by item. *)
#[warnings="-register-all"] Inductive same_mapping : json -> json -> Prop :=
| same_null : same_mapping JNull JNull
| same_bool b : same_mapping (JBool b) (JBool b)
| same_int n : same_mapping (JInt n) (JInt n)
| same_str s : same_mapping (JStr s) (JStr s)
| same_arr xs ys :
    Forall2 same_mapping xs ys ->
    same_mapping (JArr xs) (JArr ys)
| same_obj fs gs :
    (forall k v, assoc k fs = Some v -> exists v', assoc k gs = Some v' /\ same_mapping v v') ->
    (forall k, assoc k fs = None -> assoc k gs = None) ->
    same_mapping (JObj fs) (JObj gs).

(** The old and new value of an event are the serialization of the baseline
    and of the current payload of a resource, as far as each is present. *)
Definition carries_payloads (current baseline : json) (e : models.TriggerEvent) : Prop :=
  (baseline = JNull /\ current <> JNull /\
   models.old_value e = None /\ models.new_value e = Some (json_dumps current)) \/
  (current = JNull /\ baseline <> JNull /\
   models.old_value e = Some (json_dumps baseline) /\ models.new_value e = None) \/
  (current <> JNull /\ baseline <> JNull /\
   models.old_value e = Some (json_dumps baseline) /\
   models.new_value e = Some (json_dumps current)).

(** The text of an event value reads back as the payload, and no other
    well-formed payload has the same text. *)
Definition reads_back (payload : json) (value : option string) : Prop :=
  match value with
  | Some text =>
      json_decoder.loads text = Some payload /\
      forall other, wf_json other = true -> json_dumps other = text -> other = payload
  | None => True
  end.

(** The law of [ignore_order=True]: payloads that differ only in the order of
    array items have an empty diff. *)
Class IgnoresOrder `{deepdiff.Differ} : Prop :=
  ignores_order : forall t1 t2,
    wf_json t1 = true -> wf_json t2 = true -> json_equiv t1 t2 ->
    deepdiff.is_empty (deepdiff.DeepDiff t1 t2) = true.

(** ** The lifecycle of an event *)

(** An event as it leaves its constructor: delivery and outreach in their
    first state, no enrichment, no timestamp. *)
Definition initial_state (e : models.TriggerEvent) : Prop :=
  models.delivery_status e = "pending" /\
  models.outreach_status e = "New" /\
  models.outreach_score e = None /\
  models.suggested_opening e = None /\
  models.business_implication e = None /\
  models.detected_at e = None.

(** The routing table of the specification for the two single-event
    outcomes: scope, regulatory and restrictions have their own pair of types,
    any other resource has the pair of scope. *)
Definition appeared_type (endpoint : string) : events.EventType :=
  if (endpoint =? "scope")%string then events.SCOPE_ADDED
  else if (endpoint =? "regulatory")%string then events.REGULATORY_NEW
  else if (endpoint =? "restrictions")%string then events.RESTRICTION_ADDED
  else events.SCOPE_ADDED.

Definition disappeared_type (endpoint : string) : events.EventType :=
  if (endpoint =? "scope")%string then events.SCOPE_REMOVED
  else if (endpoint =? "regulatory")%string then events.REGULATORY_UPDATED
  else if (endpoint =? "restrictions")%string then events.RESTRICTION_REMOVED
  else events.SCOPE_REMOVED.

(** ** Observations on [Py] computations *)

(** Every value the computation can return satisfies [P]. *)
Definition returns_only {A} (P : A -> Prop) (m : Py A) : Prop :=
  forall w a, result_of m w = Ok a -> P a.

(** Two computations give the same result, whatever the worlds they start
    in. *)
Definition same_result {A} (m1 m2 : Py A) : Prop :=
  forall w1 w2, result_of m1 w1 = result_of m2 w2.

(** The result does not depend on the world the computation starts in. *)
Definition world_independent {A} (m : Py A) : Prop := same_result m m.

(** ** Runs of the detector as a whole *)

(** The world a computation leaves behind. *)
Definition world_after {A} (m : Py A) (w : World) : World := snd (m w).

(** The results of the steps of a loop, put together as the loop of
    [detect_all_changes] does: the first exception ends the loop, otherwise
    the lists are appended in order. *)
Fixpoint gather {A} (steps : list (outcome (list A))) : outcome (list A) :=
  match steps with
  | [] => Ok []
  | Raise e :: _ => Raise e
  | Ok xs :: steps' =>
      match gather steps' with
      | Ok ys => Ok (xs ++ ys)%list
      | Raise e => Raise e
      end
  end.

(** The per-resource condition under which the comparison reaches the
    evaluation of [EventCategory]: both payloads present, a diff that is not
    empty, and a handler that builds an event for it. *)
Definition reaches_EventCategory `{deepdiff.Differ} (endpoint : string)
    (current baseline : json) : bool :=
  let diff := deepdiff.DeepDiff baseline current in
  negb (is_None baseline) && negb (is_None current) && negb (deepdiff.is_empty diff)
  && (if (endpoint =? "scope")%string then
        deepdiff.has_report (deepdiff.iterable_item_added diff)
        || deepdiff.has_report (deepdiff.iterable_item_removed diff)
        || deepdiff.has_report (deepdiff.values_changed diff)
      else if (endpoint =? "regulatory")%string then true
      else if (endpoint =? "registration")%string then
        deepdiff.has_report (deepdiff.values_changed diff)
      else false).

(** The event types the detector has a path to. *)
Definition detector_types : list events.EventType :=
  [events.SCOPE_ADDED; events.SCOPE_REMOVED; events.SCOPE_CHANGED;
   events.REGULATORY_NEW; events.REGULATORY_UPDATED;
   events.RESTRICTION_ADDED; events.RESTRICTION_REMOVED].

(** The world after the module logger was handed [msgs], in order. *)
Definition logged (msgs : list string) (w : World) : World :=
  if info_enabled w
  then {| info_enabled := info_enabled w; log_records := log_records w ++ msgs |}
  else w.

(** ** [json.dumps(data, sort_keys=True)] *)

(** The order of [str] keys: code point by code point, a proper prefix
    first. *)
Definition key_le (a b : string) : bool :=
  match OrdersEx.String_as_OT.compare a b with
  | Gt => false
  | _ => true
  end.

(** [sorted(d.items())]: the items of a dict by key, an item going before the
    first one whose key is not smaller. *)
Fixpoint insert_item {V} (item : string * V) (items : list (string * V))
    : list (string * V) :=
  match items with
  | [] => [item]
  | x :: items' =>
      if key_le (fst item) (fst x) then item :: x :: items'
      else x :: insert_item item items'
  end.

Definition sorted_items {V} (items : list (string * V)) : list (string * V) :=
  foldr insert_item [] items.

(** [json.dumps(t, sort_keys=True)]: as [json_dumps], the items of every
    object in the order of their keys. *)
Fixpoint json_dumps_sorted (t : json) : string :=
  match t with
  | JNull => "null"
  | JBool true => "true"
  | JBool false => "false"
  | JInt n => pretty n
  | JStr s => dumps_str s
  | JArr items => "[" ++ join ", " (map json_dumps_sorted items) ++ "]"
  | JObj fields =>
      "{" ++ join ", "
               (map (fun kv => dumps_str (fst kv) ++ ": " ++ snd kv)
                    (sorted_items
                       (map (fun kv => (fst kv, json_dumps_sorted (snd kv))) fields)))
          ++ "}"
  end.

(** ** [src/storage/database.py]: baselines and trigger events

    The SQLite file is modelled by the rows its tables hold once a method has
    committed, in rowid order.  A time is an instant; the text SQLite keeps
    for it (and hands back on reading) orders as the instants do, and the
    model does not tell the two apart.  Foreign keys are not enforced (the
    code never turns them on).  Rows equal under ORDER BY are left in rowid
    order, which SQL does not promise; no property below depends on it. *)

Module database.

(** What the storage layer raises: an attribute looked up on [None] (the
    connection of a database that is not connected), a row that breaks a
    constraint of the schema, a statement SQLite does not prepare, a Python
    [int] it cannot bind, and a stored text that [json.loads] rejects. *)
Inductive storage_exn : Type :=
| AttributeError (attribute : string)
| IntegrityError (constraint : string)
| OperationalError (message : string)
| OverflowError (message : string)
| JSONDecodeError.

(** A row of the table [baselines]; [UNIQUE(rto_code, endpoint)]. *)
Record BaselineRow : Type := mkBaselineRow {
  id : Z;
  rto_code : string;
  endpoint : string;
  data_hash : string;
  data_json : string;
  captured_at : models.datetime
}.

(** A row of the table [trigger_events]: the columns of the schema, the
    nullable ones as options; [new_value] is [TEXT NOT NULL]. *)
Record EventRow : Type := mkEventRow {
  event_id : Z;
  detected_at : models.datetime;
  event_rto_code : string;
  event_rto_name : string;
  event_type : string;
  event_category : string;
  old_value : option string;
  new_value : string;
  outreach_score : option string;
  suggested_opening : option string;
  business_implication : option string;
  source_url : option string;
  delivery_status : string;
  outreach_status : string
}.

(** A [Database] object over a file whose schema exists: whether [self.conn]
    is a connection, and for each of the two tables the committed rows in
    rowid order and the largest rowid the table has handed out
    (AUTOINCREMENT). *)
Record Database : Type := mkDatabase {
  conn : bool;
  baselines : list BaselineRow;
  baselines_seq : Z;
  trigger_events : list EventRow;
  trigger_events_seq : Z
}.

Definition connect (self : Database) : Database :=
  {| conn := true;
     baselines := baselines self; baselines_seq := baselines_seq self;
     trigger_events := trigger_events self; trigger_events_seq := trigger_events_seq self |}.

Definition close (self : Database) : Database :=
  if conn self
  then {| conn := false;
          baselines := baselines self; baselines_seq := baselines_seq self;
          trigger_events := trigger_events self;
          trigger_events_seq := trigger_events_seq self |}
  else self.

(** [WHERE rto_code = ? AND endpoint = ?] *)
Definition row_matches (rto_code endpoint : string) (row : BaselineRow) : bool :=
  (database.rto_code row =? rto_code)%string && (database.endpoint row =? endpoint)%string.

(** [INSERT OR REPLACE]: the rows in conflict on the unique key are deleted,
    the new row takes the next rowid. *)
Definition insert_or_replace (self : Database) (rto_code endpoint data_hash data_json : string)
    (captured_at : models.datetime) : Database :=
  {| conn := conn self;
     baselines :=
       List.filter (fun row => negb (row_matches rto_code endpoint row)) (baselines self)
       ++ [ mkBaselineRow (baselines_seq self + 1)%Z rto_code endpoint data_hash data_json
              captured_at ];
     baselines_seq := (baselines_seq self + 1)%Z;
     trigger_events := trigger_events self;
     trigger_events_seq := trigger_events_seq self |}.

(** [cursor.fetchone()] after the SELECT on the key. *)
Definition fetchone (self : Database) (rto_code endpoint : string) : option BaselineRow :=
  List.find (row_matches rto_code endpoint) (baselines self).

(** A row unpacked into the dataclass, column by column. *)
Definition event_of_row (row : EventRow) : models.TriggerEvent :=
  {| models.rto_code := event_rto_code row;
     models.rto_name := event_rto_name row;
     models.event_type := event_type row;
     models.event_category := event_category row;
     models.new_value := Some (new_value row);
     models.old_value := old_value row;
     models.detected_at := Some (detected_at row);
     models.outreach_score := outreach_score row;
     models.suggested_opening := suggested_opening row;
     models.business_implication := business_implication row;
     models.source_url := source_url row;
     models.delivery_status := delivery_status row;
     models.outreach_status := outreach_status row;
     models.id := Some (event_id row) |}.

(** The order of two values of a TEXT column: NULL below every text, texts
    byte by byte. *)
Definition compare_text (a b : option string) : comparison :=
  match a, b with
  | None, None => Eq
  | None, Some _ => Lt
  | Some _, None => Gt
  | Some x, Some y => OrdersEx.String_as_OT.compare x y
  end.

(** [ORDER BY outreach_score DESC, detected_at DESC]: may [a] stand before
    [b]. *)
Definition pending_order (a b : EventRow) : bool :=
  match compare_text (outreach_score a) (outreach_score b) with
  | Gt => true
  | Lt => false
  | Eq => (detected_at b <=? detected_at a)%Z
  end.

Fixpoint insert_row (row : EventRow) (rows : list EventRow) : list EventRow :=
  match rows with
  | [] => [row]
  | x :: rows' =>
      if pending_order row x then row :: x :: rows' else x :: insert_row row rows'
  end.

Definition order_by_pending (rows : list EventRow) : list EventRow :=
  foldr insert_row [] rows.

Section Operations.

(** The builtin [hash] on [str] (seeded per process) and [json.loads]; the
    reading of the clock by [datetime.now()] is the argument [now]. *)
Variable hash : string -> Z.
Variable json_loads : string -> option json.

Definition store_baseline (now : models.datetime) (self : Database)
    (rto_code endpoint : string) (data : json) : (storage_exn + unit) * Database :=
  let data_json := json_dumps_sorted data in
  let data_hash := pretty (hash data_json) in
  if conn self
  then (inr tt, insert_or_replace self rto_code endpoint data_hash data_json now)
  else (inl (AttributeError "cursor"), self).

Definition get_baseline (self : Database) (rto_code endpoint : string)
    : storage_exn + json :=
  if conn self then
    match fetchone self rto_code endpoint with
    | None => inr JNull
    | Some row =>
        match json_loads (data_json row) with
        | Some data => inr data
        | None => inl JSONDecodeError
        end
    end
  else inl (AttributeError "cursor").

Definition get_baseline_hash (self : Database) (rto_code endpoint : string)
    : storage_exn + option string :=
  if conn self then
    match fetchone self rto_code endpoint with
    | Some row => inr (Some (data_hash row))
    | None => inr None
    end
  else inl (AttributeError "cursor").

End Operations.

Definition insert_trigger_event (now : models.datetime) (self : Database)
    (event : models.TriggerEvent) : (storage_exn + Z) * Database :=
  if conn self then
    match models.new_value event with
    | None =>
        (inl (IntegrityError "NOT NULL constraint failed: trigger_events.new_value"), self)
    | Some value =>
        let lastrowid := (trigger_events_seq self + 1)%Z in
        (inr lastrowid,
         {| conn := conn self;
            baselines := baselines self; baselines_seq := baselines_seq self;
            trigger_events :=
              trigger_events self
              ++ [ {| event_id := lastrowid;
                      detected_at := default now (models.detected_at event);
                      event_rto_code := models.rto_code event;
                      event_rto_name := models.rto_name event;
                      event_type := models.event_type event;
                      event_category := models.event_category event;
                      old_value := models.old_value event;
                      new_value := value;
                      outreach_score := models.outreach_score event;
                      suggested_opening := models.suggested_opening event;
                      business_implication := models.business_implication event;
                      source_url := models.source_url event;
                      delivery_status := models.delivery_status event;
                      outreach_status := models.outreach_status event |} ];
            trigger_events_seq := lastrowid |})
    end
  else (inl (AttributeError "cursor"), self).

Definition get_pending_events (self : Database)
    : storage_exn + list models.TriggerEvent :=
  if conn self then
    inr (map event_of_row
             (order_by_pending
                (List.filter (fun row => (delivery_status row =? "pending")%string)
                             (trigger_events self))))
  else inl (AttributeError "cursor").

(** [UPDATE ... SET delivery_status = 'delivered' WHERE id IN (...)], on one
    row. *)
Definition deliver (event_ids : list Z) (row : EventRow) : EventRow :=
  if existsb (Z.eqb (event_id row)) event_ids then
    {| event_id := event_id row;
       detected_at := detected_at row;
       event_rto_code := event_rto_code row;
       event_rto_name := event_rto_name row;
       event_type := event_type row;
       event_category := event_category row;
       old_value := old_value row;
       new_value := new_value row;
       outreach_score := outreach_score row;
       suggested_opening := suggested_opening row;
       business_implication := business_implication row;
       source_url := source_url row;
       delivery_status := "delivered";
       outreach_status := outreach_status row |}
  else row.

(** A Python [int] that SQLite binds as INTEGER: 64 bits, signed. *)
Definition fits_INTEGER (i : Z) : bool := (- 2 ^ 63 <=? i)%Z && (i <? 2 ^ 63)%Z.

Section Delivery.

(** The limit of the SQLite library on the number of [?] in one statement,
    fixed when the library is built. *)
Variable SQLITE_MAX_VARIABLE_NUMBER : nat.

(** [mark_events_delivered]: the statement has one [?] per id and is prepared
    first, then the ids are bound, then the UPDATE runs and is committed. *)
Definition mark_events_delivered (self : Database) (event_ids : list Z)
    : (storage_exn + unit) * Database :=
  if conn self then
    if (SQLITE_MAX_VARIABLE_NUMBER <? List.length event_ids)%nat then
      (inl (OperationalError "too many SQL variables"), self)
    else if negb (forallb fits_INTEGER event_ids) then
      (inl (OverflowError "Python int too large to convert to SQLite INTEGER"), self)
    else
      (inr tt,
       {| conn := conn self;
          baselines := baselines self; baselines_seq := baselines_seq self;
          trigger_events := map (deliver event_ids) (trigger_events self);
          trigger_events_seq := trigger_events_seq self |})
  else (inl (AttributeError "cursor"), self).

End Delivery.

(** One value of a TEXT column is strictly below another. *)
Definition text_lt (a b : option string) : Prop := compare_text a b = Lt.

(** The constraint [UNIQUE(rto_code, endpoint)]. *)
Definition unique_keys (self : Database) : Prop :=
  NoDup (map (fun row => (rto_code row, endpoint row)) (baselines self)).

End database.

(** ** [src/collectors/tga_client.py]: the hash of a payload *)

Module tga_client.

Section ComputeHash.

(** [hashlib.sha256(bytes).hexdigest()], on the bytes of an ASCII text. *)
Variable sha256_hexdigest : string -> string.

Definition compute_hash (data : json) : string :=
  sha256_hexdigest (json_dumps_sorted data).

End ComputeHash.

End tga_client.

(** * Properties *)

Section PyLemmas.

Context {A B : Type}.

Lemma result_of_bind (m : Py A) (f : A -> Py B) w :
  result_of (bind m f) w =
  match m w with
  | (Ok a, w') => result_of (f a) w'
  | (Raise e, _) => Raise e
  end.
Proof. unfold result_of, bind. destruct (m w) as [[a | e] w']; reflexivity. Qed.

Lemma result_of_bind_raise (m : Py A) (f : A -> Py B) w e :
  result_of m w = Raise e -> result_of (bind m f) w = Raise e.
Proof.
  rewrite result_of_bind. unfold result_of.
  destruct (m w) as [[a' | e'] w']; simpl; intros E; [ discriminate | congruence ].
Qed.

Lemma returns_only_ret (P : A -> Prop) (a : A) : P a -> returns_only P (ret a).
Proof. intros Ha w a' E. injection E as <-. exact Ha. Qed.

Lemma returns_only_bind (Q : A -> Prop) (P : B -> Prop) (m : Py A) (f : A -> Py B) :
  returns_only Q m ->
  (forall a, Q a -> returns_only P (f a)) ->
  returns_only P (bind m f).
Proof.
  intros Hm Hf w b. rewrite result_of_bind.
  destruct (m w) as [[a | e] w'] eqn:E; [ | discriminate ].
  apply Hf. apply (Hm w). unfold result_of. rewrite E. reflexivity.
Qed.

Lemma same_result_ret (a : A) : same_result (ret a) (ret a).
Proof. intros w1 w2. reflexivity. Qed.

Lemma same_result_bind (m1 m2 : Py A) (f1 f2 : A -> Py B) :
  same_result m1 m2 ->
  (forall a, same_result (f1 a) (f2 a)) ->
  same_result (bind m1 f1) (bind m2 f2).
Proof.
  intros Hm Hf w1 w2. rewrite !result_of_bind.
  specialize (Hm w1 w2). unfold result_of in Hm.
  destruct (m1 w1) as [[a1 | e1] w1'], (m2 w2) as [[a2 | e2] w2']; simpl in Hm;
    try discriminate.
  - injection Hm as ->. apply Hf.
  - congruence.
Qed.

End PyLemmas.

Section ForEach.

Context {A B : Type}.

Lemma returns_only_for_each (P : B -> Prop) (xs : list A) (body : B -> A -> Py B) :
  (forall acc x, x ∈ xs -> P acc -> returns_only P (body acc x)) ->
  forall acc, P acc -> returns_only P (for_each xs acc body).
Proof.
  induction xs as [ | x xs IH ]; intros Hbody acc Hacc; simpl.
  - apply returns_only_ret. exact Hacc.
  - apply returns_only_bind with (Q := P).
    + apply Hbody; [ left | exact Hacc ].
    + apply IH. intros acc' x' Hx'. apply Hbody. right. exact Hx'.
Qed.

Lemma same_result_for_each (xs : list A) (body1 body2 : B -> A -> Py B) :
  (forall acc x, x ∈ xs -> same_result (body1 acc x) (body2 acc x)) ->
  forall acc, same_result (for_each xs acc body1) (for_each xs acc body2).
Proof.
  induction xs as [ | x xs IH ]; intros Hbody acc; simpl.
  - apply same_result_ret.
  - apply same_result_bind.
    + apply Hbody. left.
    + apply IH. intros acc' x' Hx'. apply Hbody. right. exact Hx'.
Qed.

End ForEach.

Lemma is_None_true t : is_None t = true <-> t = JNull.
Proof. destruct t; simpl; split; congruence. Qed.

Lemma is_None_false t : is_None t = false <-> t <> JNull.
Proof. destruct t; simpl; split; congruence. Qed.

(** Every name the embedding calls directly is bound in the module. *)
Lemma called_names_are_bound :
  Forall (fun name => differ.load_global name = ret tt)
         ["json"; "DeepDiff"; "EventType"; "get_event_category"; "make_source_url";
          "TriggerEvent"; "logger"].
Proof. repeat constructor. Qed.

Lemma EventType_resolves t : differ.EventType t = (fun w => (Ok t, w)).
Proof. reflexivity. Qed.

Lemma EventCategory_unbound c w :
  differ.EventCategory c w = (Raise (NameError "EventCategory"), w).
Proof. reflexivity. Qed.

(** ** The event taxonomy *)

(** C7: every defined event type is a key of the table and is mapped to
    exactly one category, one of the seven; a key the table does not hold is
    mapped to Scope. *)
Theorem category_lookup_total :
  (forall t : events.EventType,
      t ∈ events.EventType_members /\
      exists c, events.table_lookup (events.Member t) events.EVENT_CATEGORY_MAP = Some c /\
                events.get_event_category (events.Member t) = c /\
                c ∈ events.EventCategory_members /\
                (forall c', events.get_event_category (events.Member t) = c' -> c' = c)) /\
  (map events.EventCategory_value events.EventCategory_members =
     ["Scope"; "Regulatory"; "Registration"; "Contact"; "Restriction"; "Training"; "News"] /\
   forall c : events.EventCategory,
      c ∈ events.EventCategory_members /\
      exists t, events.get_event_category (events.Member t) = c) /\
  (forall k : events.key,
      (events.table_lookup k events.EVENT_CATEGORY_MAP = None <->
       forall t, k <> events.Member t) /\
      (events.table_lookup k events.EVENT_CATEGORY_MAP = None ->
       events.get_event_category k = events.SCOPE)).
Proof.
  split; [ | split ].
  - intros t. split.
    + destruct t; unfold events.EventType_members; set_solver.
    + destruct t; eexists; (split; [ reflexivity | ]);
        (split; [ reflexivity | ]);
        (split; [ unfold events.EventCategory_members; set_solver | intros c' <-; reflexivity ]).
  - split; [ reflexivity | ]. intros c. split.
    + destruct c; unfold events.EventCategory_members; set_solver.
    + destruct c;
        [ exists events.SCOPE_ADDED | exists events.REGULATORY_NEW
        | exists events.REGISTRATION_STATUS_CHANGED | exists events.CONTACT_ADDED
        | exists events.RESTRICTION_ADDED | exists events.TRAINING_PACKAGE_UPDATED
        | exists events.INDUSTRY_NEWS ]; reflexivity.
  - intros k. split.
    + destruct k as [t | s].
      * split; [ destruct t; discriminate | ]. intros Hk. destruct (Hk t eq_refl).
      * split; [ discriminate | reflexivity ].
    + intros Hk. unfold events.get_event_category. rewrite Hk. reflexivity.
Qed.

Lemma category_lookup_total_witness :
  events.table_lookup (events.Str "scope_added") events.EVENT_CATEGORY_MAP = None /\
  events.get_event_category (events.Str "scope_added") = events.SCOPE.
Proof.
  split; [ reflexivity | ].
  apply (proj2 (proj2 (proj2 category_lookup_total) (events.Str "scope_added"))).
  reflexivity.
Defined.

(** ** The detector *)

Section Detector.

Context `{deepdiff.Differ}.

Implicit Types (rto_code rto_name endpoint : string) (w : World).
Implicit Types (current baseline data : json).

Lemma handle_new_data_result rto_code rto_name endpoint data w :
  result_of (differ._handle_new_data rto_code rto_name endpoint data) w =
  Ok [ models.new rto_code rto_name
         (events.EventType_value (appeared_type endpoint))
         (events.EventCategory_value
            (events.get_event_category (events.Member (appeared_type endpoint))))
         None (Some (json_dumps data)) (events.make_source_url rto_code endpoint) ].
Proof.
  unfold differ._handle_new_data, appeared_type.
  destruct (String.eqb_spec endpoint "scope") as [-> | _]; [ reflexivity | ].
  destruct (String.eqb_spec endpoint "regulatory") as [-> | _]; [ reflexivity | ].
  destruct (String.eqb_spec endpoint "restrictions") as [-> | _]; reflexivity.
Qed.

Lemma handle_removed_data_result rto_code rto_name endpoint data w :
  result_of (differ._handle_removed_data rto_code rto_name endpoint data) w =
  Ok [ models.new rto_code rto_name
         (events.EventType_value (disappeared_type endpoint))
         (events.EventCategory_value
            (events.get_event_category (events.Member (disappeared_type endpoint))))
         (Some (json_dumps data)) None (events.make_source_url rto_code endpoint) ].
Proof.
  unfold differ._handle_removed_data, disappeared_type.
  destruct (String.eqb_spec endpoint "scope") as [-> | _]; [ reflexivity | ].
  destruct (String.eqb_spec endpoint "regulatory") as [-> | _]; [ reflexivity | ].
  destruct (String.eqb_spec endpoint "restrictions") as [-> | _]; reflexivity.
Qed.

Lemma compare_data_no_diff rto_code rto_name endpoint current baseline w :
  deepdiff.is_empty (deepdiff.DeepDiff baseline current) = true ->
  result_of (differ._compare_data rto_code rto_name endpoint current baseline) w = Ok [].
Proof. intros E. unfold differ._compare_data. rewrite E. reflexivity. Qed.

(** The three loops of the scope handler stop at their first item: building
    its event evaluates [EventCategory]. *)
Lemma detect_scope_changes_result rto_code rto_name current baseline diff w :
  result_of (differ._detect_scope_changes rto_code rto_name current baseline diff) w =
  if deepdiff.has_report (deepdiff.iterable_item_added diff)
     || deepdiff.has_report (deepdiff.iterable_item_removed diff)
     || deepdiff.has_report (deepdiff.values_changed diff)
  then Raise (NameError "EventCategory")
  else Ok [].
Proof.
  unfold differ._detect_scope_changes.
  destruct (deepdiff.iterable_item_added diff) as [ | [p v] added ]; [ | reflexivity ].
  destruct (deepdiff.iterable_item_removed diff) as [ | [p v] removed ]; [ | reflexivity ].
  destruct (deepdiff.values_changed diff) as [ | [p c] changed ]; reflexivity.
Qed.

Lemma detect_regulatory_changes_result rto_code rto_name current baseline diff w :
  result_of (differ._detect_regulatory_changes rto_code rto_name current baseline diff) w =
  Raise (NameError "EventCategory").
Proof. reflexivity. Qed.

(** Likewise the loop of the registration handler: the event type is chosen
    from the path, then the category is evaluated. *)
Lemma detect_registration_changes_result rto_code rto_name current baseline diff w :
  result_of (differ._detect_registration_changes rto_code rto_name current baseline diff) w =
  if deepdiff.has_report (deepdiff.values_changed diff)
  then Raise (NameError "EventCategory")
  else Ok [].
Proof.
  unfold differ._detect_registration_changes.
  destruct (deepdiff.values_changed diff) as [ | [p c] changed ]; [ reflexivity | ].
  simpl. unfold result_of, bind.
  destruct (str_in "status" (lower p)); [ reflexivity | ].
  destruct (str_in "expiry" (lower p) || str_in "end" (lower p)); reflexivity.
Qed.

Lemma compare_data_result rto_code rto_name endpoint current baseline w :
  result_of (differ._compare_data rto_code rto_name endpoint current baseline) w =
  let diff := deepdiff.DeepDiff baseline current in
  if deepdiff.is_empty diff then Ok []
  else if (endpoint =? "scope")%string then
    if deepdiff.has_report (deepdiff.iterable_item_added diff)
       || deepdiff.has_report (deepdiff.iterable_item_removed diff)
       || deepdiff.has_report (deepdiff.values_changed diff)
    then Raise (NameError "EventCategory")
    else Ok []
  else if (endpoint =? "regulatory")%string then Raise (NameError "EventCategory")
  else if (endpoint =? "registration")%string then
    if deepdiff.has_report (deepdiff.values_changed diff)
    then Raise (NameError "EventCategory")
    else Ok []
  else
    Ok [ models.new rto_code rto_name
           (events.EventType_value events.SCOPE_CHANGED)
           (events.EventCategory_value events.SCOPE)
           (Some (json_dumps baseline)) (Some (json_dumps current))
           (events.make_source_url rto_code endpoint) ].
Proof.
  unfold differ._compare_data. cbv zeta.
  destruct (deepdiff.is_empty _); [ reflexivity | ].
  rewrite result_of_bind. cbn [logger_info].
  destruct (endpoint =? "scope")%string; [ apply detect_scope_changes_result | ].
  destruct (endpoint =? "regulatory")%string; [ reflexivity | ].
  destruct (endpoint =? "registration")%string;
    [ apply detect_registration_changes_result | reflexivity ].
Qed.

Lemma detect_endpoint_changes_result rto_code rto_name endpoint current baseline w :
  result_of (differ._detect_endpoint_changes rto_code rto_name endpoint current baseline) w =
  match is_None baseline, is_None current with
  | true, true => Ok []
  | true, false => result_of (differ._handle_new_data rto_code rto_name endpoint current) w
  | false, true =>
      result_of (differ._handle_removed_data rto_code rto_name endpoint baseline) w
  | false, false =>
      result_of (differ._compare_data rto_code rto_name endpoint current baseline) w
  end.
Proof.
  unfold differ._detect_endpoint_changes.
  destruct (is_None baseline), (is_None current); reflexivity.
Qed.

Lemma detect_all_changes_body_result rto_code rto_name current_data baseline_data
    events endpoint w :
  result_of (differ.detect_all_changes_body rto_code rto_name current_data baseline_data
               events endpoint) w =
  match result_of (differ._detect_endpoint_changes rto_code rto_name endpoint
                     (dict_get current_data endpoint) (dict_get baseline_data endpoint)) w
  with
  | Ok endpoint_events => Ok (events ++ endpoint_events)%list
  | Raise e => Raise e
  end.
Proof.
  unfold differ.detect_all_changes_body. cbv zeta.
  destruct (is_None (dict_get current_data endpoint)) eqn:Ec,
           (is_None (dict_get baseline_data endpoint)) eqn:Eb; simpl.
  - rewrite detect_endpoint_changes_result, Ec, Eb, app_nil_r. reflexivity.
  - rewrite result_of_bind. unfold result_of.
    destruct (differ._detect_endpoint_changes _ _ _ _ _ w) as [[evs | e] w']; reflexivity.
  - rewrite result_of_bind. unfold result_of.
    destruct (differ._detect_endpoint_changes _ _ _ _ _ w) as [[evs | e] w']; reflexivity.
  - rewrite result_of_bind. unfold result_of.
    destruct (differ._detect_endpoint_changes _ _ _ _ _ w) as [[evs | e] w']; reflexivity.
Qed.

Lemma new_initial_state rto_code rto_name ty cat old new url :
  initial_state (models.new rto_code rto_name ty cat old new url).
Proof. repeat split. Qed.

Lemma detect_endpoint_changes_world rto_code rto_name endpoint current baseline :
  world_independent
    (differ._detect_endpoint_changes rto_code rto_name endpoint current baseline).
Proof.
  intros w1 w2. rewrite !detect_endpoint_changes_result.
  destruct (is_None baseline), (is_None current); try reflexivity.
  - rewrite !handle_new_data_result. reflexivity.
  - rewrite !handle_removed_data_result. reflexivity.
  - rewrite !compare_data_result. reflexivity.
Qed.

Lemma detect_all_changes_body_world rto_code rto_name current_data baseline_data
    events endpoint :
  world_independent
    (differ.detect_all_changes_body rto_code rto_name current_data baseline_data
       events endpoint).
Proof.
  intros w1 w2. rewrite !detect_all_changes_body_result.
  rewrite (detect_endpoint_changes_world _ _ _ _ _ w1 w2). reflexivity.
Qed.

Lemma detect_endpoint_changes_initial rto_code rto_name endpoint current baseline :
  returns_only (Forall initial_state)
    (differ._detect_endpoint_changes rto_code rto_name endpoint current baseline).
Proof.
  intros w evs. rewrite detect_endpoint_changes_result.
  destruct (is_None baseline), (is_None current).
  - intros [= <-]. constructor.
  - rewrite handle_new_data_result. intros [= <-].
    repeat constructor.
  - rewrite handle_removed_data_result. intros [= <-].
    repeat constructor.
  - rewrite compare_data_result. cbv zeta.
    repeat match goal with
           | |- context [ if ?b then _ else _ ] => destruct b
           end;
      intros [= <-]; repeat constructor.
Qed.

Lemma detect_all_changes_body_initial rto_code rto_name current_data baseline_data
    events endpoint :
  Forall initial_state events ->
  returns_only (Forall initial_state)
    (differ.detect_all_changes_body rto_code rto_name current_data baseline_data
       events endpoint).
Proof.
  intros Hacc w evs. rewrite detect_all_changes_body_result.
  destruct (result_of (differ._detect_endpoint_changes _ _ _ _ _) w) as [evs' | e] eqn:E;
    [ | discriminate ].
  intros [= <-]. apply Forall_app. split; [ exact Hacc | ].
  exact (detect_endpoint_changes_initial _ _ _ _ _ _ _ E).
Qed.

(** C2: per resource, the step of the detector follows the decision table.
    Both payloads absent: the events gathered so far are returned as they
    are.  Only the current one present: one event, of the appeared type, is
    added.  Only the baseline present: one event, of the disappeared type,
    is added.  Both present: the step is the structural comparison, which
    adds nothing when the diff is empty and can only add events when it is
    not. *)
Theorem decision_table rto_code rto_name current_data baseline_data events endpoint w :
  let current := dict_get current_data endpoint in
  let baseline := dict_get baseline_data endpoint in
  let step :=
    result_of (differ.detect_all_changes_body rto_code rto_name current_data baseline_data
                 events endpoint) w in
  match is_None baseline, is_None current with
  | true, true => step = Ok events
  | true, false =>
      exists e, step = Ok (events ++ [e])%list /\
                models.event_type e = events.EventType_value (appeared_type endpoint) /\
                models.old_value e = None /\
                models.new_value e = Some (json_dumps current)
  | false, true =>
      exists e, step = Ok (events ++ [e])%list /\
                models.event_type e = events.EventType_value (disappeared_type endpoint) /\
                models.old_value e = Some (json_dumps baseline) /\
                models.new_value e = None
  | false, false =>
      step =
        match result_of (differ._compare_data rto_code rto_name endpoint current baseline) w
        with
        | Ok endpoint_events => Ok (events ++ endpoint_events)%list
        | Raise e => Raise e
        end /\
      (deepdiff.is_empty (deepdiff.DeepDiff baseline current) = true ->
       step = Ok events) /\
      (forall endpoint_events,
          step = Ok (events ++ endpoint_events)%list -> endpoint_events <> [] ->
          deepdiff.is_empty (deepdiff.DeepDiff baseline current) = false)
  end.
Proof.
  intros current baseline step. subst step.
  rewrite detect_all_changes_body_result, detect_endpoint_changes_result.
  fold current baseline.
  destruct (is_None baseline) eqn:Eb, (is_None current) eqn:Ec.
  - rewrite app_nil_r. reflexivity.
  - rewrite handle_new_data_result. eexists. split; [ reflexivity | ].
    repeat split.
  - rewrite handle_removed_data_result. eexists. split; [ reflexivity | ].
    repeat split.
  - split; [ reflexivity | ]. split.
    + intros E. rewrite compare_data_no_diff by exact E. rewrite app_nil_r. reflexivity.
    + intros evs Hstep Hne.
      destruct (deepdiff.is_empty _) eqn:E; [ | reflexivity ].
      rewrite compare_data_no_diff in Hstep by exact E.
      injection Hstep as Hstep. rewrite app_nil_r in Hstep.
      apply (f_equal (@List.length _)) in Hstep. rewrite length_app in Hstep.
      destruct evs; [ congruence | simpl in Hstep; lia ].
Qed.

(** C3: for a payload X, the event of (baseline absent, current X) has the
    appeared type of the resource, no old value and the serialized X as new
    value; the event of (baseline X, current absent) has the disappeared
    type of the resource, the serialized X as old value and no new value.
    The types are those of the routing table: scope gives SCOPE_ADDED and
    SCOPE_REMOVED, regulatory gives REGULATORY_NEW and REGULATORY_UPDATED,
    restrictions gives RESTRICTION_ADDED and RESTRICTION_REMOVED, any other
    resource gives the scope pair. *)
Theorem appeared_disappeared_routing rto_code rto_name endpoint X w :
  X <> JNull ->
  (exists e,
      result_of (differ._detect_endpoint_changes rto_code rto_name endpoint X JNull) w
        = Ok [e] /\
      models.event_type e = events.EventType_value (appeared_type endpoint) /\
      models.old_value e = None /\
      models.new_value e = Some (json_dumps X)) /\
  (exists e,
      result_of (differ._detect_endpoint_changes rto_code rto_name endpoint JNull X) w
        = Ok [e] /\
      models.event_type e = events.EventType_value (disappeared_type endpoint) /\
      models.old_value e = Some (json_dumps X) /\
      models.new_value e = None) /\
  (appeared_type "scope" = events.SCOPE_ADDED /\
   disappeared_type "scope" = events.SCOPE_REMOVED /\
   appeared_type "regulatory" = events.REGULATORY_NEW /\
   disappeared_type "regulatory" = events.REGULATORY_UPDATED /\
   appeared_type "restrictions" = events.RESTRICTION_ADDED /\
   disappeared_type "restrictions" = events.RESTRICTION_REMOVED /\
   (endpoint <> "scope" -> endpoint <> "regulatory" -> endpoint <> "restrictions" ->
    appeared_type endpoint = events.SCOPE_ADDED /\
    disappeared_type endpoint = events.SCOPE_REMOVED)).
Proof.
  intros HX. apply is_None_false in HX.
  rewrite !detect_endpoint_changes_result, HX. simpl.
  rewrite handle_new_data_result, handle_removed_data_result.
  split; [ eexists; repeat split | ].
  split; [ eexists; repeat split | ].
  repeat (split; [ reflexivity | ]).
  intros H1 H2 H3. unfold appeared_type, disappeared_type.
  destruct (String.eqb_spec endpoint "scope"); [ contradiction | ].
  destruct (String.eqb_spec endpoint "regulatory"); [ contradiction | ].
  destruct (String.eqb_spec endpoint "restrictions"); [ contradiction | ].
  split; reflexivity.
Qed.

(** C8: the result of detection is a function of its four arguments: two
    runs on the same arguments give the same result (the same event list, or
    the same exception) whatever the state of the world each starts in. *)
Theorem detection_deterministic rto_code rto_name current_data baseline_data w1 w2 :
  result_of (differ.detect_all_changes rto_code rto_name current_data baseline_data) w1 =
  result_of (differ.detect_all_changes rto_code rto_name current_data baseline_data) w2.
Proof.
  revert w1 w2. unfold differ.detect_all_changes.
  apply same_result_for_each. intros acc endpoint _.
  apply detect_all_changes_body_world.
Qed.

(** C10: every event the detector returns is in the initial state of the
    lifecycle: delivery status pending, outreach status New, no score, no
    opening, no implication, no detection time. *)
Theorem events_created_in_initial_state rto_code rto_name current_data baseline_data
    w evs :
  result_of (differ.detect_all_changes rto_code rto_name current_data baseline_data) w
    = Ok evs ->
  Forall initial_state evs.
Proof.
  revert w evs. unfold differ.detect_all_changes.
  apply (returns_only_for_each (Forall initial_state)); [ | constructor ].
  intros acc endpoint _ Hacc. apply detect_all_changes_body_initial. exact Hacc.
Qed.

Lemma reported_not_empty diff :
  deepdiff.has_report (deepdiff.iterable_item_added diff)
  || deepdiff.has_report (deepdiff.iterable_item_removed diff)
  || deepdiff.has_report (deepdiff.values_changed diff) = true ->
  deepdiff.is_empty diff = false.
Proof.
  unfold deepdiff.is_empty. intros E.
  destruct (deepdiff.has_report (deepdiff.iterable_item_added diff)),
           (deepdiff.has_report (deepdiff.iterable_item_removed diff)),
           (deepdiff.has_report (deepdiff.values_changed diff));
    simpl in *; congruence.
Qed.

(** C1, on the code: when both scope payloads are present and their diff
    reports an added item, a removed item or a changed value, detection does
    not return a list of events: it raises NameError, the name
    [EventCategory] not being bound in the module of the detector. *)
Theorem detect_all_changes_raises rto_code rto_name current_data baseline_data w :
  let current := dict_get current_data "scope" in
  let baseline := dict_get baseline_data "scope" in
  let diff := deepdiff.DeepDiff baseline current in
  current <> JNull ->
  baseline <> JNull ->
  deepdiff.has_report (deepdiff.iterable_item_added diff)
  || deepdiff.has_report (deepdiff.iterable_item_removed diff)
  || deepdiff.has_report (deepdiff.values_changed diff) = true ->
  result_of (differ.detect_all_changes rto_code rto_name current_data baseline_data) w
    = Raise (NameError "EventCategory").
Proof.
  intros current baseline diff Hc Hb Hdiff.
  apply is_None_false in Hc, Hb.
  unfold differ.detect_all_changes, differ.ENDPOINTS. cbn [for_each].
  apply result_of_bind_raise.
  rewrite detect_all_changes_body_result, detect_endpoint_changes_result.
  fold current baseline. rewrite Hc, Hb, compare_data_result. cbv zeta. fold diff.
  rewrite (reported_not_empty diff Hdiff). cbn [String.eqb Ascii.eqb Bool.eqb].
  rewrite Hdiff. reflexivity.
Qed.

(** C4, on the code: for the regulatory resource with both payloads present,
    a non-empty diff produces no event: building the REGULATORY_NEW event
    raises NameError, the name [EventCategory] not being bound in the
    module of the detector. *)
Theorem regulatory_diff_raises rto_code rto_name current baseline w :
  baseline <> JNull ->
  current <> JNull ->
  deepdiff.is_empty (deepdiff.DeepDiff baseline current) = false ->
  result_of (differ._detect_endpoint_changes rto_code rto_name "regulatory"
               current baseline) w
    = Raise (NameError "EventCategory").
Proof.
  intros Hb Hc Hdiff. apply is_None_false in Hc, Hb.
  rewrite detect_endpoint_changes_result, Hb, Hc, compare_data_result. cbv zeta.
  rewrite Hdiff. reflexivity.
Qed.

(** The part of the registration policy that the code does follow: a diff
    without changed values produces no event. *)
Lemma registration_item_deltas_only rto_code rto_name current baseline w :
  baseline <> JNull ->
  current <> JNull ->
  deepdiff.values_changed (deepdiff.DeepDiff baseline current) = [] ->
  result_of (differ._detect_endpoint_changes rto_code rto_name "registration"
               current baseline) w
    = Ok [].
Proof.
  intros Hb Hc Hdiff. apply is_None_false in Hc, Hb.
  rewrite detect_endpoint_changes_result, Hb, Hc, compare_data_result. cbv zeta.
  rewrite Hdiff. destruct (deepdiff.is_empty _); reflexivity.
Qed.

(** C5, on the code: for the registration resource with both payloads
    present, a diff that reports a changed value produces no event,
    whatever the text of the changed path: after the event type is chosen,
    building the event raises NameError, the name [EventCategory] not being
    bound in the module of the detector. *)
Theorem registration_change_raises rto_code rto_name current baseline w :
  baseline <> JNull ->
  current <> JNull ->
  deepdiff.values_changed (deepdiff.DeepDiff baseline current) <> [] ->
  result_of (differ._detect_endpoint_changes rto_code rto_name "registration"
               current baseline) w
    = Raise (NameError "EventCategory").
Proof.
  intros Hb Hc Hdiff. apply is_None_false in Hc, Hb.
  rewrite detect_endpoint_changes_result, Hb, Hc, compare_data_result. cbv zeta.
  destruct (deepdiff.values_changed (deepdiff.DeepDiff baseline current))
    as [ | change changes ] eqn:E; [ congruence | ].
  rewrite reported_not_empty by (rewrite E; simpl; apply orb_true_r).
  reflexivity.
Qed.

End Detector.

(** ** Order-insensitive comparison *)

Lemma assoc_elem_of k v fields : assoc k fields = Some v -> (k, v) ∈ fields.
Proof.
  induction fields as [ | [k' v'] fields IH ]; simpl; [ discriminate | ].
  destruct (String.eqb_spec k k') as [-> | _].
  - intros [= ->]. left.
  - intros E. right. apply IH, E.
Qed.

Lemma assoc_is_Some k v fields : (k, v) ∈ fields -> is_Some (assoc k fields).
Proof.
  induction fields as [ | [k' v'] fields IH ]; intros Hin.
  - inversion Hin.
  - simpl. destruct (String.eqb_spec k k') as [-> | Hne]; [ eauto | ].
    apply IH. inversion Hin; subst; [ congruence | assumption ].
Qed.

Lemma keys_unique_head k ks :
  keys_unique (k :: ks) = true -> (k ∉ ks) /\ keys_unique ks = true.
Proof.
  simpl. intros [Hk Hks]%andb_true_iff. split; [ | exact Hks ].
  intros Hin. apply negb_true_iff in Hk.
  assert (existsb (String.eqb k) ks = true) as E; [ | congruence ].
  apply existsb_exists. exists k. split; [ apply list_elem_of_In, Hin | apply String.eqb_refl ].
Qed.

Lemma assoc_fresh k fields : k ∉ map fst fields -> assoc k fields = None.
Proof.
  induction fields as [ | [k' v'] fields IH ]; simpl; [ reflexivity | ].
  intros Hk. destruct (String.eqb_spec k k') as [-> | _].
  - exfalso. apply Hk. left.
  - apply IH. intros Hin. apply Hk. right. exact Hin.
Qed.

Lemma assoc_unique k v fields :
  keys_unique (map fst fields) = true -> (k, v) ∈ fields -> assoc k fields = Some v.
Proof.
  induction fields as [ | [k' v'] fields IH ]; intros Hu Hin; [ inversion Hin | ].
  simpl in Hu. apply keys_unique_head in Hu as [Hk' Hu]. simpl.
  inversion Hin as [ | ? ? ? Hin' ]; subst.
  - rewrite String.eqb_refl. reflexivity.
  - destruct (String.eqb_spec k k') as [-> | _]; [ | apply IH; assumption ].
    exfalso. apply Hk'. apply (list_elem_of_fmap_2 fst) in Hin'. exact Hin'.
Qed.

Lemma json_equiv_refl t : json_equiv t t.
Proof.
  induction t as [ | b | n | s | items IH | fields IH ] using json_tree_ind;
    try constructor.
  - apply equiv_arr with (xs' := items); [ reflexivity | ].
    induction IH; constructor; assumption.
  - intros k v Hk. exists v. split; [ exact Hk | ].
    apply assoc_elem_of in Hk. rewrite Forall_forall in IH. exact (IH _ Hk).
  - auto.
Qed.

(** Reordering the items of an array gives a structurally equal payload *)
Lemma json_equiv_permuted_items xs ys : xs ≡ₚ ys -> json_equiv (JArr xs) (JArr ys).
Proof.
  intros Hperm. apply equiv_arr with (xs' := ys); [ exact Hperm | ].
  apply Forall2_same_length_lookup_2; [ reflexivity | ].
  intros i x y Hx Hy. rewrite Hx in Hy. injection Hy as ->. apply json_equiv_refl.
Qed.

Section Reference.

Import deepdiff reference.

Lemma same_unordered_of_equiv a :
  forall b, wf_json a = true -> json_equiv a b -> same_unordered a b = true.
Proof.
  induction a as [ | x | n | s | xs IH | fs IH ] using json_tree_ind;
    intros b Hwf Hequiv; inversion Hequiv; subst; simpl.
  - reflexivity.
  - apply Bool.eqb_reflx.
  - apply Z.eqb_refl.
  - apply String.eqb_refl.
  - rename ys into ys'. simpl in Hwf. rewrite forallb_forall in Hwf.
    rewrite Forall_forall in IH.
    match goal with Hp : xs ≡ₚ _, Hf : Forall2 json_equiv _ _ |- _ =>
      rename Hp into Hperm; rename Hf into Hall end.
    apply andb_true_iff. split; apply forallb_forall.
    + intros x Hx%list_elem_of_In.
      assert (x ∈ xs') as Hx' by (rewrite <- Hperm; exact Hx).
      apply list_elem_of_lookup in Hx' as [i Hi].
      destruct (Forall2_lookup_l _ _ _ _ _ Hall Hi) as (y & Hy & Hxy).
      apply existsb_exists. exists y. split.
      * apply list_elem_of_In. eapply list_elem_of_lookup_2, Hy.
      * apply IH; [ exact Hx | apply Hwf, list_elem_of_In, Hx | exact Hxy ].
    + intros y Hy%list_elem_of_In.
      apply list_elem_of_lookup in Hy as [i Hi].
      destruct (Forall2_lookup_r _ _ _ _ _ Hall Hi) as (x & Hx & Hxy).
      assert (x ∈ xs) as Hin.
      { rewrite Hperm. eapply list_elem_of_lookup_2, Hx. }
      apply existsb_exists. exists x. split; [ apply list_elem_of_In, Hin | ].
      apply IH; [ exact Hin | apply Hwf, list_elem_of_In, Hin | exact Hxy ].
  - simpl in Hwf. apply andb_true_iff in Hwf as [Hkeys Hvals].
    rewrite forallb_forall in Hvals. rewrite Forall_forall in IH.
    match goal with
    | Hs : forall k v, assoc k fs = Some v -> _, Hn : forall k, assoc k fs = None -> _ |- _ =>
        rename Hs into Hsome; rename Hn into Hnone
    end.
    apply andb_true_iff. split; apply forallb_forall.
    + intros [k v] Hkv%list_elem_of_In. simpl.
      destruct (Hsome k v (assoc_unique _ _ _ Hkeys Hkv)) as (v' & -> & Hvv').
      apply (IH _ Hkv); [ | exact Hvv' ].
      apply (Hvals (k, v)), list_elem_of_In, Hkv.
    + intros [k v'] Hkv%list_elem_of_In. simpl. apply bool_decide_eq_true.
      destruct (assoc k fs) as [v | ] eqn:E; [ eauto | ].
      apply Hnone in E. apply assoc_is_Some in Hkv as [? Hkv]. congruence.
Qed.

Lemma unmatched_nil path has_counterpart items :
  forall i, forallb has_counterpart items = true ->
            unmatched path i has_counterpart items = [].
Proof.
  induction items as [ | x items IH ]; intros i; simpl; [ reflexivity | ].
  intros [-> Hrest]%andb_true_iff. apply IH, Hrest.
Qed.

Lemma missing_keys_nil path fs gs :
  forallb (fun kv => bool_decide (is_Some (assoc (fst kv) gs))) fs = true ->
  missing_keys path fs gs = [].
Proof.
  unfold missing_keys. induction fs as [ | [k v] fs IH ]; simpl; [ reflexivity | ].
  intros [Hk Hrest]%andb_true_iff. apply bool_decide_eq_true in Hk as [v' Hk].
  rewrite filter_cons. simpl. rewrite decide_False by congruence. apply IH, Hrest.
Qed.

Lemma forallb_weaken {A} (f g : A -> bool) (l : list A) :
  (forall x, f x = true -> g x = true) -> forallb f l = true -> forallb g l = true.
Proof.
  intros Hfg. rewrite !forallb_forall. intros Hf x Hx. apply Hfg, Hf, Hx.
Qed.

Lemma diff_at_same a :
  forall b path, same_unordered a b = true -> diff_at path a b = no_diff.
Proof.
  induction a as [ | x | n | s | xs IH | fs IH ] using json_tree_ind;
    intros [ | y | m | s' | ys | gs ] path; simpl; try discriminate.
  - reflexivity.
  - intros ->. reflexivity.
  - intros ->. reflexivity.
  - intros ->. reflexivity.
  - intros [Hxs Hys]%andb_true_iff.
    rewrite (unmatched_nil _ _ _ _ Hxs), (unmatched_nil _ _ _ _ Hys). reflexivity.
  - intros [Hfs Hgs]%andb_true_iff.
    rewrite (missing_keys_nil path gs fs Hgs).
    rewrite (missing_keys_nil path fs gs).
    2:{ revert Hfs. apply forallb_weaken. intros [k v]. simpl.
        destruct (assoc k gs); [ | discriminate ].
        intros _. apply bool_decide_eq_true. eauto. }
    clear Hgs. induction fs as [ | [k v] fs IHfs ]; [ reflexivity | ].
    simpl in Hfs. apply andb_true_iff in Hfs as [Hk Hfs].
    apply Forall_cons in IH as [IHv IH]. simpl in IHv.
    specialize (IHfs IH Hfs). unfold merge in IHfs. simpl in IHfs.
    destruct (assoc k gs) as [v' | ]; [ | discriminate ].
    rewrite (IHv v' (key_path path k) Hk).
    unfold merge. simpl. exact IHfs.
Qed.

(** The reference implementation obeys the law of [ignore_order=True]. *)
#[global] Instance reference_ignores_order : @IgnoresOrder reference_differ.
Proof.
  intros t1 t2 Hwf1 _ Hequiv. unfold DeepDiff, reference_differ.
  rewrite diff_at_same; [ reflexivity | ].
  apply same_unordered_of_equiv; assumption.
Qed.

End Reference.

(** C6: for every resource, when the two payloads are both present and
    structurally equal up to the order of array items, the step of the
    detector adds no event; this holds for every implementation of the diff
    that obeys the law of [ignore_order=True].  In particular a payload and
    its copy with the items of an array permuted produce no event. *)
Theorem reordering_yields_no_event `{deepdiff.Differ} `{!IgnoresOrder}
    rto_code rto_name current_data baseline_data events endpoint w :
  let current := dict_get current_data endpoint in
  let baseline := dict_get baseline_data endpoint in
  current <> JNull ->
  baseline <> JNull ->
  wf_json baseline = true ->
  wf_json current = true ->
  json_equiv baseline current ->
  result_of (differ._detect_endpoint_changes rto_code rto_name endpoint current baseline) w
    = Ok [] /\
  result_of (differ.detect_all_changes_body rto_code rto_name current_data baseline_data
               events endpoint) w
    = Ok events.
Proof.
  intros current baseline Hc Hb Hwfb Hwfc Hequiv.
  apply is_None_false in Hc, Hb.
  assert (result_of (differ._detect_endpoint_changes rto_code rto_name endpoint
                       current baseline) w = Ok []) as E.
  { rewrite detect_endpoint_changes_result, Hb, Hc.
    apply compare_data_no_diff, ignores_order; assumption. }
  split; [ exact E | ].
  rewrite detect_all_changes_body_result. fold current baseline.
  rewrite E, app_nil_r. reflexivity.
Qed.

(** ** Serialized values *)

Lemma append_cons c a b : String c a ++ b = String c (a ++ b).
Proof. reflexivity. Qed.

Lemma append_assoc (a b c : string) : (a ++ b) ++ c = a ++ (b ++ c).
Proof.
  induction a as [ | x a IH ]; [ reflexivity | ].
  rewrite !append_cons. f_equal. exact IH.
Qed.

Lemma append_empty_r (a : string) : a ++ "" = a.
Proof.
  induction a as [ | x a IH ]; [ reflexivity | ].
  rewrite append_cons. f_equal. exact IH.
Qed.

Lemma length_append (a b : string) :
  String.length (a ++ b) = (String.length a + String.length b)%nat.
Proof.
  induction a as [ | x a IH ]; [ reflexivity | ].
  rewrite append_cons. simpl. f_equal. exact IH.
Qed.

Lemma scanstring_escape_char c tail :
  json_decoder.scanstring (escape_char c ++ tail)
  = json_decoder.cons_char c (json_decoder.scanstring tail).
Proof.
  destruct c as [[] [] [] [] [] [] [] []];
    match goal with
    | |- context [ escape_char ?c ] =>
        let text := eval vm_compute in (escape_char c) in
        change (escape_char c) with text
    end;
    rewrite ?append_cons; reflexivity.
Qed.

Lemma scanstring_dumps_str s rest :
  json_decoder.scanstring (escape_string s ++ String (ascii_of_nat 34) rest) = Some (s, rest).
Proof.
  induction s as [ | c s IH ]; [ reflexivity | ].
  simpl escape_string. rewrite append_assoc, scanstring_escape_char, IH. reflexivity.
Qed.

Lemma pretty_N_go_append x : forall s rest, pretty_N_go x s ++ rest = pretty_N_go x (s ++ rest).
Proof.
  induction x as [x IH] using (well_founded_induction N.lt_wf_0). intros s rest.
  destruct (decide (x = 0%N)) as [-> | Hx]; [ rewrite !pretty_N_go_0; reflexivity | ].
  rewrite (pretty_N_go_step x s), (pretty_N_go_step x (s ++ rest)) by lia.
  rewrite IH by (apply N.div_lt; lia). reflexivity.
Qed.

Lemma pretty_N_char_digit d :
  (d < 10)%N ->
  json_decoder.is_digit (pretty_N_char d) = true /\
  N.of_nat (nat_of_ascii (pretty_N_char d) - 48) = d /\
  ((nat_of_ascii (pretty_N_char d) =? 48)%nat = true -> d = 0%N).
Proof.
  intros Hd.
  assert (d = 0 \/ d = 1 \/ d = 2 \/ d = 3 \/ d = 4 \/ d = 5 \/ d = 6 \/ d = 7 \/ d = 8
          \/ d = 9)%N as Hcases by lia.
  repeat destruct Hcases as [-> | Hcases]; try subst d;
    (split; [ reflexivity | split; [ reflexivity | ] ]); first [ reflexivity | discriminate ].
Qed.

Lemma read_digits_pretty_N_go x :
  forall s, json_decoder.read_digits 0 (pretty_N_go x s) = json_decoder.read_digits x s.
Proof.
  induction x as [x IH] using (well_founded_induction N.lt_wf_0). intros s.
  destruct (decide (x = 0%N)) as [-> | Hx]; [ rewrite pretty_N_go_0; reflexivity | ].
  rewrite pretty_N_go_step by lia.
  rewrite IH by (apply N.div_lt; lia).
  destruct (pretty_N_char_digit (x mod 10)) as (Hdigit & Hvalue & _);
    [ apply N.mod_lt; lia | ].
  simpl. rewrite Hdigit, Hvalue. f_equal.
  rewrite (N.div_mod x 10) at 3 by lia. lia.
Qed.

Lemma pretty_N_go_first x :
  forall s, (0 < x)%N ->
    exists c tail,
      pretty_N_go x s = String c tail /\
      json_decoder.is_digit c = true /\
      (nat_of_ascii c =? 48)%nat = false.
Proof.
  induction x as [x IH] using (well_founded_induction N.lt_wf_0). intros s Hx.
  rewrite pretty_N_go_step by lia.
  destruct (decide (x / 10 = 0)%N) as [Hsmall | Hlarge].
  - rewrite Hsmall, pretty_N_go_0. eexists _, _. split; [ reflexivity | ].
    destruct (pretty_N_char_digit (x mod 10)) as (Hdigit & _ & Hzero);
      [ apply N.mod_lt; lia | ].
    split; [ exact Hdigit | ].
    destruct (nat_of_ascii (pretty_N_char (x mod 10)) =? 48)%nat; [ | reflexivity ].
    specialize (Hzero eq_refl). pose proof (N.div_mod x 10 ltac:(lia)). lia.
  - apply IH; [ apply N.div_lt; lia | ]. apply N.neq_0_lt_0. exact Hlarge.
Qed.

Lemma read_digits_end x rest :
  ends_number rest -> json_decoder.read_digits x rest = (x, rest).
Proof.
  destruct rest as [ | c rest ]; [ reflexivity | ].
  simpl. intros ->. reflexivity.
Qed.

Lemma is_digit_not_minus c :
  json_decoder.is_digit c = true -> (nat_of_ascii c =? 45)%nat = false.
Proof.
  unfold json_decoder.is_digit. intros [H1 _]%andb_true_iff.
  apply Nat.leb_le in H1. apply Nat.eqb_neq. lia.
Qed.

Lemma match_number_positive p rest :
  ends_number rest ->
  exists c tail,
    pretty (N.pos p) ++ rest = String c tail /\
    json_decoder.is_digit c = true /\
    (nat_of_ascii c =? 48)%nat = false /\
    json_decoder.read_digits 0 (String c tail) = (N.pos p, rest).
Proof.
  intros Hrest.
  assert (pretty (N.pos p) = pretty_N_go (N.pos p) "") as -> by reflexivity.
  rewrite pretty_N_go_append. change ("" ++ rest) with rest.
  destruct (pretty_N_go_first (N.pos p) rest) as (c & tail & E & Hdigit & Hzero); [ lia | ].
  exists c, tail. repeat split; try assumption.
  rewrite <- E, read_digits_pretty_N_go. apply read_digits_end, Hrest.
Qed.

Lemma match_number_pretty (n : Z) rest :
  ends_number rest -> json_decoder.match_number (pretty n ++ rest) = Some (n, rest).
Proof.
  intros Hrest. destruct n as [ | p | p ].
  - reflexivity.
  - change (pretty (Z.pos p)) with (pretty (N.pos p)).
    destruct (match_number_positive p rest Hrest) as (c & tail & -> & Hdigit & Hzero & Hread).
    unfold json_decoder.match_number.
    rewrite (is_digit_not_minus _ Hdigit), Hzero, Hdigit, Hread. reflexivity.
  - change (pretty (Z.neg p)) with ("-" ++ pretty (N.pos p)).
    rewrite append_cons. change ("" ++ pretty (N.pos p)) with (pretty (N.pos p)).
    rewrite append_cons.
    destruct (match_number_positive p rest Hrest) as (c & tail & -> & Hdigit & Hzero & Hread).
    unfold json_decoder.match_number. simpl (nat_of_ascii "-" =? 45)%nat. cbv iota.
    rewrite Hzero, Hdigit, Hread. reflexivity.
Qed.

Lemma join_tail_text close rest ps :
  forall p, join ", " (p :: ps) ++ close ++ rest = p ++ tail_text close ps rest.
Proof.
  induction ps as [ | q qs IH ]; intros p; [ reflexivity | ].
  change (join ", " (p :: q :: qs)) with (p ++ ", " ++ join ", " (q :: qs)).
  rewrite !append_assoc, IH. reflexivity.
Qed.

Lemma dumps_array x xs rest :
  json_dumps (JArr (x :: xs)) ++ rest
  = String "[" (json_dumps x ++ tail_text "]" (map json_dumps xs) rest).
Proof.
  change (json_dumps (JArr (x :: xs)))
    with ("[" ++ join ", " (json_dumps x :: map json_dumps xs) ++ "]").
  rewrite !append_assoc, join_tail_text. reflexivity.
Qed.

Lemma dumps_object k v fs rest :
  json_dumps (JObj ((k, v) :: fs)) ++ rest
  = String "{" (String (ascii_of_nat 34)
      (escape_string k ++ String (ascii_of_nat 34)
         (String ":" (String " " (json_dumps v ++ tail_text "}" (map pair_text fs) rest))))).
Proof.
  change (json_dumps (JObj ((k, v) :: fs)))
    with ("{" ++ join ", " (pair_text (k, v) :: map pair_text fs) ++ "}").
  rewrite !append_assoc, join_tail_text. unfold pair_text at 1, dumps_str. simpl fst. simpl snd.
  rewrite !append_cons, !append_assoc. reflexivity.
Qed.

Lemma is_digit_not_whitespace c :
  json_decoder.is_digit c = true -> json_decoder.is_whitespace c = false.
Proof.
  unfold json_decoder.is_digit, json_decoder.is_whitespace.
  intros [H1 _]%andb_true_iff. apply Nat.leb_le in H1.
  repeat (apply orb_false_intro); apply Nat.eqb_neq; lia.
Qed.

Lemma dumps_head t :
  exists c tail, json_dumps t = String c tail /\ json_decoder.is_whitespace c = false.
Proof.
  destruct t as [ | [ | ] | [ | p | p ] | s | items | fields ];
    try (eexists _, _; split; reflexivity).
  - destruct (pretty_N_go_first (N.pos p) "") as (c & tail & E & Hdigit & _); [ lia | ].
    exists c, tail. split; [ exact E | apply is_digit_not_whitespace, Hdigit ].
Qed.

Lemma skip_whitespace_dumps t rest :
  json_decoder.skip_whitespace (json_dumps t ++ rest) = json_dumps t ++ rest.
Proof.
  destruct (dumps_head t) as (c & tail & -> & Hc).
  rewrite append_cons. simpl. rewrite Hc. reflexivity.
Qed.

Lemma ends_number_tail_text close parts rest :
  ends_number (close ++ rest) -> ends_number (tail_text close parts rest).
Proof.
  destruct parts as [ | p ps ]; [ intros Hclose; exact Hclose | reflexivity ].
Qed.

Lemma scan_once_number fuel c tail :
  json_decoder.is_digit c = true \/ (nat_of_ascii c =? 45)%nat = true ->
  json_decoder.scan_once (S fuel) (String c tail)
  = match json_decoder.match_number (String c tail) with
    | Some (integer, rest) => Some (JInt integer, rest)
    | None => None
    end.
Proof.
  destruct c as [[] [] [] [] [] [] [] []];
    intros [Hc | Hc]; first [ discriminate Hc | reflexivity ].
Qed.

Lemma scan_once_int fuel (n : Z) rest :
  ends_number rest ->
  json_decoder.scan_once (S fuel) (pretty n ++ rest) = Some (JInt n, rest).
Proof.
  intros Hrest.
  assert (exists c tail, pretty n ++ rest = String c tail /\
                         (json_decoder.is_digit c = true \/ (nat_of_ascii c =? 45)%nat = true))
    as (c & tail & E & Hc).
  { destruct n as [ | p | p ].
    - eexists _, _. split; [ reflexivity | left; reflexivity ].
    - destruct (match_number_positive p rest Hrest) as (c & tail & E & Hdigit & _).
      exists c, tail. split; [ exact E | left; exact Hdigit ].
    - eexists _, _. split; [ reflexivity | right; reflexivity ]. }
  pose proof (match_number_pretty n rest Hrest) as Hnum.
  rewrite E in *. rewrite scan_once_number by exact Hc. rewrite Hnum. reflexivity.
Qed.

Lemma dict_set_fresh acc k v ps :
  keys_unique (map fst (acc ++ (k, v) :: ps)) = true ->
  json_decoder.dict_set k v acc = (acc ++ [(k, v)])%list.
Proof.
  induction acc as [ | [a b] acc IH ]; [ reflexivity | ].
  simpl. intros [Ha Hu]%keys_unique_head.
  destruct (String.eqb_spec k a) as [-> | _].
  - destruct Ha. rewrite map_app. apply elem_of_app. right. simpl. left.
  - f_equal. apply IH, Hu.
Qed.

Lemma dict_unique pairs :
  forall acc,
    keys_unique (map fst (acc ++ pairs)) = true ->
    fold_left (fun d kv => json_decoder.dict_set (fst kv) (snd kv) d) pairs acc
    = (acc ++ pairs)%list.
Proof.
  induction pairs as [ | [k v] ps IH ]; intros acc Hu; [ rewrite app_nil_r; reflexivity | ].
  simpl. rewrite (dict_set_fresh _ _ _ _ Hu), IH; rewrite <- app_assoc; [ reflexivity | exact Hu ].
Qed.

Lemma skip_whitespace_cons c s :
  json_decoder.skip_whitespace (String c s)
  = if json_decoder.is_whitespace c then json_decoder.skip_whitespace s else String c s.
Proof. reflexivity. Qed.

Lemma append_empty_l (a : string) : "" ++ a = a.
Proof. reflexivity. Qed.

(** Evaluate the tests of the decoder on the literal characters of a text. *)
Ltac scan_text :=
  repeat first
    [ progress cbv beta iota
    | progress rewrite ?append_empty_l, ?append_cons
    | rewrite skip_whitespace_cons;
      match goal with
      | |- context [ json_decoder.is_whitespace ?c ] =>
          let v := eval vm_compute in (json_decoder.is_whitespace c) in
          lazymatch v with
          | true => idtac
          | false => idtac
          end;
          change (json_decoder.is_whitespace c) with v
      end
    | match goal with
      | |- context [ (nat_of_ascii ?c =? ?k)%nat ] =>
          let v := eval vm_compute in (nat_of_ascii c =? k)%nat in
          lazymatch v with
          | true => idtac
          | false => idtac
          end;
          change (nat_of_ascii c =? k)%nat with v
      end ].

Lemma JSONArray_items xs :
  Forall scans xs ->
  forall x fuel rest,
    scans x ->
    (list_sum (map (fun x => S (json_size x)) (x :: xs)) <= fuel)%nat ->
    forallb wf_json (x :: xs) = true ->
    json_decoder.JSONArray fuel (json_dumps x ++ tail_text "]" (map json_dumps xs) rest)
    = Some (x :: xs, rest).
Proof.
  induction 1 as [ | y ys Hy _ IH ]; intros x fuel rest Hx Hfuel Hwf;
    simpl in Hfuel, Hwf; apply andb_true_iff in Hwf as [Hwx Hwf];
    (destruct fuel as [ | fuel ]; [ lia | ]);
    cbn [json_decoder.JSONArray];
    rewrite Hx by (first [ lia | assumption | apply ends_number_tail_text; reflexivity ]).
  - reflexivity.
  - cbn [map tail_text]. rewrite !append_cons.
    change ("" ++ json_dumps y ++ tail_text "]" (map json_dumps ys) rest)
      with (json_dumps y ++ tail_text "]" (map json_dumps ys) rest).
    scan_text.
    rewrite skip_whitespace_dumps, IH; [ reflexivity | exact Hy | simpl; lia | exact Hwf ].
Qed.

Lemma JSONObject_pairs fs :
  Forall (fun kv => scans (snd kv)) fs ->
  forall k v fuel rest,
    scans v ->
    (list_sum (map (fun kv => S (json_size (snd kv))) ((k, v) :: fs)) <= fuel)%nat ->
    forallb (fun kv => wf_json (snd kv)) ((k, v) :: fs) = true ->
    json_decoder.JSONObject fuel
      (escape_string k ++ String (ascii_of_nat 34)
         (String ":" (String " " (json_dumps v ++ tail_text "}" (map pair_text fs) rest))))
    = Some ((k, v) :: fs, rest).
Proof.
  induction 1 as [ | [k' v'] fs Hv' _ IH ]; intros k v fuel rest Hv Hfuel Hwf;
    simpl in Hfuel, Hwf; apply andb_true_iff in Hwf as [Hwv Hwf];
    (destruct fuel as [ | fuel ]; [ lia | ]);
    cbn [json_decoder.JSONObject];
    rewrite scanstring_dumps_str; scan_text; rewrite skip_whitespace_dumps;
    rewrite Hv by (first [ lia | assumption | apply ends_number_tail_text; reflexivity ]).
  - reflexivity.
  - cbn [map tail_text]. unfold pair_text at 1, dumps_str. cbn [fst snd].
    rewrite !append_cons, !append_assoc.
    change ("" ++ escape_string k') with (escape_string k'). rewrite !append_cons.
    change ("" ++ json_dumps v' ++ tail_text "}" (map pair_text fs) rest)
      with (json_dumps v' ++ tail_text "}" (map pair_text fs) rest).
    scan_text.
    rewrite IH; [ reflexivity | exact Hv' | simpl; lia | exact Hwf ].
Qed.

Lemma scan_once_dumps t : scans t.
Proof.
  induction t as [ | b | n | s | items IH | fields IH ] using json_tree_ind;
    intros fuel rest Hfuel Hwf Hrest;
    (destruct fuel as [ | fuel ]; [ simpl in Hfuel; lia | ]).
  - reflexivity.
  - destruct b; reflexivity.
  - apply scan_once_int, Hrest.
  - change (json_dumps (JStr s)) with (dumps_str s). unfold dumps_str.
    rewrite append_assoc. scan_text. cbn [json_decoder.scan_once]. scan_text.
    rewrite scanstring_dumps_str. reflexivity.
  - destruct items as [ | x xs ]; [ reflexivity | ].
    rewrite dumps_array. cbn [json_decoder.scan_once]. scan_text.
    rewrite skip_whitespace_dumps.
    destruct (dumps_head x) as (c & tail & E & Hc).
    apply Forall_cons in IH as [Hx Hxs].
    pose proof (JSONArray_items xs Hxs x fuel rest Hx) as Hitems.
    rewrite E in *. rewrite append_cons in *.
    assert ((nat_of_ascii c =? 93)%nat = false) as ->.
    { destruct x as [ | [ | ] | [ | p | p ] | s | items | fields ];
        try (injection E as <- _; reflexivity).
      destruct (pretty_N_go_first (N.pos p) "") as (c' & tail' & E' & Hdigit & _); [ lia | ].
      change (json_dumps (JInt (Z.pos p))) with (pretty_N_go (N.pos p) "") in E.
      rewrite E' in E. injection E as -> _.
      unfold json_decoder.is_digit in Hdigit. apply andb_true_iff in Hdigit as [_ Hle].
      apply Nat.leb_le in Hle. apply Nat.eqb_neq. lia. }
    rewrite Hitems; [ reflexivity | simpl in Hfuel |- *; lia | exact Hwf ].
  - destruct fields as [ | [k v] fs ]; [ reflexivity | ].
    rewrite dumps_object. cbn [json_decoder.scan_once]. scan_text.
    apply Forall_cons in IH as [Hv Hfs]. simpl in Hwf.
    apply andb_true_iff in Hwf as [Hkeys Hwf].
    rewrite (JSONObject_pairs fs Hfs k v fuel rest Hv); [ | simpl in Hfuel |- *; lia | exact Hwf ].
    unfold json_decoder.dict. rewrite dict_unique; [ reflexivity | exact Hkeys ].
Qed.

Lemma tail_text_length close rest (sizes : list nat) (parts : list string) :
  Forall2 (fun size part => (size <= String.length part)%nat) sizes parts ->
  (list_sum (map S sizes) + String.length close
   <= String.length (tail_text close parts rest))%nat.
Proof.
  induction 1 as [ | size part sizes parts Hpart _ IH ]; simpl.
  - rewrite length_append. lia.
  - rewrite append_empty_l, length_append. lia.
Qed.

Lemma json_size_length t : (json_size t <= String.length (json_dumps t))%nat.
Proof.
  induction t as [ | b | n | s | items IH | fields IH ] using json_tree_ind.
  - simpl. lia.
  - destruct b; simpl; lia.
  - destruct (dumps_head (JInt n)) as (c & tail & -> & _). simpl. lia.
  - destruct (dumps_head (JStr s)) as (c & tail & -> & _). simpl. lia.
  - destruct items as [ | x xs ]; [ simpl; lia | ].
    rewrite <- (append_empty_r (json_dumps (JArr (x :: xs)))), dumps_array.
    apply Forall_cons in IH as [Hx Hxs].
    pose proof (tail_text_length "]" "" (map json_size xs) (map json_dumps xs)) as Htail.
    rewrite map_map in Htail.
    cbn [json_size map String.length]. rewrite length_append.
    match goal with
    | |- context [ list_sum (?a :: ?l) ] => change (list_sum (a :: l)) with (a + list_sum l)%nat
    end.
    enough (list_sum (map (fun x => S (json_size x)) xs) + 1
            <= String.length (tail_text "]" (map json_dumps xs) ""))%nat by lia.
    apply Htail. apply Forall2_fmap, Forall_Forall2_diag. exact Hxs.
  - destruct fields as [ | [k v] fs ]; [ simpl; lia | ].
    rewrite <- (append_empty_r (json_dumps (JObj ((k, v) :: fs)))), dumps_object.
    apply Forall_cons in IH as [Hv Hfs]. simpl in Hv.
    pose proof (tail_text_length "}" "" (map (fun kv => json_size (snd kv)) fs)
                  (map pair_text fs)) as Htail.
    rewrite map_map in Htail.
    cbn [json_size map String.length snd]. rewrite !length_append.
    match goal with
    | |- context [ list_sum (?a :: ?l) ] => change (list_sum (a :: l)) with (a + list_sum l)%nat
    end.
    cbn [String.length]. rewrite length_append.
    enough (list_sum (map (fun kv => S (json_size (snd kv))) fs) + 1
            <= String.length (tail_text "}" (map pair_text fs) ""))%nat by lia.
    apply Htail. apply Forall2_fmap, Forall_Forall2_diag.
    eapply Forall_impl; [ exact Hfs | ].
    intros [k' v'] Hkv. unfold pair_text. rewrite !length_append. simpl in *. lia.
Qed.

(** [json.loads(json.dumps(t))] is [t], the keys of every object in the order
    in which [t] holds them. *)
Lemma loads_dumps t :
  wf_json t = true -> json_decoder.loads (json_dumps t) = Some t.
Proof.
  intros Hwf. unfold json_decoder.loads.
  rewrite <- (append_empty_r (json_dumps t)) at 2.
  rewrite skip_whitespace_dumps, (scan_once_dumps t _ "" (json_size_length t) Hwf I).
  reflexivity.
Qed.

Lemma json_dumps_inj a b :
  wf_json a = true -> wf_json b = true -> json_dumps a = json_dumps b -> a = b.
Proof.
  intros Ha Hb E. apply loads_dumps in Ha, Hb. rewrite E in Ha. congruence.
Qed.

Lemma reads_back_dumps payload :
  wf_json payload = true -> reads_back payload (Some (json_dumps payload)).
Proof.
  intros Hwf. split; [ apply loads_dumps, Hwf | ].
  intros other Hother E. apply json_dumps_inj; assumption.
Qed.

Section Serialization.

Context `{deepdiff.Differ}.

Lemma detect_endpoint_changes_carries rto_code rto_name endpoint current baseline :
  returns_only (Forall (carries_payloads current baseline))
    (differ._detect_endpoint_changes rto_code rto_name endpoint current baseline).
Proof.
  intros w evs. rewrite detect_endpoint_changes_result.
  destruct (is_None baseline) eqn:Eb, (is_None current) eqn:Ec.
  - intros [= <-]. constructor.
  - apply is_None_true in Eb. apply is_None_false in Ec.
    rewrite handle_new_data_result. intros [= <-].
    apply List.Forall_cons; [ | apply List.Forall_nil ].
    left. repeat split; assumption.
  - apply is_None_false in Eb. apply is_None_true in Ec.
    rewrite handle_removed_data_result. intros [= <-].
    apply List.Forall_cons; [ | apply List.Forall_nil ].
    right. left. repeat split; assumption.
  - apply is_None_false in Eb, Ec. rewrite compare_data_result. cbv zeta.
    repeat match goal with
           | |- context [ if ?b then _ else _ ] => destruct b
           end;
      intros [= <-]; try apply List.Forall_nil.
    apply List.Forall_cons; [ | apply List.Forall_nil ].
    right. right. repeat split; assumption.
Qed.

(** C9, as amended: the old and new value of every event the detector
    returns are the serialization of the baseline and current payload of a
    resource in the insertion order of their keys.  Read back with
    [json.loads], each string gives the payload it was written from, the keys
    of every object in the order in which the payload holds them; and no other
    well-formed payload has the same string, so the same key-value pairs
    inserted in another order never give the same value. *)
Theorem serialization_in_insertion_order rto_code rto_name current_data baseline_data w evs e :
  (forall endpoint, endpoint ∈ differ.ENDPOINTS ->
     wf_json (dict_get current_data endpoint) = true /\
     wf_json (dict_get baseline_data endpoint) = true) ->
  result_of (differ.detect_all_changes rto_code rto_name current_data baseline_data) w
    = Ok evs ->
  e ∈ evs ->
  exists endpoint,
    endpoint ∈ differ.ENDPOINTS /\
    carries_payloads (dict_get current_data endpoint) (dict_get baseline_data endpoint) e /\
    reads_back (dict_get current_data endpoint) (models.new_value e) /\
    reads_back (dict_get baseline_data endpoint) (models.old_value e).
Proof.
  intros Hwf Hrun. revert e. apply Forall_forall. revert w evs Hrun.
  unfold differ.detect_all_changes.
  apply (returns_only_for_each
           (Forall (fun e => exists endpoint,
                        endpoint ∈ differ.ENDPOINTS /\
                        carries_payloads (dict_get current_data endpoint)
                                         (dict_get baseline_data endpoint) e /\
                        reads_back (dict_get current_data endpoint) (models.new_value e) /\
                        reads_back (dict_get baseline_data endpoint) (models.old_value e))));
    [ | constructor ].
  intros acc endpoint Hin Hacc w evs. rewrite detect_all_changes_body_result.
  destruct (result_of (differ._detect_endpoint_changes _ _ _ _ _) w) as [evs' | e] eqn:E;
    [ | discriminate ].
  intros [= <-]. apply Forall_app. split; [ exact Hacc | ].
  apply detect_endpoint_changes_carries in E.
  eapply Forall_impl; [ exact E | ].
  intros e He. exists endpoint. split; [ exact Hin | ]. split; [ exact He | ].
  destruct (Hwf endpoint Hin) as [Hcurrent Hbaseline].
  destruct He as [(_ & _ & -> & ->) | [(_ & _ & -> & ->) | (_ & _ & -> & ->)]];
    split; first [ exact I | apply reads_back_dumps; assumption ].
Qed.

End Serialization.

(** C9, as stated, fails: two payloads with the same key-value pairs, inserted
    in different orders, appear in the event under different strings. *)
Lemma serialization_not_key_ordered :
  let X := JObj [("status", JStr "Active"); ("code", JInt 45012)] in
  let Y := JObj [("code", JInt 45012); ("status", JStr "Active")] in
  let detect payload :=
    result_of (differ.detect_all_changes (H := reference.reference_differ)
                 "45012" "Acme Training" {[ "registration" := payload ]} ∅)
              (mkWorld true []) in
  wf_json X = true /\ wf_json Y = true /\ same_mapping X Y /\
  exists eX eY,
    detect X = Ok [eX] /\ detect Y = Ok [eY] /\
    models.new_value eX <> models.new_value eY.
Proof.
  intros X Y detect. split; [ reflexivity | ]. split; [ reflexivity | ]. split.
  - apply same_obj.
    + intros k v. simpl.
      destruct (String.eqb_spec k "status") as [-> | _].
      { intros [= <-]. eexists. split; [ reflexivity | constructor ]. }
      destruct (String.eqb_spec k "code") as [-> | _]; [ | discriminate ].
      intros [= <-]. eexists. split; [ reflexivity | constructor ].
    + intros k. simpl.
      destruct (String.eqb_spec k "status"); [ discriminate | ].
      destruct (String.eqb_spec k "code"); [ discriminate | ].
      destruct (String.eqb_spec k "code"); [ contradiction | ].
      destruct (String.eqb_spec k "status"); [ contradiction | reflexivity ].
  - do 2 eexists. split; [ vm_compute; reflexivity | ].
    split; [ vm_compute; reflexivity | ].
    vm_compute. discriminate.
Qed.

(** ** The theorems at concrete inputs *)

Lemma reordered_units_equiv :
  json_equiv (JObj [("units", JArr [JStr "BSB30120"; JStr "BSB40120"])])
             (JObj [("units", JArr [JStr "BSB40120"; JStr "BSB30120"])]).
Proof.
  apply equiv_obj; intros k; simpl; destruct (String.eqb_spec k "units"); try easy.
  intros v [= <-]. eexists. split; [ reflexivity | ].
  apply json_equiv_permuted_items. apply perm_swap.
Qed.

Lemma decision_table_witness :
  let payload := JObj [("status", JStr "Active")] in
  deepdiff.is_empty (reference.reference_differ payload payload) = true /\
  result_of (differ.detect_all_changes_body (H := reference.reference_differ)
               "45012" "Acme Training"
               {[ "registration" := payload ]} {[ "registration" := payload ]}
               [] "registration")
            (mkWorld true [])
    = Ok [].
Proof.
  intros payload. split; [ reflexivity | ].
  pose proof (decision_table (H := reference.reference_differ) "45012" "Acme Training"
                {[ "registration" := payload ]} {[ "registration" := payload ]}
                [] "registration" (mkWorld true [])) as T.
  cbv zeta in T.
  assert (dict_get {[ "registration" := payload ]} "registration" = payload) as E
    by reflexivity.
  rewrite !E in T. simpl in T. destruct T as (_ & T & _). apply T. reflexivity.
Defined.

Lemma appeared_disappeared_routing_witness :
  let X := JObj [("decision", JStr "Audit")] in
  X <> JNull /\
  exists e,
    result_of (differ._detect_endpoint_changes (H := reference.reference_differ)
                 "45012" "Acme Training" "regulatory" X JNull)
              (mkWorld true [])
      = Ok [e] /\
    models.event_type e = events.EventType_value (appeared_type "regulatory") /\
    models.old_value e = None /\
    models.new_value e = Some (json_dumps X).
Proof.
  intros X. split; [ discriminate | ].
  apply (appeared_disappeared_routing (H := reference.reference_differ)
           "45012" "Acme Training" "regulatory" X (mkWorld true [])).
  discriminate.
Defined.

Lemma reordering_yields_no_event_witness :
  let baseline := JObj [("units", JArr [JStr "BSB30120"; JStr "BSB40120"])] in
  let current := JObj [("units", JArr [JStr "BSB40120"; JStr "BSB30120"])] in
  result_of (differ.detect_all_changes_body (H := reference.reference_differ)
               "45012" "Acme Training"
               {[ "scope" := current ]} {[ "scope" := baseline ]} [] "scope")
            (mkWorld true [])
    = Ok [].
Proof.
  intros baseline current.
  apply (reordering_yields_no_event (H := reference.reference_differ)
           "45012" "Acme Training" {[ "scope" := current ]} {[ "scope" := baseline ]}
           [] "scope" (mkWorld true [])).
  - vm_compute. discriminate.
  - vm_compute. discriminate.
  - reflexivity.
  - reflexivity.
  - exact reordered_units_equiv.
Defined.

Lemma events_created_in_initial_state_witness :
  exists evs,
    result_of (differ.detect_all_changes (H := reference.reference_differ)
                 "45012" "Acme Training"
                 {[ "restrictions" := JObj [("kind", JStr "Condition")] ]} ∅)
              (mkWorld true [])
      = Ok evs /\
    List.length evs = 1%nat /\
    Forall initial_state evs.
Proof.
  eexists. split; [ vm_compute; reflexivity | ]. split; [ reflexivity | ].
  apply (events_created_in_initial_state (H := reference.reference_differ)
           "45012" "Acme Training"
           {[ "restrictions" := JObj [("kind", JStr "Condition")] ]} ∅ (mkWorld true [])).
  vm_compute. reflexivity.
Defined.

Lemma serialization_in_insertion_order_witness :
  let contact := JObj [("name", JStr "Ann Lee"); ("email", JStr "ann@acme.example")] in
  let X := JObj [("status", JStr "Active"); ("code", JInt 45012); ("contact", contact)] in
  let Y := JObj [("code", JInt 45012); ("status", JStr "Active"); ("contact", contact)] in
  exists e text,
    result_of (differ.detect_all_changes (H := reference.reference_differ)
                 "45012" "Acme Training" {[ "registration" := X ]} ∅)
              (mkWorld true [])
      = Ok [e] /\
    models.new_value e = Some text /\
    json_decoder.loads text = Some X /\
    json_dumps Y <> text.
Proof.
  intros contact X Y.
  eexists _, _. split; [ vm_compute; reflexivity | ]. split; [ reflexivity | ].
  match goal with
  | |- json_decoder.loads ?text = _ /\ _ =>
      assert (text = json_dumps X) as -> by (vm_compute; reflexivity)
  end.
  edestruct (serialization_in_insertion_order (H := reference.reference_differ)
               "45012" "Acme Training" {[ "registration" := X ]} ∅ (mkWorld true []))
    as (endpoint & Hin & Hcarry & Hnew & _).
  - intros endpoint Hin. unfold differ.ENDPOINTS in Hin.
    repeat (apply elem_of_cons in Hin as [-> | Hin]); [ .. | inversion Hin ];
      split; reflexivity.
  - vm_compute. reflexivity.
  - left.
  - assert (dict_get {[ "registration" := X ]} endpoint = X) as Hpayload.
    { unfold differ.ENDPOINTS in Hin.
      repeat (apply elem_of_cons in Hin as [-> | Hin]); [ .. | inversion Hin ];
        try reflexivity;
        destruct Hcarry as [(_ & Hc & _) | [(_ & Hb & _) | (Hc & _)]];
        first [ destruct Hc; reflexivity | destruct Hb; reflexivity ]. }
    rewrite Hpayload in Hnew. destruct Hnew as [Hloads Honly]. split.
    + exact Hloads.
    + intros HY. specialize (Honly Y eq_refl HY). discriminate Honly.
Defined.

Lemma detect_all_changes_raises_witness :
  let baseline := JObj [("items", JArr [JObj [("code", JStr "A")]])] in
  let current :=
    JObj [("items", JArr [JObj [("code", JStr "A")]; JObj [("code", JStr "B")]])] in
  deepdiff.iterable_item_added (reference.reference_differ baseline current)
    = [("root['items'][1]", JObj [("code", JStr "B")])] /\
  result_of (differ.detect_all_changes (H := reference.reference_differ)
               "45012" "Acme Training" {[ "scope" := current ]} {[ "scope" := baseline ]})
            (mkWorld true [])
    = Raise (NameError "EventCategory").
Proof.
  intros baseline current. split; [ reflexivity | ].
  apply (detect_all_changes_raises (H := reference.reference_differ)
           "45012" "Acme Training" {[ "scope" := current ]} {[ "scope" := baseline ]}
           (mkWorld true [])).
  - vm_compute. discriminate.
  - vm_compute. discriminate.
  - vm_compute. reflexivity.
Defined.

Lemma regulatory_diff_raises_witness :
  let baseline := JObj [("decision", JStr "Audit")] in
  let current := JObj [("decision", JStr "Sanction")] in
  deepdiff.is_empty (reference.reference_differ baseline current) = false /\
  result_of (differ._detect_endpoint_changes (H := reference.reference_differ)
               "45012" "Acme Training" "regulatory" current baseline)
            (mkWorld true [])
    = Raise (NameError "EventCategory").
Proof.
  intros baseline current. split; [ reflexivity | ].
  apply (regulatory_diff_raises (H := reference.reference_differ)
           "45012" "Acme Training" current baseline (mkWorld true [])).
  - discriminate.
  - discriminate.
  - reflexivity.
Defined.

Lemma registration_change_raises_witness :
  let baseline := JObj [("status", JStr "Active")] in
  let current := JObj [("status", JStr "Suspended")] in
  deepdiff.values_changed (reference.reference_differ baseline current)
    = [("root['status']", deepdiff.mkChange (JStr "Active") (JStr "Suspended"))] /\
  result_of (differ._detect_endpoint_changes (H := reference.reference_differ)
               "45012" "Acme Training" "registration" current baseline)
            (mkWorld true [])
    = Raise (NameError "EventCategory").
Proof.
  intros baseline current. split; [ reflexivity | ].
  apply (registration_change_raises (H := reference.reference_differ)
           "45012" "Acme Training" current baseline (mkWorld true [])).
  - discriminate.
  - discriminate.
  - vm_compute. discriminate.
Defined.

(** * Further properties of the detector *)

Section DetectorRuns.

Context `{deepdiff.Differ}.

Implicit Types (rto_code rto_name endpoint : string) (w : World).
Implicit Types (current baseline data : json).

Lemma run_eq {A} (m : Py A) w : m w = (result_of m w, world_after m w).
Proof. unfold result_of, world_after. destruct (m w); reflexivity. Qed.

Lemma world_after_bind {A B} (m : Py A) (f : A -> Py B) w :
  world_after (bind m f) w =
  match result_of m w with
  | Ok a => world_after (f a) (world_after m w)
  | Raise _ => world_after m w
  end.
Proof.
  unfold world_after, result_of, bind. destruct (m w) as [[a | e] w']; reflexivity.
Qed.

(** The shape of what one resource contributes: nothing, or one event built
    from the arguments of the run. *)
Lemma detect_endpoint_changes_shape rto_code rto_name endpoint current baseline w evs :
  result_of (differ._detect_endpoint_changes rto_code rto_name endpoint current baseline) w
    = Ok evs ->
  evs = [] \/
  exists t old new,
    evs = [ models.new rto_code rto_name (events.EventType_value t)
              (events.EventCategory_value (events.get_event_category (events.Member t)))
              old new (events.make_source_url rto_code endpoint) ] /\
    (t = appeared_type endpoint \/ t = disappeared_type endpoint \/ t = events.SCOPE_CHANGED) /\
    (old <> None \/ new <> None).
Proof.
  rewrite detect_endpoint_changes_result.
  destruct (is_None baseline), (is_None current).
  - intros [= <-]. left. reflexivity.
  - rewrite handle_new_data_result. intros [= <-]. right.
    do 3 eexists. split; [ reflexivity | ]. split; [ left; reflexivity | right; discriminate ].
  - rewrite handle_removed_data_result. intros [= <-]. right.
    do 3 eexists. split; [ reflexivity | ].
    split; [ right; left; reflexivity | left; discriminate ].
  - rewrite compare_data_result. cbv zeta.
    repeat match goal with
           | |- context [ if ?b then _ else _ ] => destruct b
           end;
      intros [= <-]; try (left; reflexivity).
    right. exists events.SCOPE_CHANGED. do 2 eexists. split; [ reflexivity | ].
    split; [ right; right; reflexivity | left; discriminate ].
Qed.

(** The loop of [detect_all_changes], from any list of resources and any
    events gathered so far. *)
Lemma for_each_endpoint_gather rto_code rto_name current_data baseline_data endpoints :
  forall acc w,
    result_of (for_each endpoints acc
                 (differ.detect_all_changes_body rto_code rto_name current_data
                    baseline_data)) w =
    match gather (map (fun endpoint =>
                         result_of (differ._detect_endpoint_changes rto_code rto_name
                                      endpoint (dict_get current_data endpoint)
                                      (dict_get baseline_data endpoint)) w)
                      endpoints)
    with
    | Ok evs => Ok (acc ++ evs)%list
    | Raise e => Raise e
    end.
Proof.
  induction endpoints as [ | endpoint endpoints IH ]; intros acc w; simpl.
  - rewrite app_nil_r. reflexivity.
  - rewrite result_of_bind, run_eq, detect_all_changes_body_result.
    destruct (result_of (differ._detect_endpoint_changes _ _ endpoint _ _) w)
      as [evs | e] eqn:E; [ | reflexivity ].
    rewrite IH.
    erewrite map_ext;
      [ | intros ep; apply (detect_endpoint_changes_world _ _ _ _ _ _ w) ].
    destruct (gather _) as [evs' | e]; [ | reflexivity ].
    rewrite app_assoc. reflexivity.
Qed.

(** X1: the result of detection is the results of the five resources, in the
    order scope, regulatory, registration, contacts, restrictions, put
    together: the exception of the first resource that raises, otherwise the
    events of all five appended in that order. *)
Theorem detect_all_changes_gathers rto_code rto_name current_data baseline_data w :
  result_of (differ.detect_all_changes rto_code rto_name current_data baseline_data) w =
  gather (map (fun endpoint =>
                 result_of (differ._detect_endpoint_changes rto_code rto_name endpoint
                              (dict_get current_data endpoint)
                              (dict_get baseline_data endpoint)) w)
              ["scope"; "regulatory"; "registration"; "contacts"; "restrictions"]).
Proof.
  unfold differ.detect_all_changes. rewrite for_each_endpoint_gather.
  change differ.ENDPOINTS
    with ["scope"; "regulatory"; "registration"; "contacts"; "restrictions"].
  destruct (gather _); reflexivity.
Qed.


Lemma detect_all_changes_each (P : models.TriggerEvent -> Prop)
    rto_code rto_name current_data baseline_data :
  (forall endpoint, endpoint ∈ differ.ENDPOINTS ->
     returns_only (Forall P)
       (differ._detect_endpoint_changes rto_code rto_name endpoint
          (dict_get current_data endpoint) (dict_get baseline_data endpoint))) ->
  returns_only (Forall P)
    (differ.detect_all_changes rto_code rto_name current_data baseline_data).
Proof.
  intros Hstep. unfold differ.detect_all_changes.
  apply (returns_only_for_each (Forall P)); [ | constructor ].
  intros acc endpoint Hin Hacc w evs. rewrite detect_all_changes_body_result.
  destruct (result_of (differ._detect_endpoint_changes _ _ _ _ _) w) as [evs' | e] eqn:E;
    [ | discriminate ].
  intros [= <-]. apply Forall_app. split; [ exact Hacc | ].
  exact (Hstep endpoint Hin w evs' E).
Qed.

(** Every event of a run is built from the arguments of the run, for one of
    the five resources. *)
Lemma detect_all_changes_event_shape rto_code rto_name current_data baseline_data w evs e :
  result_of (differ.detect_all_changes rto_code rto_name current_data baseline_data) w
    = Ok evs ->
  e ∈ evs ->
  exists endpoint t old new,
    endpoint ∈ differ.ENDPOINTS /\
    e = models.new rto_code rto_name (events.EventType_value t)
          (events.EventCategory_value (events.get_event_category (events.Member t)))
          old new (events.make_source_url rto_code endpoint) /\
    (t = appeared_type endpoint \/ t = disappeared_type endpoint \/ t = events.SCOPE_CHANGED) /\
    (old <> None \/ new <> None).
Proof.
  intros Hrun. revert e. apply Forall_forall. revert w evs Hrun.
  apply detect_all_changes_each. intros endpoint Hin w evs Hstep.
  apply detect_endpoint_changes_shape in Hstep
    as [-> | (t & old & new & -> & Ht & Hval)]; [ constructor | ].
  apply List.Forall_cons; [ | constructor ].
  exists endpoint, t, old, new. repeat split; assumption.
Qed.

Lemma make_source_url_known rto_code endpoint :
  endpoint ∈ differ.ENDPOINTS ->
  events.make_source_url rto_code endpoint =
  "https://training.gov.au/organisation/details/" ++ rto_code ++ "#" ++ endpoint.
Proof.
  intros Hin. unfold events.make_source_url, differ.ENDPOINTS in *. cbv zeta.
  repeat (apply elem_of_cons in Hin as [-> | Hin]); [ .. | inversion Hin ];
    simplify_map_eq; rewrite append_assoc; reflexivity.
Qed.

(** X2: for each of the five resources the source URL is the page of the
    organisation followed by [#] and the name of the resource; for any other
    resource name it is the page of the organisation alone. *)
Theorem make_source_url_cases rto_code endpoint :
  events.make_source_url rto_code endpoint =
  if bool_decide (endpoint ∈ differ.ENDPOINTS)
  then "https://training.gov.au/organisation/details/" ++ rto_code ++ "#" ++ endpoint
  else "https://training.gov.au/organisation/details/" ++ rto_code.
Proof.
  case_bool_decide as Hin; [ apply make_source_url_known, Hin | ].
  unfold events.make_source_url, differ.ENDPOINTS in *. cbv zeta.
  rewrite !lookup_insert_ne, lookup_singleton_ne; [ reflexivity | .. ];
    intros <-; apply Hin; set_solver.
Qed.

Lemma appeared_type_detector endpoint : appeared_type endpoint ∈ detector_types.
Proof.
  unfold appeared_type, detector_types.
  repeat match goal with
         | |- context [ if ?b then _ else _ ] => destruct b
         end; set_solver.
Qed.

Lemma disappeared_type_detector endpoint : disappeared_type endpoint ∈ detector_types.
Proof.
  unfold disappeared_type, detector_types.
  repeat match goal with
         | |- context [ if ?b then _ else _ ] => destruct b
         end; set_solver.
Qed.

(** X3: every event detection returns carries the code and the name the run
    was given, and its source URL is the page of that organisation at the
    anchor of one of the five resources, never the bare page. *)
Theorem events_stamped_with_entity rto_code rto_name current_data baseline_data w evs e :
  result_of (differ.detect_all_changes rto_code rto_name current_data baseline_data) w
    = Ok evs ->
  e ∈ evs ->
  models.rto_code e = rto_code /\
  models.rto_name e = rto_name /\
  exists endpoint,
    endpoint ∈ ["scope"; "regulatory"; "registration"; "contacts"; "restrictions"] /\
    models.source_url e =
      Some ("https://training.gov.au/organisation/details/" ++ rto_code ++ "#" ++ endpoint).
Proof.
  intros Hrun He.
  destruct (detect_all_changes_event_shape _ _ _ _ _ _ _ Hrun He)
    as (endpoint & t & old & new & Hin & -> & _ & _).
  split; [ reflexivity | ]. split; [ reflexivity | ].
  exists endpoint. split; [ exact Hin | ]. simpl.
  rewrite make_source_url_known by exact Hin. reflexivity.
Qed.

(** X4: the type of every event detection returns is one of scope_added,
    scope_removed, scope_changed, regulatory_new, regulatory_updated,
    restriction_added, restriction_removed, and its category is the one the
    taxonomy gives that type: Scope, Regulatory or Restriction.  No
    registration, contact, training or news event is ever returned. *)
Theorem events_types_and_categories rto_code rto_name current_data baseline_data w evs e :
  result_of (differ.detect_all_changes rto_code rto_name current_data baseline_data) w
    = Ok evs ->
  e ∈ evs ->
  exists t,
    t ∈ detector_types /\
    models.event_type e = events.EventType_value t /\
    models.event_category e =
      events.EventCategory_value (events.get_event_category (events.Member t)) /\
    models.event_category e ∈ ["Scope"; "Regulatory"; "Restriction"].
Proof.
  intros Hrun He.
  destruct (detect_all_changes_event_shape _ _ _ _ _ _ _ Hrun He)
    as (endpoint & t & old & new & _ & -> & Ht & _).
  assert (t ∈ detector_types) as Hin.
  { destruct Ht as [-> | [-> | ->]];
      [ apply appeared_type_detector | apply disappeared_type_detector
      | unfold detector_types; set_solver ]. }
  exists t. split; [ exact Hin | ]. split; [ reflexivity | ]. split; [ reflexivity | ].
  simpl. unfold detector_types in Hin. clear Ht Hrun He.
  repeat (apply elem_of_cons in Hin as [-> | Hin]); [ .. | inversion Hin ];
    cbn; set_solver.
Qed.

(** X5: every event detection returns has an old value or a new value. *)
Theorem events_carry_a_value rto_code rto_name current_data baseline_data w evs e :
  result_of (differ.detect_all_changes rto_code rto_name current_data baseline_data) w
    = Ok evs ->
  e ∈ evs ->
  models.old_value e <> None \/ models.new_value e <> None.
Proof.
  intros Hrun He.
  destruct (detect_all_changes_event_shape _ _ _ _ _ _ _ Hrun He)
    as (endpoint & t & old & new & _ & -> & _ & Hval).
  exact Hval.
Qed.

Lemma gather_length {A} (steps : list (outcome (list A))) (n : nat) evs :
  Forall (fun step => forall xs, step = Ok xs -> (List.length xs <= n)%nat) steps ->
  gather steps = Ok evs ->
  (List.length evs <= n * List.length steps)%nat.
Proof.
  intros Hsteps. revert evs.
  induction Hsteps as [ | step steps Hstep _ IH ]; simpl; intros evs.
  - intros [= <-]. simpl. lia.
  - destruct step as [xs | e]; [ | discriminate ].
    destruct (gather steps) as [ys | e]; [ | discriminate ].
    intros [= <-]. rewrite length_app.
    specialize (Hstep xs eq_refl). specialize (IH ys eq_refl). lia.
Qed.

(** X6: detection returns at most five events, one per resource at most. *)
Theorem at_most_one_event_per_resource rto_code rto_name current_data baseline_data w evs :
  result_of (differ.detect_all_changes rto_code rto_name current_data baseline_data) w
    = Ok evs ->
  (List.length evs <= 5)%nat /\
  forall endpoint evs',
    result_of (differ._detect_endpoint_changes rto_code rto_name endpoint
                 (dict_get current_data endpoint) (dict_get baseline_data endpoint)) w
      = Ok evs' ->
    (List.length evs' <= 1)%nat.
Proof.
  intros Hrun.
  assert (forall endpoint evs',
             result_of (differ._detect_endpoint_changes rto_code rto_name endpoint
                          (dict_get current_data endpoint)
                          (dict_get baseline_data endpoint)) w = Ok evs' ->
             (List.length evs' <= 1)%nat) as Hone.
  { intros endpoint evs' Hstep.
    apply detect_endpoint_changes_shape in Hstep as [-> | (? & ? & ? & -> & _)];
      simpl; lia. }
  split; [ | exact Hone ].
  unfold differ.detect_all_changes in Hrun. rewrite for_each_endpoint_gather in Hrun.
  destruct (gather _) as [evs0 | e] eqn:E; [ | discriminate ].
  injection Hrun as <-. simpl.
  apply (gather_length _ 1) in E; [ simpl in E; lia | ].
  apply Forall_forall. intros step Hin xs ->.
  apply list_elem_of_fmap in Hin as (endpoint & Hstep & _).
  exact (Hone endpoint xs (eq_sym Hstep)).
Qed.


Lemma detect_endpoint_changes_raises rto_code rto_name endpoint current baseline w :
  match
    result_of (differ._detect_endpoint_changes rto_code rto_name endpoint current baseline) w
  with
  | Raise e =>
      e = NameError "EventCategory" /\ reaches_EventCategory endpoint current baseline = true
  | Ok _ => reaches_EventCategory endpoint current baseline = false
  end.
Proof.
  rewrite detect_endpoint_changes_result. unfold reaches_EventCategory. cbv zeta.
  destruct (is_None baseline), (is_None current); try reflexivity.
  - rewrite handle_new_data_result. reflexivity.
  - rewrite handle_removed_data_result. reflexivity.
  - rewrite compare_data_result. cbv zeta.
    repeat match goal with
           | |- context [ if ?b then _ else _ ] => destruct b eqn:?
           end; simpl; auto.
Qed.

Lemma gather_raise {A} (steps : list (outcome (list A))) e :
  gather steps = Raise e -> Raise e ∈ steps.
Proof.
  induction steps as [ | [xs | e'] steps IH ]; simpl; [ discriminate | | ].
  - destruct (gather steps); [ discriminate | ]. intros [= ->]. right. apply IH. reflexivity.
  - intros [= ->]. left.
Qed.

Lemma gather_ok {A} (steps : list (outcome (list A))) evs :
  gather steps = Ok evs -> forall step, step ∈ steps -> exists xs, step = Ok xs.
Proof.
  revert evs. induction steps as [ | [xs | e'] steps IH ]; simpl; intros evs.
  - intros _ step Hin. inversion Hin.
  - destruct (gather steps) as [ys | ]; [ | discriminate ]. intros _ step Hin.
    inversion Hin; subst; [ eauto | eapply IH; eauto ].
  - discriminate.
Qed.

(** X7: detection fails exactly when, for one of the five resources, both
    payloads are present, their diff is not empty and the handler of the
    resource builds an event for it: for scope a diff that reports an added
    item, a removed item or a changed value, for regulatory any diff, for
    registration a diff that reports a changed value.  The exception is then
    the NameError on [EventCategory]; in every other case a list is returned. *)
Theorem detection_fails_exactly_when rto_code rto_name current_data baseline_data w :
  match
    result_of (differ.detect_all_changes rto_code rto_name current_data baseline_data) w
  with
  | Raise e =>
      e = NameError "EventCategory" /\
      exists endpoint,
        endpoint ∈ ["scope"; "regulatory"; "registration"] /\
        reaches_EventCategory endpoint (dict_get current_data endpoint)
                              (dict_get baseline_data endpoint) = true
  | Ok _ =>
      forall endpoint,
        endpoint ∈ ["scope"; "regulatory"; "registration"; "contacts"; "restrictions"] ->
        reaches_EventCategory endpoint (dict_get current_data endpoint)
                              (dict_get baseline_data endpoint) = false
  end.
Proof.
  unfold differ.detect_all_changes. rewrite for_each_endpoint_gather.
  destruct (gather _) as [evs | e] eqn:E.
  - intros endpoint Hin.
    destruct (gather_ok _ _ E
                (result_of (differ._detect_endpoint_changes rto_code rto_name endpoint
                              (dict_get current_data endpoint)
                              (dict_get baseline_data endpoint)) w)) as [xs Hxs].
    { apply list_elem_of_fmap. exists endpoint. split; [ reflexivity | exact Hin ]. }
    pose proof (detect_endpoint_changes_raises rto_code rto_name endpoint
                  (dict_get current_data endpoint) (dict_get baseline_data endpoint) w) as R.
    rewrite Hxs in R. exact R.
  - apply gather_raise in E. apply list_elem_of_fmap in E as (endpoint & Hstep & Hin).
    pose proof (detect_endpoint_changes_raises rto_code rto_name endpoint
                  (dict_get current_data endpoint) (dict_get baseline_data endpoint) w) as R.
    rewrite <- Hstep in R. destruct R as [-> R]. split; [ reflexivity | ].
    exists endpoint. split; [ | exact R ].
    unfold differ.ENDPOINTS in Hin.
    repeat (apply elem_of_cons in Hin as [-> | Hin]); [ set_solver .. | | | inversion Hin ];
      unfold reaches_EventCategory in R; cbv zeta in R; simpl in R;
      rewrite andb_false_r in R; discriminate.
Qed.

Lemma for_each_ext {A B} (xs : list A) (body1 body2 : B -> A -> Py B) :
  (forall acc x w, x ∈ xs -> body1 acc x w = body2 acc x w) ->
  forall acc w, for_each xs acc body1 w = for_each xs acc body2 w.
Proof.
  induction xs as [ | x xs IH ]; intros Hbody acc w; simpl; [ reflexivity | ].
  unfold bind. rewrite Hbody by left.
  destruct (body2 acc x w) as [[acc' | e] w']; [ | reflexivity ].
  apply IH. intros acc'' x' w'' Hx'. apply Hbody. right. exact Hx'.
Qed.

Lemma detect_all_changes_five_keys rto_code rto_name
    current_data baseline_data current_data' baseline_data' w :
  (forall endpoint, endpoint ∈ differ.ENDPOINTS ->
     dict_get current_data' endpoint = dict_get current_data endpoint) ->
  (forall endpoint, endpoint ∈ differ.ENDPOINTS ->
     dict_get baseline_data' endpoint = dict_get baseline_data endpoint) ->
  differ.detect_all_changes rto_code rto_name current_data' baseline_data' w =
  differ.detect_all_changes rto_code rto_name current_data baseline_data w.
Proof.
  intros Hcur Hbase. unfold differ.detect_all_changes. apply for_each_ext.
  intros acc endpoint w' Hin. unfold differ.detect_all_changes_body.
  rewrite (Hcur endpoint Hin), (Hbase endpoint Hin). reflexivity.
Qed.

(** X8: detection reads the five resource keys of its two dicts and nothing
    else: a payload stored under any other key (the collector also delivers
    one under [organisation]) changes neither the result nor the log, on the
    current side or on the baseline side. *)
Theorem other_keys_are_ignored rto_code rto_name current_data baseline_data key payload w :
  key ∉ ["scope"; "regulatory"; "registration"; "contacts"; "restrictions"] ->
  differ.detect_all_changes rto_code rto_name (<[key := payload]> current_data)
    baseline_data w
    = differ.detect_all_changes rto_code rto_name current_data baseline_data w /\
  differ.detect_all_changes rto_code rto_name current_data
    (<[key := payload]> baseline_data) w
    = differ.detect_all_changes rto_code rto_name current_data baseline_data w.
Proof.
  intros Hkey.
  assert (forall (d : gmap string json) endpoint,
             endpoint ∈ differ.ENDPOINTS ->
             dict_get (<[key := payload]> d) endpoint = dict_get d endpoint) as Hget.
  { intros d endpoint Hin. unfold dict_get. rewrite lookup_insert_ne; [ reflexivity | ].
    intros ->. exact (Hkey Hin). }
  split; apply detect_all_changes_five_keys; auto.
Qed.

Lemma compare_data_no_diff_run rto_code rto_name endpoint current baseline w :
  deepdiff.is_empty (deepdiff.DeepDiff baseline current) = true ->
  differ._compare_data rto_code rto_name endpoint current baseline w = (Ok [], w).
Proof. intros E. unfold differ._compare_data. rewrite E. reflexivity. Qed.

(** X9: a snapshot compared with itself reports nothing and logs nothing:
    when the same dict is given as current and as baseline, with well-formed
    payloads, detection returns the empty list and leaves the world as it
    was, for every implementation of the diff that obeys the law of
    [ignore_order=True]. *)
Theorem unchanged_snapshot_is_silent `{!IgnoresOrder} rto_code rto_name (snapshot : gmap string json) w :
  (forall endpoint, endpoint ∈ differ.ENDPOINTS -> wf_json (dict_get snapshot endpoint) = true) ->
  differ.detect_all_changes rto_code rto_name snapshot snapshot w = (Ok [], w).
Proof.
  intros Hwf. unfold differ.detect_all_changes.
  assert (forall endpoints acc,
             (forall endpoint, endpoint ∈ endpoints -> endpoint ∈ differ.ENDPOINTS) ->
             for_each endpoints acc
               (differ.detect_all_changes_body rto_code rto_name snapshot snapshot) w
             = (Ok acc, w)) as Hloop; [ | apply Hloop; auto ].
  induction endpoints as [ | endpoint endpoints IH ]; intros acc Hin; [ reflexivity | ].
  simpl. unfold bind.
  assert (differ.detect_all_changes_body rto_code rto_name snapshot snapshot acc endpoint w
          = (Ok acc, w)) as ->.
  { unfold differ.detect_all_changes_body, differ._detect_endpoint_changes. cbv zeta.
    destruct (is_None (dict_get snapshot endpoint)) eqn:E; [ reflexivity | ]. simpl.
    unfold bind. rewrite compare_data_no_diff_run.
    - rewrite app_nil_r. reflexivity.
    - apply ignores_order; [ apply Hwf, Hin; left .. | apply json_equiv_refl ]. }
  apply IH. intros endpoint' Hin'. apply Hin. right. exact Hin'.
Qed.

(** X10: for contacts, restrictions and any resource without a handler of its
    own, two present payloads with a diff that is not empty give one event of
    type scope_changed and category Scope, carrying the whole baseline as old
    value and the whole current payload as new value. *)
Theorem generic_change_event rto_code rto_name endpoint current baseline w :
  endpoint <> "scope" -> endpoint <> "regulatory" -> endpoint <> "registration" ->
  baseline <> JNull -> current <> JNull ->
  deepdiff.is_empty (deepdiff.DeepDiff baseline current) = false ->
  result_of (differ._detect_endpoint_changes rto_code rto_name endpoint current baseline) w
    = Ok [ models.new rto_code rto_name "scope_changed" "Scope"
             (Some (json_dumps baseline)) (Some (json_dumps current))
             (events.make_source_url rto_code endpoint) ].
Proof.
  intros H1 H2 H3 Hb Hc Hdiff. apply is_None_false in Hb, Hc.
  rewrite detect_endpoint_changes_result, Hb, Hc, compare_data_result. cbv zeta.
  rewrite Hdiff.
  destruct (String.eqb_spec endpoint "scope"); [ contradiction | ].
  destruct (String.eqb_spec endpoint "regulatory"); [ contradiction | ].
  destruct (String.eqb_spec endpoint "registration"); [ contradiction | ].
  reflexivity.
Qed.

(** X11: changes the scope and registration handlers have no branch for are
    dropped without an event and without an error: for scope, a diff that
    reports no added item, no removed item and no changed value (only keys
    added or removed, or changes of type); for registration, a diff that
    reports no changed value. *)
Theorem unhandled_reports_are_dropped rto_code rto_name current baseline w :
  baseline <> JNull -> current <> JNull ->
  let diff := deepdiff.DeepDiff baseline current in
  (deepdiff.iterable_item_added diff = [] ->
   deepdiff.iterable_item_removed diff = [] ->
   deepdiff.values_changed diff = [] ->
   result_of (differ._detect_endpoint_changes rto_code rto_name "scope" current baseline) w
     = Ok []) /\
  (deepdiff.values_changed diff = [] ->
   result_of (differ._detect_endpoint_changes rto_code rto_name "registration"
                current baseline) w
     = Ok []).
Proof.
  intros Hb Hc diff. apply is_None_false in Hb, Hc.
  rewrite !detect_endpoint_changes_result, Hb, Hc, !compare_data_result. cbv zeta.
  fold diff. split.
  - intros -> -> ->. destruct (deepdiff.is_empty diff); reflexivity.
  - intros ->. destruct (deepdiff.is_empty diff); reflexivity.
Qed.


Lemma logged_nil w : logged [] w = w.
Proof. unfold logged. destruct w as [[] records]; simpl; rewrite ?app_nil_r; reflexivity. Qed.

Lemma logged_app msgs1 msgs2 w : logged msgs2 (logged msgs1 w) = logged (msgs1 ++ msgs2) w.
Proof.
  unfold logged. destruct w as [[] records]; simpl; [ | reflexivity ].
  rewrite app_assoc. reflexivity.
Qed.

Lemma prefix_append (a s t : string) :
  String.prefix s t = true -> String.prefix (a ++ s) (a ++ t) = true.
Proof.
  intros Hst. induction a as [ | x a IH ]; [ exact Hst | ].
  change (String.prefix (String x (a ++ s)) (String x (a ++ t)) = true). simpl.
  destruct (Ascii.ascii_dec x x); [ exact IH | contradiction ].
Qed.

(** A record of the detector: a line that starts with the organisation. *)
Lemma record_prefix rto_code (rest : string) :
  String.prefix ("RTO " ++ rto_code ++ ": ") ("RTO " ++ rto_code ++ ": " ++ rest) = true.
Proof.
  apply (prefix_append "RTO "), (prefix_append rto_code).
  change (": " ++ rest)%string with (String ":" (String " " rest)). simpl.
  destruct (Ascii.ascii_dec ":" ":"); [ | contradiction ].
  destruct (Ascii.ascii_dec " " " "); [ | contradiction ].
  destruct rest; reflexivity.
Qed.

Lemma detect_endpoint_changes_logs rto_code rto_name endpoint current baseline w :
  exists msgs,
    world_after (differ._detect_endpoint_changes rto_code rto_name endpoint current baseline) w
      = logged msgs w /\
    (List.length msgs <= 1)%nat /\
    Forall (fun msg => String.prefix ("RTO " ++ rto_code ++ ": ") msg = true) msgs.
Proof.
  unfold differ._detect_endpoint_changes.
  destruct (is_None baseline), (is_None current); simpl.
  - exists []. rewrite logged_nil. repeat split; [ simpl; lia | constructor ].
  - exists ["RTO " ++ rto_code ++ ": New " ++ endpoint ++ " data appeared"].
    split; [ | split; [ simpl; lia | repeat constructor; apply (record_prefix rto_code) ] ].
    unfold differ._handle_new_data.
    destruct (String.eqb_spec endpoint "regulatory") as [-> | _]; [ reflexivity | ].
    destruct (String.eqb_spec endpoint "restrictions") as [-> | _]; reflexivity.
  - exists ["RTO " ++ rto_code ++ ": " ++ endpoint ++ " data was removed"].
    split; [ | split; [ simpl; lia | repeat constructor; apply (record_prefix rto_code) ] ].
    unfold differ._handle_removed_data.
    destruct (String.eqb_spec endpoint "regulatory") as [-> | _]; [ reflexivity | ].
    destruct (String.eqb_spec endpoint "restrictions") as [-> | _]; reflexivity.
  - unfold differ._compare_data. cbv zeta.
    destruct (deepdiff.is_empty _).
    { exists []. rewrite logged_nil. repeat split; [ simpl; lia | constructor ]. }
    exists ["RTO " ++ rto_code ++ ": Changes detected in " ++ endpoint].
    split; [ | split; [ simpl; lia | repeat constructor; apply (record_prefix rto_code) ] ].
    rewrite world_after_bind. cbn [result_of logger_info fst].
    change (world_after (logger_info ?msg) w) with (logged [msg] w).
    generalize (logged ["RTO " ++ rto_code ++ ": Changes detected in " ++ endpoint] w).
    intros w'.
    destruct (endpoint =? "scope")%string.
    { unfold differ._detect_scope_changes.
      destruct (deepdiff.iterable_item_added _) as [ | [p v] added ]; [ | reflexivity ].
      destruct (deepdiff.iterable_item_removed _) as [ | [p v] removed ]; [ | reflexivity ].
      destruct (deepdiff.values_changed _) as [ | [p c] changed ]; reflexivity. }
    destruct (endpoint =? "regulatory")%string; [ reflexivity | ].
    destruct (endpoint =? "registration")%string; [ | reflexivity ].
    unfold differ._detect_registration_changes.
    destruct (deepdiff.values_changed _) as [ | [p c] changed ]; [ reflexivity | ].
    simpl. unfold world_after, bind.
    destruct (str_in "status" (lower p)); [ reflexivity | ].
    destruct (str_in "expiry" (lower p) || str_in "end" (lower p)); reflexivity.
Qed.

Lemma for_each_endpoint_logs rto_code rto_name current_data baseline_data endpoints :
  forall acc w,
  exists msgs,
    world_after (for_each endpoints acc
                   (differ.detect_all_changes_body rto_code rto_name current_data
                      baseline_data)) w
      = logged msgs w /\
    (List.length msgs <= List.length endpoints)%nat /\
    Forall (fun msg => String.prefix ("RTO " ++ rto_code ++ ": ") msg = true) msgs.
Proof.
  induction endpoints as [ | endpoint endpoints IH ]; intros acc w.
  - exists []. rewrite logged_nil. repeat split; [ simpl; lia | constructor ].
  - cbn [for_each]. rewrite world_after_bind.
    assert (exists msgs,
               world_after (differ.detect_all_changes_body rto_code rto_name current_data
                              baseline_data acc endpoint) w = logged msgs w /\
               (List.length msgs <= 1)%nat /\
               Forall (fun msg => String.prefix ("RTO " ++ rto_code ++ ": ") msg = true) msgs)
      as (msgs1 & -> & Hlen1 & Hall1).
    { unfold differ.detect_all_changes_body. cbv zeta.
      destruct (is_None (dict_get current_data endpoint)
                && is_None (dict_get baseline_data endpoint)).
      - exists []. rewrite logged_nil. repeat split; [ simpl; lia | constructor ].
      - destruct (detect_endpoint_changes_logs rto_code rto_name endpoint
                    (dict_get current_data endpoint) (dict_get baseline_data endpoint) w)
          as (msgs & Hw & Hlen & Hall).
        exists msgs. split; [ | split; assumption ].
        rewrite world_after_bind, Hw.
        destruct (result_of _ w); reflexivity. }
    destruct (result_of _ w) as [acc' | e].
    + destruct (IH acc' (logged msgs1 w)) as (msgs2 & -> & Hlen2 & Hall2).
      exists (msgs1 ++ msgs2)%list. rewrite logged_app.
      split; [ reflexivity | ]. split; [ rewrite length_app; simpl; lia | ].
      apply Forall_app. split; assumption.
    + exists msgs1. split; [ reflexivity | ]. split; [ simpl; lia | exact Hall1 ].
Qed.

(** X12: the only trace detection leaves in the world is in the log of its
    module: the logging configuration is untouched, the earlier records are
    kept, at most five records are added (one per resource at most), each one
    a line starting with [RTO <code>: ], and none when INFO is disabled.  This
    holds whether detection returns or raises. *)
Theorem detection_only_logs rto_code rto_name current_data baseline_data w :
  let w' :=
    world_after (differ.detect_all_changes rto_code rto_name current_data baseline_data) w in
  info_enabled w' = info_enabled w /\
  exists msgs,
    log_records w' = (log_records w ++ msgs)%list /\
    (List.length msgs <= 5)%nat /\
    (info_enabled w = false -> msgs = []) /\
    Forall (fun msg => String.prefix ("RTO " ++ rto_code ++ ": ") msg = true) msgs.
Proof.
  intros w'. subst w'. unfold differ.detect_all_changes.
  destruct (for_each_endpoint_logs rto_code rto_name current_data baseline_data
              differ.ENDPOINTS [] w) as (msgs & -> & Hlen & Hall).
  unfold logged. destruct (info_enabled w) eqn:E.
  - split; [ reflexivity | ]. exists msgs. simpl.
    split; [ reflexivity | ]. split; [ exact Hlen | ]. split; [ discriminate | exact Hall ].
  - split; [ exact E | ]. exists []. rewrite app_nil_r.
    split; [ reflexivity | ]. split; [ simpl; lia | ]. split; [ reflexivity | constructor ].
Qed.

End DetectorRuns.

(** * Stored snapshots *)

(** ** Sorting the items of a dict *)

Lemma key_le_spec a b :
  key_le a b = true <-> a = b \/ OrdersEx.String_as_OT.lt a b.
Proof.
  unfold key_le.
  destruct (OrdersEx.String_as_OT.compare_spec a b) as [ Heq | Hlt | Hgt ].
  - split; [ left; exact Heq | reflexivity ].
  - split; [ right; exact Hlt | reflexivity ].
  - split; [ discriminate | ]. intros [ -> | Hlt ]; exfalso.
    + exact (StrictOrder_Irreflexive (R := OrdersEx.String_as_OT.lt) b Hgt).
    + apply (StrictOrder_Irreflexive (R := OrdersEx.String_as_OT.lt) a).
      etransitivity; eassumption.
Qed.

Lemma key_le_total a b : key_le a b = false -> key_le b a = true.
Proof.
  intros Hab. apply key_le_spec.
  unfold key_le in Hab.
  destruct (OrdersEx.String_as_OT.compare_spec a b) as [ | | Hgt ]; try discriminate.
  right. exact Hgt.
Qed.

Lemma key_le_antisym a b : key_le a b = true -> key_le b a = true -> a = b.
Proof.
  intros Hab Hba. apply key_le_spec in Hab, Hba.
  destruct Hab as [ Hab | Hab ]; [ exact Hab | ].
  destruct Hba as [ Hba | Hba ]; [ symmetry; exact Hba | ].
  exfalso. apply (StrictOrder_Irreflexive (R := OrdersEx.String_as_OT.lt) a).
  etransitivity; eassumption.
Qed.

Lemma key_le_trans a b c : key_le a b = true -> key_le b c = true -> key_le a c = true.
Proof.
  intros Hab Hbc. apply key_le_spec in Hab, Hbc. apply key_le_spec.
  destruct Hab as [ Hab | Hab ]; [ subst b; exact Hbc | ].
  destruct Hbc as [ Hbc | Hbc ]; [ subst c; right; exact Hab | ].
  right. etransitivity; eassumption.
Qed.

Lemma insert_item_comm {V} (x y : string * V) items :
  fst x <> fst y ->
  insert_item x (insert_item y items) = insert_item y (insert_item x items).
Proof.
  intros Hne. induction items as [ | c items IH ]; simpl.
  - destruct (key_le (fst x) (fst y)) eqn:Exy, (key_le (fst y) (fst x)) eqn:Eyx;
      try reflexivity.
    + destruct Hne. apply key_le_antisym; assumption.
    + apply key_le_total in Exy. congruence.
  - destruct (key_le (fst y) (fst c)) eqn:Eyc, (key_le (fst x) (fst c)) eqn:Exc; simpl;
      rewrite ?Eyc, ?Exc.
    + destruct (key_le (fst x) (fst y)) eqn:Exy, (key_le (fst y) (fst x)) eqn:Eyx;
        try reflexivity.
      * destruct Hne. apply key_le_antisym; assumption.
      * apply key_le_total in Exy. congruence.
    + destruct (key_le (fst x) (fst y)) eqn:Exy; [ | reflexivity ].
      rewrite (key_le_trans _ _ _ Exy Eyc) in Exc. discriminate.
    + destruct (key_le (fst y) (fst x)) eqn:Eyx; [ | reflexivity ].
      rewrite (key_le_trans _ _ _ Eyx Exc) in Eyc. discriminate.
    + rewrite IH. reflexivity.
Qed.

Lemma sorted_items_perm {V} (items items' : list (string * V)) :
  items ≡ₚ items' -> NoDup (map fst items) -> sorted_items items = sorted_items items'.
Proof.
  induction 1 as [ | x l l' Hperm IH | x y l | l l' l'' Hperm IH Hperm' IH' ];
    simpl; intros Hnodup.
  - reflexivity.
  - rewrite IH; [ reflexivity | ]. apply NoDup_cons in Hnodup as [_ Hnodup]. exact Hnodup.
  - apply insert_item_comm. apply NoDup_cons in Hnodup as [Hy _].
    intros E. apply Hy. rewrite E. left.
  - rewrite IH by exact Hnodup. apply IH'.
    rewrite <- Hperm. exact Hnodup.
Qed.

Lemma keys_unique_NoDup ks : keys_unique ks = true -> NoDup ks.
Proof.
  induction ks as [ | k ks IH ]; intros Hu; [ constructor | ].
  apply keys_unique_head in Hu as [Hk Hu]. constructor; [ exact Hk | apply IH, Hu ].
Qed.

(** The items of two objects that hold the same keys with values of the same
    text are the same up to order. *)
Lemma encoded_items_perm (enc : json -> string) (fs gs : list (string * json)) :
  keys_unique (map fst fs) = true ->
  keys_unique (map fst gs) = true ->
  (forall k v, assoc k fs = Some v -> exists v', assoc k gs = Some v' /\ enc v = enc v') ->
  (forall k, assoc k fs = None -> assoc k gs = None) ->
  map (fun kv => (fst kv, enc (snd kv))) fs ≡ₚ map (fun kv => (fst kv, enc (snd kv))) gs.
Proof.
  intros Hufs Hugs Hsome Hnone.
  assert (forall l : list (string * json),
             keys_unique (map fst l) = true ->
             NoDup (map (fun kv => (fst kv, enc (snd kv))) l)) as Hnd.
  { intros l Hl. apply (NoDup_fmap_1 fst). rewrite <- list_fmap_compose.
    apply keys_unique_NoDup. exact Hl. }
  apply NoDup_Permutation; [ apply Hnd, Hufs | apply Hnd, Hugs | ].
  intros [k t]. rewrite !list_elem_of_fmap. split.
  - intros ([k' v] & [= -> ->] & Hin). simpl.
    destruct (Hsome k' v (assoc_unique _ _ _ Hufs Hin)) as (v' & Hv' & Henc).
    exists (k', v'). simpl. split; [ rewrite Henc; reflexivity | ].
    apply assoc_elem_of, Hv'.
  - intros ([k' v'] & [= -> ->] & Hin). simpl.
    destruct (assoc k' fs) as [v | ] eqn:E.
    + destruct (Hsome k' v E) as (v'' & Hv'' & Henc).
      rewrite (assoc_unique _ _ _ Hugs Hin) in Hv''. injection Hv'' as <-.
      exists (k', v). simpl. split; [ rewrite Henc; reflexivity | ].
      apply assoc_elem_of, E.
    + apply Hnone in E. rewrite (assoc_unique _ _ _ Hugs Hin) in E. discriminate.
Qed.

Lemma json_dumps_sorted_same a :
  forall b, wf_json a = true -> wf_json b = true -> same_mapping a b ->
            json_dumps_sorted a = json_dumps_sorted b.
Proof.
  induction a as [ | x | n | s | xs IH | fs IH ] using json_tree_ind;
    intros b Hwa Hwb Hsame; inversion Hsame; subst; try reflexivity.
  - assert (map json_dumps_sorted xs = map json_dumps_sorted ys) as E;
      [ | simpl; rewrite E; reflexivity ].
    simpl in Hwa, Hwb.
    match goal with Hf : Forall2 same_mapping _ _ |- _ => rename Hf into Hall end.
    clear Hsame. revert Hwa Hwb IH.
    induction Hall as [ | x y xs ys Hxy Hall IHall ]; [ reflexivity | ].
    simpl. intros [Hwx Hwxs]%andb_true_iff [Hwy Hwys]%andb_true_iff [IHx IHxs]%Forall_cons.
    f_equal; [ apply IHx; assumption | apply IHall; assumption ].
  - assert (sorted_items (map (fun kv => (fst kv, json_dumps_sorted (snd kv))) fs) =
            sorted_items (map (fun kv => (fst kv, json_dumps_sorted (snd kv))) gs)) as E;
      [ | simpl; rewrite E; reflexivity ].
    simpl in Hwa, Hwb.
    apply andb_true_iff in Hwa as [Hufs Hwfs]. apply andb_true_iff in Hwb as [Hugs Hwgs].
    rewrite forallb_forall in Hwfs, Hwgs. rewrite Forall_forall in IH.
    apply sorted_items_perm.
    + apply encoded_items_perm; try assumption.
      match goal with
      | Hs : forall k v, assoc k fs = Some v -> _ |- _ => rename Hs into Hsome
      end.
      intros k v Hk. destruct (Hsome k v Hk) as (v' & Hv' & Hvv').
      exists v'. split; [ exact Hv' | ].
      apply assoc_elem_of in Hk, Hv'.
      apply (IH (k, v) Hk); [ | | exact Hvv' ].
      * apply (Hwfs (k, v)), list_elem_of_In, Hk.
      * apply (Hwgs (k, v')), list_elem_of_In, Hv'.
    + rewrite <- list_fmap_compose. apply keys_unique_NoDup. exact Hufs.
Qed.

(** ** The table of baselines *)

Section StoredBaselines.

Variable hash : string -> Z.
Variable json_loads : string -> option json.

Implicit Types (self : database.Database) (now : models.datetime).
Implicit Types (rto_code endpoint : string) (data : json).

(** X13: what [store_baseline] writes does not depend on the order in which
    the keys of the payload were inserted: two well-formed payloads that are
    equal as mappings leave the database in the same state, with the same
    text and the same hash. *)
Theorem store_baseline_ignores_key_order now self rto_code endpoint X Y :
  wf_json X = true ->
  wf_json Y = true ->
  same_mapping X Y ->
  database.store_baseline hash now self rto_code endpoint X =
  database.store_baseline hash now self rto_code endpoint Y.
Proof.
  intros HwX HwY Hsame. unfold database.store_baseline.
  rewrite (json_dumps_sorted_same X Y HwX HwY Hsame). reflexivity.
Qed.

Lemma row_matches_eq rto_code endpoint row :
  database.row_matches rto_code endpoint row = true <->
  database.rto_code row = rto_code /\ database.endpoint row = endpoint.
Proof.
  unfold database.row_matches. rewrite andb_true_iff, !String.eqb_eq. reflexivity.
Qed.

Lemma find_app_none {A} (f : A -> bool) (l l' : list A) :
  List.find f l = None -> List.find f (l ++ l') = List.find f l'.
Proof.
  induction l as [ | x l IH ]; simpl; [ reflexivity | ].
  destruct (f x); [ discriminate | exact IH ].
Qed.

Lemma find_filter_none {A} (f : A -> bool) (l : list A) :
  List.find f (List.filter (fun x => negb (f x)) l) = None.
Proof.
  induction l as [ | x l IH ]; simpl; [ reflexivity | ].
  destruct (f x) eqn:E; simpl; [ exact IH | rewrite E; exact IH ].
Qed.

Lemma find_filter_other {A} (f g : A -> bool) (l : list A) :
  (forall x, f x = true -> g x = false) ->
  List.find f (List.filter (fun x => negb (g x)) l) = List.find f l.
Proof.
  intros Hfg. induction l as [ | x l IH ]; simpl; [ reflexivity | ].
  destruct (f x) eqn:Ef.
  - rewrite (Hfg x Ef). simpl. rewrite Ef. reflexivity.
  - destruct (g x); simpl; [ exact IH | rewrite Ef; exact IH ].
Qed.

Lemma find_app_some {A} (f : A -> bool) (l l' : list A) x :
  List.find f l = Some x -> List.find f (l ++ l') = Some x.
Proof.
  induction l as [ | y l IH ]; simpl; [ discriminate | ].
  destruct (f y); [ auto | exact IH ].
Qed.

Lemma fetchone_stored now self rto_code endpoint data_hash data_json :
  database.fetchone
    (database.insert_or_replace self rto_code endpoint data_hash data_json now)
    rto_code endpoint
  = Some (database.mkBaselineRow (database.baselines_seq self + 1) rto_code endpoint
            data_hash data_json now).
Proof.
  unfold database.fetchone, database.insert_or_replace. simpl.
  rewrite find_app_none by apply find_filter_none. simpl.
  unfold database.row_matches. simpl. rewrite !String.eqb_refl. reflexivity.
Qed.

Lemma fetchone_other now self rto_code endpoint data_hash data_json rto_code' endpoint' :
  (rto_code', endpoint') <> (rto_code, endpoint) ->
  database.fetchone
    (database.insert_or_replace self rto_code endpoint data_hash data_json now)
    rto_code' endpoint'
  = database.fetchone self rto_code' endpoint'.
Proof.
  intros Hne. unfold database.fetchone, database.insert_or_replace. simpl.
  assert (forall row, database.row_matches rto_code' endpoint' row = true ->
                      database.row_matches rto_code endpoint row = false) as Hdisj.
  { intros row [E1 E2]%row_matches_eq.
    destruct (database.row_matches rto_code endpoint row) eqn:E; [ | reflexivity ].
    apply row_matches_eq in E as [E3 E4]. destruct Hne. congruence. }
  destruct (List.find (database.row_matches rto_code' endpoint') (database.baselines self))
    as [row | ] eqn:E.
  - apply find_app_some. rewrite find_filter_other by exact Hdisj. exact E.
  - rewrite find_app_none by (rewrite find_filter_other by exact Hdisj; exact E).
    simpl. destruct (database.row_matches rto_code' endpoint' _) eqn:E'; [ | reflexivity ].
    apply row_matches_eq in E' as [E1 E2]. simpl in E1, E2. destruct Hne. congruence.
Qed.

(** X14: on a connected database, what was stored last under an organisation
    and a resource is what is read back, whatever the table held before: the
    hash read is the hash of the key-sorted text of the payload, and the
    baseline read is that text parsed. *)
Theorem get_after_store now self rto_code endpoint data :
  database.conn self = true ->
  let stored := snd (database.store_baseline hash now self rto_code endpoint data) in
  fst (database.store_baseline hash now self rto_code endpoint data) = inr tt /\
  database.get_baseline_hash stored rto_code endpoint
    = inr (Some (pretty (hash (json_dumps_sorted data)))) /\
  database.get_baseline json_loads stored rto_code endpoint
    = match json_loads (json_dumps_sorted data) with
      | Some data' => inr data'
      | None => inl database.JSONDecodeError
      end.
Proof.
  intros Hconn stored. subst stored.
  unfold database.store_baseline, database.get_baseline_hash, database.get_baseline.
  rewrite Hconn. simpl. rewrite Hconn, fetchone_stored. simpl. auto.
Qed.

(** X15: storing a baseline under one organisation and resource changes what
    is read under no other: every other pair reads the same baseline and the
    same hash as before. *)
Theorem store_leaves_other_baselines now self rto_code endpoint data rto_code' endpoint' :
  (rto_code', endpoint') <> (rto_code, endpoint) ->
  let stored := snd (database.store_baseline hash now self rto_code endpoint data) in
  database.get_baseline json_loads stored rto_code' endpoint'
    = database.get_baseline json_loads self rto_code' endpoint' /\
  database.get_baseline_hash stored rto_code' endpoint'
    = database.get_baseline_hash self rto_code' endpoint'.
Proof.
  intros Hne stored. subst stored.
  unfold database.store_baseline, database.get_baseline_hash, database.get_baseline.
  destruct (database.conn self) eqn:Hconn; simpl; rewrite ?Hconn; [ | auto ].
  rewrite fetchone_other by exact Hne. auto.
Qed.

Lemma filter_keys_NoDup rto_code endpoint (rows : list database.BaselineRow) :
  NoDup (map (fun row => (database.rto_code row, database.endpoint row)) rows) ->
  NoDup (map (fun row => (database.rto_code row, database.endpoint row))
             (List.filter (fun row => negb (database.row_matches rto_code endpoint row)) rows))
  /\ (rto_code, endpoint)
     ∉ map (fun row => (database.rto_code row, database.endpoint row))
           (List.filter (fun row => negb (database.row_matches rto_code endpoint row)) rows).
Proof.
  induction rows as [ | row rows IH ]; simpl; intros Hnd.
  - split; [ constructor | apply not_elem_of_nil ].
  - apply NoDup_cons in Hnd as [Hrow Hnd]. destruct (IH Hnd) as [IH1 IH2].
    destruct (database.row_matches rto_code endpoint row) eqn:E; simpl; [ auto | ].
    split.
    + constructor; [ | exact IH1 ]. intros Hin. apply Hrow.
      apply list_elem_of_fmap in Hin as (row' & Hrow' & Hin).
      apply list_elem_of_fmap. exists row'. split; [ exact Hrow' | ].
      apply list_elem_of_In. apply list_elem_of_In, filter_In in Hin as [Hin _]. exact Hin.
    + intros [Hin | Hin]%elem_of_cons; [ | exact (IH2 Hin) ].
      assert (database.row_matches rto_code endpoint row = true) as E'; [ | congruence ].
      apply row_matches_eq. split; congruence.
Qed.

(** X16: [store_baseline] keeps the constraint of the table: if no two rows
    share an organisation and a resource before, none do after, and the table
    grows by one row at most. *)
Theorem store_keeps_unique_keys now self rto_code endpoint data :
  database.unique_keys self ->
  let stored := snd (database.store_baseline hash now self rto_code endpoint data) in
  database.unique_keys stored /\
  (List.length (database.baselines stored) <= List.length (database.baselines self) + 1)%nat.
Proof.
  intros Hu stored. subst stored. unfold database.store_baseline.
  destruct (database.conn self); simpl; [ | split; [ exact Hu | lia ] ].
  unfold database.unique_keys, database.insert_or_replace. simpl.
  destruct (filter_keys_NoDup rto_code endpoint _ Hu) as [Hnd Hfresh].
  split.
  - rewrite map_app. apply NoDup_app. split; [ exact Hnd | ]. split.
    + intros key Hin [-> | Hnil]%elem_of_cons; [ exact (Hfresh Hin) | inversion Hnil ].
    + simpl. apply NoDup_singleton.
  - rewrite length_app. simpl.
    apply Nat.add_le_mono_r, List.filter_length_le.
Qed.

(** X17: a database that is not connected refuses the three operations on
    baselines with an AttributeError and its rows stay as they are; [close]
    disconnects, and the rows committed before are read again after
    [connect]. *)
Theorem closed_database_refuses now self rto_code endpoint data :
  database.conn (database.close self) = false /\
  database.store_baseline hash now (database.close self) rto_code endpoint data
    = (inl (database.AttributeError "cursor"), database.close self) /\
  database.get_baseline json_loads (database.close self) rto_code endpoint
    = inl (database.AttributeError "cursor") /\
  database.get_baseline_hash (database.close self) rto_code endpoint
    = inl (database.AttributeError "cursor") /\
  database.baselines (database.close self) = database.baselines self /\
  database.connect (database.close self) = database.connect self.
Proof.
  unfold database.close, database.store_baseline, database.get_baseline,
    database.get_baseline_hash, database.connect.
  destruct self as [[] rows seq events events_seq]; simpl; repeat split; reflexivity.
Qed.

End StoredBaselines.

(** ** The hash of the collector *)

(** X18: [compute_hash] gives two well-formed payloads that are equal as
    mappings the same hash, whatever the order in which their keys were
    inserted. *)
Theorem compute_hash_ignores_key_order (sha256_hexdigest : string -> string) X Y :
  wf_json X = true ->
  wf_json Y = true ->
  same_mapping X Y ->
  tga_client.compute_hash sha256_hexdigest X = tga_client.compute_hash sha256_hexdigest Y.
Proof.
  intros HwX HwY Hsame. unfold tga_client.compute_hash.
  rewrite (json_dumps_sorted_same X Y HwX HwY Hsame). reflexivity.
Qed.

(** ** The table of trigger events *)

Section StoredEvents.

Context `{deepdiff.Differ}.

Implicit Types (self : database.Database) (now : models.datetime).

(** X19: the event of a resource that disappeared cannot be stored.  For a
    resource with a baseline and no current payload, detection returns one
    event; [insert_trigger_event] on a connected database refuses it, and any
    event with the same (absent) new value, with an IntegrityError on the NOT
    NULL column [new_value], and writes nothing.  Enrichment does not change
    the new value, so it does not help. *)
Theorem disappeared_event_is_refused rto_code rto_name endpoint X w now self :
  X <> JNull ->
  database.conn self = true ->
  exists e,
    result_of (differ._detect_endpoint_changes rto_code rto_name endpoint JNull X) w
      = Ok [e] /\
    forall e',
      models.new_value e' = models.new_value e ->
      database.insert_trigger_event now self e'
        = (inl (database.IntegrityError
                  "NOT NULL constraint failed: trigger_events.new_value"), self).
Proof.
  intros HX Hconn. apply is_None_false in HX.
  rewrite detect_endpoint_changes_result, HX. simpl.
  rewrite handle_removed_data_result. eexists. split; [ reflexivity | ].
  intros e' He'. unfold database.insert_trigger_event. rewrite Hconn, He'. reflexivity.
Qed.

End StoredEvents.

Lemma insert_row_perm row rows : database.insert_row row rows ≡ₚ row :: rows.
Proof.
  induction rows as [ | x rows IH ]; simpl; [ reflexivity | ].
  destruct (database.pending_order row x); [ reflexivity | ].
  rewrite IH. apply perm_swap.
Qed.

Lemma order_by_pending_perm rows : database.order_by_pending rows ≡ₚ rows.
Proof.
  induction rows as [ | row rows IH ]; simpl; [ reflexivity | ].
  rewrite insert_row_perm, IH. reflexivity.
Qed.

Lemma deliver_pending event_ids row :
  (database.delivery_status (database.deliver event_ids row) =? "pending")%string = true <->
  (database.delivery_status row =? "pending")%string = true /\
  database.event_id row ∉ event_ids.
Proof.
  unfold database.deliver.
  destruct (existsb (Z.eqb (database.event_id row)) event_ids) eqn:E; simpl.
  - split; [ discriminate | ]. intros [_ Hnot]. destruct Hnot.
    apply existsb_exists in E as (i & Hi & ->%Z.eqb_eq). apply list_elem_of_In, Hi.
  - split; [ | intros [Hp _]; exact Hp ]. intros Hp. split; [ exact Hp | ].
    intros Hin. assert (existsb (Z.eqb (database.event_id row)) event_ids = true) as E';
      [ | congruence ].
    apply existsb_exists. exists (database.event_id row).
    split; [ apply list_elem_of_In, Hin | apply Z.eqb_refl ].
Qed.

Lemma deliver_other event_ids row :
  database.event_id row ∉ event_ids -> database.deliver event_ids row = row.
Proof.
  intros Hnot. unfold database.deliver.
  destruct (existsb (Z.eqb (database.event_id row)) event_ids) eqn:E; [ | reflexivity ].
  destruct Hnot. apply existsb_exists in E as (i & Hi & ->%Z.eqb_eq).
  apply list_elem_of_In, Hi.
Qed.

Lemma pending_events_elem self evs e :
  database.get_pending_events self = inr evs ->
  e ∈ evs <->
  exists row,
    row ∈ database.trigger_events self /\
    database.delivery_status row = "pending" /\
    e = database.event_of_row row.
Proof.
  unfold database.get_pending_events.
  destruct (database.conn self); [ | discriminate ]. intros [= <-].
  rewrite list_elem_of_fmap. split.
  - intros (row & -> & Hin). rewrite order_by_pending_perm in Hin.
    apply list_elem_of_In, filter_In in Hin as [Hin Hp].
    exists row. split; [ apply list_elem_of_In, Hin | ].
    split; [ apply String.eqb_eq, Hp | reflexivity ].
  - intros (row & Hin & Hp & ->). exists row. split; [ reflexivity | ].
    rewrite order_by_pending_perm. apply list_elem_of_In, filter_In.
    split; [ apply list_elem_of_In, Hin | apply String.eqb_eq, Hp ].
Qed.

(** X20: an event with a new value and the delivery status pending, stored
    on a connected database, is read back among the pending events with the
    same fields, its id being the rowid that [insert_trigger_event] returned
    and its detection time the one it had or else the reading of the clock;
    the events that were pending before are still pending. *)
Theorem inserted_event_is_pending now (self : database.Database) (e : models.TriggerEvent)
    value :
  database.conn self = true ->
  models.new_value e = Some value ->
  models.delivery_status e = "pending" ->
  exists lastrowid evs,
    fst (database.insert_trigger_event now self e) = inr lastrowid /\
    database.get_pending_events (snd (database.insert_trigger_event now self e)) = inr evs /\
    {| models.rto_code := models.rto_code e;
       models.rto_name := models.rto_name e;
       models.event_type := models.event_type e;
       models.event_category := models.event_category e;
       models.new_value := models.new_value e;
       models.old_value := models.old_value e;
       models.detected_at := Some (default now (models.detected_at e));
       models.outreach_score := models.outreach_score e;
       models.suggested_opening := models.suggested_opening e;
       models.business_implication := models.business_implication e;
       models.source_url := models.source_url e;
       models.delivery_status := models.delivery_status e;
       models.outreach_status := models.outreach_status e;
       models.id := Some lastrowid |} ∈ evs /\
    forall before e0,
      database.get_pending_events self = inr before -> e0 ∈ before -> e0 ∈ evs.
Proof.
  intros Hconn Hvalue Hpending.
  destruct (database.get_pending_events (snd (database.insert_trigger_event now self e)))
    as [err | evs] eqn:Hevs.
  { unfold database.get_pending_events, database.insert_trigger_event in Hevs.
    rewrite Hconn, Hvalue in Hevs. simpl in Hevs. discriminate. }
  exists (database.trigger_events_seq self + 1)%Z, evs.
  split; [ unfold database.insert_trigger_event; rewrite Hconn, Hvalue; reflexivity | ].
  split; [ reflexivity | ].
  unfold database.insert_trigger_event in Hevs. rewrite Hconn, Hvalue in Hevs.
  simpl in Hevs. split.
  - apply (pending_events_elem _ _ _ Hevs). eexists. split; [ | split ].
    + simpl. apply elem_of_app. right. left.
    + simpl. exact Hpending.
    + unfold database.event_of_row. simpl. rewrite Hvalue. reflexivity.
  - intros before e0 Hbefore He0.
    apply (pending_events_elem _ _ _ Hbefore) in He0 as (row & Hin & Hp & ->).
    apply (pending_events_elem _ _ _ Hevs). exists row.
    split; [ simpl; apply elem_of_app; left; exact Hin | ].
    split; [ exact Hp | reflexivity ].
Qed.

(** X21: delivery takes events out of the pending list and does nothing
    else to it: when [mark_events_delivered] returns, the pending events are
    the events that were pending before and whose id is not among the ids
    given; when it raises (more ids than SQLite takes in one statement, or an
    id outside 64 bits), the pending events are the same. *)
Theorem pending_after_delivery limit (self : database.Database) event_ids before after :
  database.get_pending_events self = inr before ->
  database.get_pending_events (snd (database.mark_events_delivered limit self event_ids))
    = inr after ->
  match fst (database.mark_events_delivered limit self event_ids) with
  | inr _ =>
      forall e,
        e ∈ after <->
        e ∈ before /\ forall i, models.id e = Some i -> i ∉ event_ids
  | inl _ => after = before
  end.
Proof.
  intros Hbefore Hafter.
  assert (database.conn self = true) as Hconn.
  { unfold database.get_pending_events in Hbefore.
    destruct (database.conn self); [ reflexivity | discriminate ]. }
  revert Hafter. unfold database.mark_events_delivered. rewrite Hconn.
  destruct (limit <? List.length event_ids)%nat; simpl;
    [ intros Hafter; congruence | ].
  destruct (forallb database.fits_INTEGER event_ids); simpl;
    [ | intros Hafter; congruence ].
  intros Hafter e.
  rewrite (pending_events_elem _ _ e Hafter), (pending_events_elem _ _ e Hbefore).
  simpl. split.
  - intros (row' & Hin & Hp & ->).
    apply list_elem_of_fmap in Hin as (row & -> & Hin).
    apply String.eqb_eq, deliver_pending in Hp as [Hp Hnot].
    rewrite (deliver_other _ _ Hnot). split.
    + exists row. split; [ exact Hin | ]. split; [ apply String.eqb_eq, Hp | reflexivity ].
    + simpl. intros i [= <-]. exact Hnot.
  - intros [(row & Hin & Hp & ->) Hnot]. simpl in Hnot.
    specialize (Hnot _ eq_refl).
    exists row. split; [ | split; [ exact Hp | reflexivity ] ].
    apply list_elem_of_fmap. exists row. split; [ | exact Hin ].
    symmetry. apply deliver_other, Hnot.
Qed.

(** ** The order of the pending events *)

Lemma compare_text_spec a b :
  CompSpec eq database.text_lt a b (database.compare_text a b).
Proof.
  unfold database.text_lt.
  destruct a as [x | ], b as [y | ]; simpl; try (constructor; reflexivity).
  destruct (OrdersEx.String_as_OT.compare_spec x y) as [ -> | Hlt | Hgt ];
    constructor; [ reflexivity | exact Hlt | exact Hgt ].
Qed.

Lemma text_lt_irrefl a : ~ database.text_lt a a.
Proof.
  unfold database.text_lt. destruct a as [x | ]; simpl; [ | discriminate ].
  destruct (OrdersEx.String_as_OT.compare_spec x x) as [ | Hlt | ]; try discriminate.
  intros _. exact (StrictOrder_Irreflexive (R := OrdersEx.String_as_OT.lt) x Hlt).
Qed.

Lemma text_lt_trans a b c :
  database.text_lt a b -> database.text_lt b c -> database.text_lt a c.
Proof.
  unfold database.text_lt.
  destruct a as [x | ], b as [y | ], c as [z | ]; simpl; try discriminate; try reflexivity.
  intros Hxy Hyz.
  change (OrdersEx.String_as_OT.lt x z). transitivity y; assumption.
Qed.

Lemma pending_order_spec a b :
  database.pending_order a b = true <->
  database.text_lt (database.outreach_score b) (database.outreach_score a) \/
  (database.outreach_score a = database.outreach_score b /\
   (database.detected_at b <= database.detected_at a)%Z).
Proof.
  unfold database.pending_order.
  destruct (compare_text_spec (database.outreach_score a) (database.outreach_score b))
    as [ Heq | Hlt | Hgt ].
  - rewrite Z.leb_le. split; [ auto | ]. intros [ Hlt | [_ Hle] ]; [ | exact Hle ].
    rewrite Heq in Hlt. destruct (text_lt_irrefl _ Hlt).
  - split; [ discriminate | ]. intros [ Hgt | [Heq _] ]; exfalso.
    + exact (text_lt_irrefl _ (text_lt_trans _ _ _ Hlt Hgt)).
    + rewrite Heq in Hlt. exact (text_lt_irrefl _ Hlt).
  - split; [ auto | reflexivity ].
Qed.

Lemma pending_order_total a b :
  database.pending_order a b = false -> database.pending_order b a = true.
Proof.
  intros Hab. apply pending_order_spec.
  unfold database.pending_order in Hab.
  destruct (compare_text_spec (database.outreach_score a) (database.outreach_score b))
    as [ Heq | Hlt | Hgt ]; [ | left; exact Hlt | discriminate ].
  right. split; [ symmetry; exact Heq | ]. apply Z.leb_gt in Hab. lia.
Qed.

Lemma pending_order_trans a b c :
  database.pending_order a b = true -> database.pending_order b c = true ->
  database.pending_order a c = true.
Proof.
  rewrite !pending_order_spec.
  intros [ Hab | [Eab Hab] ] [ Hbc | [Ebc Hbc] ].
  - left. exact (text_lt_trans _ _ _ Hbc Hab).
  - left. rewrite <- Ebc. exact Hab.
  - left. rewrite Eab. exact Hbc.
  - right. split; [ congruence | lia ].
Qed.

Lemma insert_row_sorted row rows :
  Sorted.StronglySorted (fun a b => database.pending_order a b = true) rows ->
  Sorted.StronglySorted (fun a b => database.pending_order a b = true)
                 (database.insert_row row rows).
Proof.
  induction 1 as [ | x rows Hsorted IH Hx ]; simpl; [ repeat constructor | ].
  destruct (database.pending_order row x) eqn:E.
  - constructor; [ constructor; assumption | ].
    constructor; [ exact E | ].
    eapply Forall_impl; [ exact Hx | ].
    intros y Hxy. exact (pending_order_trans _ _ _ E Hxy).
  - constructor; [ exact IH | ].
    apply Forall_forall. intros y Hy. rewrite insert_row_perm in Hy.
    apply elem_of_cons in Hy as [ -> | Hy ]; [ apply pending_order_total, E | ].
    rewrite Forall_forall in Hx. exact (Hx y Hy).
Qed.

Lemma order_by_pending_sorted rows :
  Sorted.StronglySorted (fun a b => database.pending_order a b = true)
                 (database.order_by_pending rows).
Proof.
  induction rows as [ | row rows IH ]; simpl; [ constructor | ].
  apply insert_row_sorted, IH.
Qed.

(** X22: the pending events come in the order of the text of their score,
    greatest first, not in the order of priority: an event is never listed
    before one whose score is a greater text.  So an event scored High is
    never listed before one scored Low or Medium, and an event without a
    score is only ever followed by events without a score. *)
Theorem pending_events_order (self : database.Database)
    (before between after : list models.TriggerEvent) (a b : models.TriggerEvent) :
  database.get_pending_events self = inr (before ++ a :: between ++ b :: after)%list ->
  ~ database.text_lt (models.outreach_score a) (models.outreach_score b) /\
  (models.outreach_score a = Some "High" ->
   models.outreach_score b <> Some "Low" /\ models.outreach_score b <> Some "Medium") /\
  (models.outreach_score a = None -> models.outreach_score b = None).
Proof.
  unfold database.get_pending_events.
  destruct (database.conn self); [ | discriminate ]. intros [= Hevs].
  apply fmap_app_inv in Hevs as (rows1 & rows' & _ & Hrest & Hrows).
  symmetry in Hrest. apply fmap_cons_inv in Hrest as (ra & rows'' & -> & Hrest & ->).
  symmetry in Hrest. apply fmap_app_inv in Hrest as (rows2 & rows''' & _ & Hrest & ->).
  symmetry in Hrest. apply fmap_cons_inv in Hrest as (rb & rows3 & -> & _ & ->).
  pose proof (order_by_pending_sorted
                (List.filter (fun row => (database.delivery_status row =? "pending")%string)
                             (database.trigger_events self))) as Hsorted.
  rewrite Hrows in Hsorted.
  change (rows1 ++ ra :: rows2 ++ rb :: rows3)%list
    with (rows1 ++ [ra] ++ (rows2 ++ rb :: rows3))%list in Hsorted.
  rewrite app_assoc in Hsorted.
  assert (database.pending_order ra rb = true) as Horder.
  { apply (sorting.StronglySorted_app_1_elem_of _ _ _ ra rb Hsorted); set_solver. }
  apply pending_order_spec in Horder. simpl.
  assert (~ database.text_lt (database.outreach_score ra) (database.outreach_score rb))
    as Hnot.
  { intros Hlt. destruct Horder as [ Hgt | [Heq _] ].
    - exact (text_lt_irrefl _ (text_lt_trans _ _ _ Hlt Hgt)).
    - rewrite Heq in Hlt. exact (text_lt_irrefl _ Hlt). }
  split; [ exact Hnot | ]. split.
  - intros Ha. split; intros Hb; apply Hnot; rewrite Ha, Hb; reflexivity.
  - intros Ha. destruct (database.outreach_score rb) as [y | ] eqn:Hb; [ | reflexivity ].
    destruct Hnot. rewrite Ha. reflexivity.
Qed.


(** ** The further properties at concrete inputs *)

Lemma reordered_registration_same :
  same_mapping (JObj [("status", JStr "Active"); ("code", JInt 45012)])
               (JObj [("code", JInt 45012); ("status", JStr "Active")]).
Proof.
  apply same_obj.
  - intros k v. simpl.
    destruct (String.eqb_spec k "status") as [-> | _].
    { intros [= <-]. eexists. split; [ reflexivity | constructor ]. }
    destruct (String.eqb_spec k "code") as [-> | _]; [ | discriminate ].
    intros [= <-]. eexists. split; [ reflexivity | constructor ].
  - intros k. simpl.
    destruct (String.eqb_spec k "status"); [ discriminate | ].
    destruct (String.eqb_spec k "code"); [ discriminate | ].
    destruct (String.eqb_spec k "code"); [ contradiction | ].
    destruct (String.eqb_spec k "status"); [ contradiction | reflexivity ].
Qed.

Lemma events_stamped_with_entity_witness :
  exists e,
    result_of (differ.detect_all_changes (H := reference.reference_differ)
                 "45012" "Acme Training"
                 {[ "restrictions" := JObj [("kind", JStr "Condition")] ]} ∅)
              (mkWorld true [])
      = Ok [e] /\
    models.rto_code e = "45012" /\
    models.rto_name e = "Acme Training" /\
    exists endpoint,
      endpoint ∈ ["scope"; "regulatory"; "registration"; "contacts"; "restrictions"] /\
      models.source_url e =
        Some ("https://training.gov.au/organisation/details/" ++ "45012" ++ "#" ++ endpoint).
Proof.
  eexists. split; [ vm_compute; reflexivity | ].
  eapply (events_stamped_with_entity (H := reference.reference_differ)
           "45012" "Acme Training"
           {[ "restrictions" := JObj [("kind", JStr "Condition")] ]} ∅ (mkWorld true [])).
  - vm_compute. reflexivity.
  - left.
Defined.

Lemma events_types_and_categories_witness :
  exists e,
    result_of (differ.detect_all_changes (H := reference.reference_differ)
                 "45012" "Acme Training"
                 {[ "contacts" := JObj [("email", JStr "info@acme.example")] ]} ∅)
              (mkWorld true [])
      = Ok [e] /\
    exists t,
      t ∈ detector_types /\
      models.event_type e = events.EventType_value t /\
      models.event_category e =
        events.EventCategory_value (events.get_event_category (events.Member t)) /\
      models.event_category e ∈ ["Scope"; "Regulatory"; "Restriction"].
Proof.
  eexists. split; [ vm_compute; reflexivity | ].
  eapply (events_types_and_categories (H := reference.reference_differ)
           "45012" "Acme Training"
           {[ "contacts" := JObj [("email", JStr "info@acme.example")] ]} ∅
           (mkWorld true [])).
  - vm_compute. reflexivity.
  - left.
Defined.

Lemma events_carry_a_value_witness :
  exists e,
    result_of (differ.detect_all_changes (H := reference.reference_differ)
                 "45012" "Acme Training" ∅
                 {[ "contacts" := JObj [("email", JStr "info@acme.example")] ]})
              (mkWorld true [])
      = Ok [e] /\
    (models.old_value e <> None \/ models.new_value e <> None).
Proof.
  eexists. split; [ vm_compute; reflexivity | ].
  eapply (events_carry_a_value (H := reference.reference_differ)
           "45012" "Acme Training" ∅
           {[ "contacts" := JObj [("email", JStr "info@acme.example")] ]}
           (mkWorld true [])).
  - vm_compute. reflexivity.
  - left.
Defined.

Lemma at_most_one_event_per_resource_witness :
  exists evs,
    result_of (differ.detect_all_changes (H := reference.reference_differ)
                 "45012" "Acme Training"
                 {[ "scope" := JObj [("items", JArr [])];
                    "contacts" := JObj [("email", JStr "info@acme.example")] ]} ∅)
              (mkWorld true [])
      = Ok evs /\
    List.length evs = 2%nat /\
    (List.length evs <= 5)%nat.
Proof.
  eexists. split; [ vm_compute; reflexivity | ]. split; [ reflexivity | ].
  apply (at_most_one_event_per_resource (H := reference.reference_differ)
           "45012" "Acme Training"
           {[ "scope" := JObj [("items", JArr [])];
              "contacts" := JObj [("email", JStr "info@acme.example")] ]} ∅
           (mkWorld true [])).
  vm_compute. reflexivity.
Defined.

Lemma other_keys_are_ignored_witness :
  differ.detect_all_changes (H := reference.reference_differ) "45012" "Acme Training"
    (<["organisation" := JObj [("name", JStr "Acme Training")]]>
       {[ "contacts" := JObj [("email", JStr "info@acme.example")] ]})
    ∅ (mkWorld true [])
  = differ.detect_all_changes (H := reference.reference_differ) "45012" "Acme Training"
      {[ "contacts" := JObj [("email", JStr "info@acme.example")] ]} ∅ (mkWorld true []).
Proof.
  apply (other_keys_are_ignored (H := reference.reference_differ) "45012" "Acme Training"
           {[ "contacts" := JObj [("email", JStr "info@acme.example")] ]} ∅
           "organisation" (JObj [("name", JStr "Acme Training")]) (mkWorld true [])).
  apply (bool_decide_unpack _). vm_compute. exact I.
Defined.

Lemma unchanged_snapshot_is_silent_witness :
  let snapshot : gmap string json :=
    {[ "scope" := JObj [("items", JArr [JStr "BSB30120"; JStr "BSB40120"])] ]} in
  differ.detect_all_changes (H := reference.reference_differ) "45012" "Acme Training"
    snapshot snapshot (mkWorld true [])
  = (Ok [], mkWorld true []).
Proof.
  intros snapshot.
  apply (unchanged_snapshot_is_silent (H := reference.reference_differ)
           "45012" "Acme Training" snapshot (mkWorld true [])).
  intros endpoint Hin. unfold differ.ENDPOINTS in Hin.
  repeat (apply elem_of_cons in Hin as [-> | Hin]); [ .. | inversion Hin ];
    vm_compute; reflexivity.
Defined.

Lemma generic_change_event_witness :
  let baseline := JObj [("email", JStr "info@acme.example")] in
  let current := JObj [("email", JStr "hello@acme.example")] in
  result_of (differ._detect_endpoint_changes (H := reference.reference_differ)
               "45012" "Acme Training" "contacts" current baseline)
            (mkWorld true [])
  = Ok [ models.new "45012" "Acme Training" "scope_changed" "Scope"
           (Some (json_dumps baseline)) (Some (json_dumps current))
           (events.make_source_url "45012" "contacts") ].
Proof.
  intros baseline current.
  apply (generic_change_event (H := reference.reference_differ)
           "45012" "Acme Training" "contacts" current baseline (mkWorld true []));
    try discriminate.
  reflexivity.
Defined.

Lemma unhandled_reports_are_dropped_witness :
  let baseline := JObj [("items", JArr [])] in
  let current := JObj [("items", JArr []); ("note", JStr "under review")] in
  deepdiff.dictionary_item_added (reference.reference_differ baseline current)
    = ["root['note']"] /\
  result_of (differ._detect_endpoint_changes (H := reference.reference_differ)
               "45012" "Acme Training" "scope" current baseline)
            (mkWorld true [])
    = Ok [] /\
  result_of (differ._detect_endpoint_changes (H := reference.reference_differ)
               "45012" "Acme Training" "registration" current baseline)
            (mkWorld true [])
    = Ok [].
Proof.
  intros baseline current. split; [ reflexivity | ].
  destruct (unhandled_reports_are_dropped (H := reference.reference_differ)
              "45012" "Acme Training" current baseline (mkWorld true []))
    as [Hscope Hregistration]; try discriminate.
  split; [ apply Hscope; reflexivity | apply Hregistration; reflexivity ].
Defined.

Lemma detection_only_logs_witness :
  log_records
    (world_after
       (differ.detect_all_changes (H := reference.reference_differ) "45012" "Acme Training"
          {[ "contacts" := JObj [("email", JStr "info@acme.example")] ]} ∅)
       (mkWorld false ["started"]))
  = ["started"].
Proof.
  destruct (detection_only_logs (H := reference.reference_differ) "45012" "Acme Training"
              {[ "contacts" := JObj [("email", JStr "info@acme.example")] ]} ∅
              (mkWorld false ["started"]))
    as (_ & msgs & Hlog & _ & Hnone & _).
  rewrite Hlog, (Hnone eq_refl). reflexivity.
Defined.

Lemma store_baseline_ignores_key_order_witness :
  let hash := fun text : string => Z.of_nat (String.length text) in
  let self := database.mkDatabase true [] 0%Z [] 0%Z in
  database.store_baseline hash 1700000000%Z self "45012" "registration"
    (JObj [("status", JStr "Active"); ("code", JInt 45012)])
  = database.store_baseline hash 1700000000%Z self "45012" "registration"
      (JObj [("code", JInt 45012); ("status", JStr "Active")]).
Proof.
  intros hash self.
  apply (store_baseline_ignores_key_order hash 1700000000%Z self "45012" "registration").
  - reflexivity.
  - reflexivity.
  - exact reordered_registration_same.
Defined.

Lemma get_after_store_witness :
  let hash := fun text : string => Z.of_nat (String.length text) in
  let json_loads := fun text : string => if (text =? "{}")%string then Some (JObj []) else None in
  let self := database.mkDatabase true [] 0%Z [] 0%Z in
  let stored :=
    snd (database.store_baseline hash 1700000000%Z self "45012" "scope" (JObj [])) in
  database.get_baseline_hash stored "45012" "scope" = inr (Some "2") /\
  database.get_baseline json_loads stored "45012" "scope" = inr (JObj []).
Proof.
  intros hash json_loads self stored.
  destruct (get_after_store hash json_loads 1700000000%Z self "45012" "scope" (JObj []))
    as (_ & Hhash & Hget); [ reflexivity | ].
  split; [ exact Hhash | exact Hget ].
Defined.

Lemma store_leaves_other_baselines_witness :
  let hash := fun text : string => Z.of_nat (String.length text) in
  let json_loads := fun text : string => if (text =? "{}")%string then Some (JObj []) else None in
  let self :=
    snd (database.store_baseline hash 1700000000%Z (database.mkDatabase true [] 0%Z [] 0%Z)
           "45012" "scope" (JObj [])) in
  let stored :=
    snd (database.store_baseline hash 1700000600%Z self "45012" "contacts"
           (JObj [("email", JStr "info@acme.example")])) in
  database.get_baseline json_loads stored "45012" "scope" = inr (JObj []).
Proof.
  intros hash json_loads self stored.
  destruct (store_leaves_other_baselines hash json_loads 1700000600%Z self "45012" "contacts"
              (JObj [("email", JStr "info@acme.example")]) "45012" "scope")
    as [Hget _]; [ discriminate | ].
  fold stored in Hget. rewrite Hget. reflexivity.
Defined.

Lemma store_keeps_unique_keys_witness :
  let hash := fun text : string => Z.of_nat (String.length text) in
  let scope :=
    database.mkBaselineRow 1%Z "45012" "scope" "2" "{}" 1700000000%Z in
  let registration :=
    database.mkBaselineRow 2%Z "45012" "registration" "2" "{}" 1700000000%Z in
  let other :=
    database.mkBaselineRow 3%Z "90210" "scope" "2" "{}" 1700000000%Z in
  let self := database.mkDatabase true [scope; registration; other] 3%Z [] 0%Z in
  let stored :=
    snd (database.store_baseline hash 1700000600%Z self "45012" "scope"
           (JObj [("units", JArr [JStr "BSB30120"])])) in
  database.unique_keys self /\
  database.unique_keys stored /\
  map database.id (database.baselines stored) = [2%Z; 3%Z; 4%Z].
Proof.
  intros hash scope registration other self stored.
  assert (database.unique_keys self) as Hunique.
  { unfold database.unique_keys. simpl.
    repeat (apply NoDup_cons; split;
            [ intros Hin;
              repeat (apply elem_of_cons in Hin as [Hin | Hin]; [ discriminate Hin | ]);
              inversion Hin | ]).
    apply NoDup_nil_2. }
  split; [ exact Hunique | ]. split; [ | reflexivity ].
  apply (store_keeps_unique_keys hash 1700000600%Z self "45012" "scope"
           (JObj [("units", JArr [JStr "BSB30120"])]) Hunique).
Defined.

Lemma compute_hash_ignores_key_order_witness :
  tga_client.compute_hash (fun text => text)
    (JObj [("status", JStr "Active"); ("code", JInt 45012)])
  = tga_client.compute_hash (fun text => text)
      (JObj [("code", JInt 45012); ("status", JStr "Active")]).
Proof.
  apply (compute_hash_ignores_key_order (fun text => text)).
  - reflexivity.
  - reflexivity.
  - exact reordered_registration_same.
Defined.

Lemma disappeared_event_is_refused_witness :
  let self := database.mkDatabase true [] 0%Z [] 0%Z in
  exists e,
    result_of (differ._detect_endpoint_changes (H := reference.reference_differ)
                 "45012" "Acme Training" "contacts" JNull
                 (JObj [("email", JStr "info@acme.example")]))
              (mkWorld true [])
      = Ok [e] /\
    database.insert_trigger_event 1700000000%Z self e
      = (inl (database.IntegrityError
                "NOT NULL constraint failed: trigger_events.new_value"), self).
Proof.
  intros self.
  destruct (disappeared_event_is_refused (H := reference.reference_differ)
              "45012" "Acme Training" "contacts"
              (JObj [("email", JStr "info@acme.example")]) (mkWorld true [])
              1700000000%Z self) as (e & Hrun & Hrefused).
  - discriminate.
  - reflexivity.
  - exists e. split; [ exact Hrun | apply Hrefused; reflexivity ].
Defined.

Lemma inserted_event_is_pending_witness :
  let self := database.mkDatabase true [] 0%Z [] 0%Z in
  let e :=
    models.new "45012" "Acme Training" "scope_added" "Scope" None (Some "{}")
      "https://training.gov.au/organisation/details/45012#scope" in
  exists lastrowid evs,
    fst (database.insert_trigger_event 1700000000%Z self e) = inr lastrowid /\
    database.get_pending_events (snd (database.insert_trigger_event 1700000000%Z self e))
      = inr evs /\
    List.length evs = 1%nat.
Proof.
  intros self e.
  destruct (inserted_event_is_pending 1700000000%Z self e "{}")
    as (lastrowid & evs & Hid & Hevs & _); try reflexivity.
  exists lastrowid, evs. split; [ exact Hid | ]. split; [ exact Hevs | ].
  vm_compute in Hevs. injection Hevs as <-. reflexivity.
Defined.

Lemma pending_after_delivery_witness :
  let row :=
    database.mkEventRow 1%Z 1700000000%Z "45012" "Acme Training" "scope_added" "Scope" None "{}"
      (Some "High") None None None "pending" "New" in
  let self := database.mkDatabase true [] 0%Z [row] 1%Z in
  let e := database.event_of_row row in
  e ∈ @nil models.TriggerEvent <->
  e ∈ [e] /\ forall i, models.id e = Some i -> i ∉ [1%Z].
Proof.
  intros row self e.
  exact (pending_after_delivery 999%nat self [1%Z] _ _ eq_refl eq_refl e).
Defined.

Lemma pending_events_order_witness :
  let medium :=
    database.mkEventRow 1%Z 1700000000%Z "45012" "Acme Training" "scope_added" "Scope" None "{}"
      (Some "Medium") None None None "pending" "New" in
  let high :=
    database.mkEventRow 2%Z 1700000600%Z "45012" "Acme Training" "regulatory_new" "Regulatory"
      None "{}" (Some "High") None None None "pending" "New" in
  let self := database.mkDatabase true [] 0%Z [high; medium] 2%Z in
  database.get_pending_events self
    = inr [database.event_of_row medium; database.event_of_row high] /\
  ~ database.text_lt (Some "Medium") (Some "High").
Proof.
  intros medium high self. split; [ reflexivity | ].
  apply (pending_events_order self [] [] []
           (database.event_of_row medium) (database.event_of_row high)).
  reflexivity.
Defined.

